(** * SnapOS Location Tools: location readings, display selection and map pin

    A shallow embedding of the TypeScript components under [Assets/Scripts]:
    [LocationManager], [MobileKitManager], [FloatingDetailsUIContentManager],
    [HandLockedUIContentManager] and the button callbacks of the two
    presentation managers. The placement of the hand-locked panel in space is
    left out.

    Conventions of the embedding.
    - A JavaScript [number] is an IEEE-754 binary64 value: the kernel's
      primitive [float].  [===] on numbers is [PrimFloat.eqb].
    - An [@input] reference is optional at run time: [None] (or [false] for a
      reference to one of the singleton components) is an input left
      unassigned in the scene; reading a property of it throws a [TypeError].
    - A component method is a function on the whole scene ([World]); a method
      that can throw returns an [Outcome], carrying the scene as it was when
      the exception left the method.
    - [print] appends a line to [console]. *)

From Stdlib Require Import String Ascii List Bool Arith Lia RelationClasses.
From Stdlib Require Import Floats.PrimFloat.
Import ListNotations.

Set Warnings "-inexact-float,-register-all".
Local Open Scope string_scope.

(** ** JavaScript values, as [JSON.parse] builds them *)

Inductive JsValue : Type :=
| JNull
| JBool (b : bool)
| JNumber (x : float)
| JString (s : string)
| JArray (items : list JsValue)
| JObject (props : list (string * JsValue)).

(** The outcome of [JSON.parse(response)]: a value, or a thrown [SyntaxError]
    (carried as the text [`${error}`] prints). *)
Inductive ParseResult : Type :=
| Parsed (v : JsValue)
| ParseError (error : string).

(** An expression that may throw: [Throw e] carries the error's text. *)
Inductive Completion (A : Type) : Type :=
| Normal (a : A)
| Throw (error : string).
Arguments Normal {A} a.
Arguments Throw {A} error.

Definition TypeError : string := "TypeError".

(** Own property [k] of an object literal; of two equal keys [JSON.parse]
    keeps the later one. [None] is JavaScript's [undefined]. *)
Fixpoint ownProperty (props : list (string * JsValue)) (k : string) : option JsValue :=
  match props with
  | [] => None
  | (k', v) :: rest =>
      match ownProperty rest k with
      | Some later => Some later
      | None => if String.eqb k' k then Some v else None
      end
  end.

(** [v.k] for one of the payload's keys: a [TypeError] on [null], [undefined]
    on a primitive or an array, the own property on an object. *)
Definition getMember (v : JsValue) (k : string) : Completion (option JsValue) :=
  match v with
  | JNull => Throw TypeError
  | JObject props => Normal (ownProperty props k)
  | _ => Normal None
  end.

(** [v === 0]. *)
Definition strictEqualsZero (v : JsValue) : bool :=
  match v with
  | JNumber x => PrimFloat.eqb x 0%float
  | _ => false
  end.

Definition newline : string := String (ascii_of_nat 10) EmptyString.

(** The suffix literal of the heading texts, byte for byte as in the source. *)
Definition degreeSuffix : string :=
  String (ascii_of_nat 195) (String (ascii_of_nat 130)
    (String (ascii_of_nat 194) (String (ascii_of_nat 176) EmptyString))).

(** [vec4], the colour of a text fill. *)
Record vec4 : Type := Vec4 { vx : float; vy : float; vz : float; vw : float }.

Definition lightGrey : vec4 := Vec4 0.5 0.5 0.5 1.
Definition white : vec4 := Vec4 1 1 1 1.

(** ** The map surface *)

(** A pin on the map surface. [createMapPin] is called with the secondary
    reading's coordinates as they are stored, longitude first. *)
Record MapPin : Type := {
  pinId : nat;
  pinLongitude : JsValue;
  pinLatitude : JsValue
}.

(** Modelled from the spec: the map surface ([MapComponent], not among the
    scripts of this development) owns the pins; [createMapPin] adds a pin with
    a fresh handle and returns it, [removeMapPin] takes the pin with that
    handle off the surface. Only the pins made through this development's
    calls are tracked. *)
Record MapComponent : Type := {
  pins : list MapPin;
  nextPinId : nat
}.

Definition createMapPin (m : MapComponent) (longitude latitude : JsValue)
  : MapPin * MapComponent :=
  let p := {| pinId := nextPinId m; pinLongitude := longitude; pinLatitude := latitude |} in
  (p, {| pins := pins m ++ [p]; nextPinId := S (nextPinId m) |}).

Definition removeMapPin (m : MapComponent) (p : MapPin) : MapComponent :=
  {| pins := filter (fun q => negb (Nat.eqb (pinId q) (pinId p))) (pins m);
     nextPinId := nextPinId m |}.

(** ** The position object of the location service *)

(** [GeoPosition]: the fields the success callback reads, and [heading], which
    the platform's position object carries too and the callback does not read. *)
Module GeoPosition.
Record t : Type := {
  locationSource : string;
  latitude : float;
  longitude : float;
  horizontalAccuracy : float;
  altitude : float;
  verticalAccuracy : float;
  heading : float
}.
End GeoPosition.

(** ** Component state *)

Module LocationManager.
Record t : Type := {
  floatingDetailsUIContentManager : bool;
  locationSource : string;
  latitude : float;
  longitude : float;
  horizontalAccuracy : float;
  altitude : float;
  verticalAccuracy : float;
  heading : float;
  (** [locationService]: the [getCurrentPosition] requests whose callback has
      not been delivered yet. *)
  pendingPositionRequests : nat;
  (** [repeatProcessGeoPositionEvent]: the delay it was last [reset] to while
      it has not fired, [None] when it is not armed. *)
  repeatProcessGeoPositionEvent : option float
}.

Definition withReading (m : t) (g : GeoPosition.t) : t :=
  {| floatingDetailsUIContentManager := floatingDetailsUIContentManager m;
     locationSource := GeoPosition.locationSource g;
     latitude := GeoPosition.latitude g;
     longitude := GeoPosition.longitude g;
     horizontalAccuracy := GeoPosition.horizontalAccuracy g;
     altitude := GeoPosition.altitude g;
     verticalAccuracy := GeoPosition.verticalAccuracy g;
     heading := heading m;
     pendingPositionRequests := pendingPositionRequests m;
     repeatProcessGeoPositionEvent := repeatProcessGeoPositionEvent m |}.

Definition withHeading (m : t) (h : float) : t :=
  {| floatingDetailsUIContentManager := floatingDetailsUIContentManager m;
     locationSource := locationSource m;
     latitude := latitude m;
     longitude := longitude m;
     horizontalAccuracy := horizontalAccuracy m;
     altitude := altitude m;
     verticalAccuracy := verticalAccuracy m;
     heading := h;
     pendingPositionRequests := pendingPositionRequests m;
     repeatProcessGeoPositionEvent := repeatProcessGeoPositionEvent m |}.

Definition withService (m : t) (pending : nat) (timer : option float) : t :=
  {| floatingDetailsUIContentManager := floatingDetailsUIContentManager m;
     locationSource := locationSource m;
     latitude := latitude m;
     longitude := longitude m;
     horizontalAccuracy := horizontalAccuracy m;
     altitude := altitude m;
     verticalAccuracy := verticalAccuracy m;
     heading := heading m;
     pendingPositionRequests := pending;
     repeatProcessGeoPositionEvent := timer |}.

(** The primary reading: the seven stored values. *)
Definition reading (m : t) : string * float * float * float * float * float * float :=
  (locationSource m, latitude m, longitude m, horizontalAccuracy m, altitude m,
   verticalAccuracy m, heading m).

(** The property initialisers of the class. *)
Definition atStart (m : t) : t :=
  {| floatingDetailsUIContentManager := floatingDetailsUIContentManager m;
     locationSource := "";
     latitude := 0;
     longitude := 0;
     horizontalAccuracy := 0;
     altitude := 0;
     verticalAccuracy := 0;
     heading := 0;
     pendingPositionRequests := 0;
     repeatProcessGeoPositionEvent := None |}.
End LocationManager.

Module MobileKitManager.
(** The five properties are declared [number]; the subscription callback
    stores whatever value the payload holds under the key, so the run-time
    value is a [JsValue]. *)
Record t : Type := {
  floatingDetailsUIContentManager : bool;
  latitude : JsValue;
  longitude : JsValue;
  horizontalAccuracy : JsValue;
  altitude : JsValue;
  verticalAccuracy : JsValue
}.

Definition withLatitude (m : t) (v : JsValue) : t :=
  {| floatingDetailsUIContentManager := floatingDetailsUIContentManager m;
     latitude := v; longitude := longitude m;
     horizontalAccuracy := horizontalAccuracy m;
     altitude := altitude m; verticalAccuracy := verticalAccuracy m |}.

Definition withLongitude (m : t) (v : JsValue) : t :=
  {| floatingDetailsUIContentManager := floatingDetailsUIContentManager m;
     latitude := latitude m; longitude := v;
     horizontalAccuracy := horizontalAccuracy m;
     altitude := altitude m; verticalAccuracy := verticalAccuracy m |}.

Definition withHorizontalAccuracy (m : t) (v : JsValue) : t :=
  {| floatingDetailsUIContentManager := floatingDetailsUIContentManager m;
     latitude := latitude m; longitude := longitude m;
     horizontalAccuracy := v;
     altitude := altitude m; verticalAccuracy := verticalAccuracy m |}.

Definition withAltitude (m : t) (v : JsValue) : t :=
  {| floatingDetailsUIContentManager := floatingDetailsUIContentManager m;
     latitude := latitude m; longitude := longitude m;
     horizontalAccuracy := horizontalAccuracy m;
     altitude := v; verticalAccuracy := verticalAccuracy m |}.

Definition withVerticalAccuracy (m : t) (v : JsValue) : t :=
  {| floatingDetailsUIContentManager := floatingDetailsUIContentManager m;
     latitude := latitude m; longitude := longitude m;
     horizontalAccuracy := horizontalAccuracy m;
     altitude := altitude m; verticalAccuracy := v |}.

Definition atStart (m : t) : t :=
  {| floatingDetailsUIContentManager := floatingDetailsUIContentManager m;
     latitude := JNumber 0; longitude := JNumber 0;
     horizontalAccuracy := JNumber 0;
     altitude := JNumber 0; verticalAccuracy := JNumber 0 |}.
End MobileKitManager.

Module FloatingDetailsUIContentManager.
Record t : Type := {
  mapComponent : option MapComponent;
  locationManager : bool;
  (** the [text] of the element *)
  locationDataText : option string;
  (** the [enabled] flag of the scene object *)
  mobileKitManagerSceneObject : option bool;
  mobileKitManager : bool;
  (** the [inactive] flag of the button *)
  startMobileKitButton : option bool;
  (** the [textFill.color] of the element *)
  startMobileKitButtonText : option vec4;
  (** the [text] of the element *)
  mobileKitText : option string;
  mobileKitPin : option MapPin
}.

Definition withLocationDataText (f : t) (x : option string) : t :=
  {| mapComponent := mapComponent f; locationManager := locationManager f;
     locationDataText := x;
     mobileKitManagerSceneObject := mobileKitManagerSceneObject f;
     mobileKitManager := mobileKitManager f;
     startMobileKitButton := startMobileKitButton f;
     startMobileKitButtonText := startMobileKitButtonText f;
     mobileKitText := mobileKitText f; mobileKitPin := mobileKitPin f |}.

Definition withSceneObject (f : t) (x : option bool) : t :=
  {| mapComponent := mapComponent f; locationManager := locationManager f;
     locationDataText := locationDataText f;
     mobileKitManagerSceneObject := x;
     mobileKitManager := mobileKitManager f;
     startMobileKitButton := startMobileKitButton f;
     startMobileKitButtonText := startMobileKitButtonText f;
     mobileKitText := mobileKitText f; mobileKitPin := mobileKitPin f |}.

Definition withButton (f : t) (x : option bool) : t :=
  {| mapComponent := mapComponent f; locationManager := locationManager f;
     locationDataText := locationDataText f;
     mobileKitManagerSceneObject := mobileKitManagerSceneObject f;
     mobileKitManager := mobileKitManager f;
     startMobileKitButton := x;
     startMobileKitButtonText := startMobileKitButtonText f;
     mobileKitText := mobileKitText f; mobileKitPin := mobileKitPin f |}.

Definition withButtonText (f : t) (x : option vec4) : t :=
  {| mapComponent := mapComponent f; locationManager := locationManager f;
     locationDataText := locationDataText f;
     mobileKitManagerSceneObject := mobileKitManagerSceneObject f;
     mobileKitManager := mobileKitManager f;
     startMobileKitButton := startMobileKitButton f;
     startMobileKitButtonText := x;
     mobileKitText := mobileKitText f; mobileKitPin := mobileKitPin f |}.

Definition withMobileKitText (f : t) (x : option string) : t :=
  {| mapComponent := mapComponent f; locationManager := locationManager f;
     locationDataText := locationDataText f;
     mobileKitManagerSceneObject := mobileKitManagerSceneObject f;
     mobileKitManager := mobileKitManager f;
     startMobileKitButton := startMobileKitButton f;
     startMobileKitButtonText := startMobileKitButtonText f;
     mobileKitText := x; mobileKitPin := mobileKitPin f |}.

Definition withMap (f : t) (m : option MapComponent) (p : option MapPin) : t :=
  {| mapComponent := m; locationManager := locationManager f;
     locationDataText := locationDataText f;
     mobileKitManagerSceneObject := mobileKitManagerSceneObject f;
     mobileKitManager := mobileKitManager f;
     startMobileKitButton := startMobileKitButton f;
     startMobileKitButtonText := startMobileKitButtonText f;
     mobileKitText := mobileKitText f; mobileKitPin := p |}.

(** [mobileKitPin] starts as [null]; the map surface starts without pins of
    this component. *)
Definition atStart (f : t) : t :=
  withMap f
    (match mapComponent f with
     | Some m => Some {| pins := []; nextPinId := nextPinId m |}
     | None => None
     end)
    None.
End FloatingDetailsUIContentManager.

(** The five status images of the compact panel, by the input they are
    assigned to (five distinct scene objects). *)
Inductive StatusImage : Type := White | Red | Blue | Yellow | Green.

Definition StatusImage_eqb (a b : StatusImage) : bool :=
  match a, b with
  | White, White | Red, Red | Blue, Blue | Yellow, Yellow | Green, Green => true
  | _, _ => false
  end.

Module HandLockedUIContentManager.
Record t : Type := {
  locationManager : bool;
  (** the [sceneObject.enabled] flag of each image *)
  gpsStatusWhiteImage : option bool;
  gpsStatusRedImage : option bool;
  gpsStatusBlueImage : option bool;
  gpsStatusYellowImage : option bool;
  gpsStatusGreenImage : option bool;
  sourceValueText : option string;
  accuracyValueText : option string;
  (** the angle, about the forward axis, of the image's local rotation *)
  compassImage : option float;
  headingValueText : option string;
  lastLocationSource : string;
  (** Ghost: every assignment to a status image's [sceneObject.enabled] made
      so far, oldest first. *)
  visibilityWrites : list (StatusImage * bool)
}.

Definition image (h : t) (i : StatusImage) : option bool :=
  match i with
  | White => gpsStatusWhiteImage h
  | Red => gpsStatusRedImage h
  | Blue => gpsStatusBlueImage h
  | Yellow => gpsStatusYellowImage h
  | Green => gpsStatusGreenImage h
  end.

(** [image.sceneObject.enabled = b] on the image assigned to input [i]. *)
Definition setEnabled (h : t) (i : StatusImage) (b : bool) : t :=
  {| locationManager := locationManager h;
     gpsStatusWhiteImage := match i with White => Some b | _ => gpsStatusWhiteImage h end;
     gpsStatusRedImage := match i with Red => Some b | _ => gpsStatusRedImage h end;
     gpsStatusBlueImage := match i with Blue => Some b | _ => gpsStatusBlueImage h end;
     gpsStatusYellowImage := match i with Yellow => Some b | _ => gpsStatusYellowImage h end;
     gpsStatusGreenImage := match i with Green => Some b | _ => gpsStatusGreenImage h end;
     sourceValueText := sourceValueText h;
     accuracyValueText := accuracyValueText h;
     compassImage := compassImage h;
     headingValueText := headingValueText h;
     lastLocationSource := lastLocationSource h;
     visibilityWrites := visibilityWrites h ++ [(i, b)] |}.

Definition withLastLocationSource (h : t) (s : string) : t :=
  {| locationManager := locationManager h;
     gpsStatusWhiteImage := gpsStatusWhiteImage h;
     gpsStatusRedImage := gpsStatusRedImage h;
     gpsStatusBlueImage := gpsStatusBlueImage h;
     gpsStatusYellowImage := gpsStatusYellowImage h;
     gpsStatusGreenImage := gpsStatusGreenImage h;
     sourceValueText := sourceValueText h;
     accuracyValueText := accuracyValueText h;
     compassImage := compassImage h;
     headingValueText := headingValueText h;
     lastLocationSource := s;
     visibilityWrites := visibilityWrites h |}.

Definition withTexts (h : t) (source accuracy heading : option string) : t :=
  {| locationManager := locationManager h;
     gpsStatusWhiteImage := gpsStatusWhiteImage h;
     gpsStatusRedImage := gpsStatusRedImage h;
     gpsStatusBlueImage := gpsStatusBlueImage h;
     gpsStatusYellowImage := gpsStatusYellowImage h;
     gpsStatusGreenImage := gpsStatusGreenImage h;
     sourceValueText := source;
     accuracyValueText := accuracy;
     compassImage := compassImage h;
     headingValueText := heading;
     lastLocationSource := lastLocationSource h;
     visibilityWrites := visibilityWrites h |}.

Definition withCompass (h : t) (angle : option float) : t :=
  {| locationManager := locationManager h;
     gpsStatusWhiteImage := gpsStatusWhiteImage h;
     gpsStatusRedImage := gpsStatusRedImage h;
     gpsStatusBlueImage := gpsStatusBlueImage h;
     gpsStatusYellowImage := gpsStatusYellowImage h;
     gpsStatusGreenImage := gpsStatusGreenImage h;
     sourceValueText := sourceValueText h;
     accuracyValueText := accuracyValueText h;
     compassImage := angle;
     headingValueText := headingValueText h;
     lastLocationSource := lastLocationSource h;
     visibilityWrites := visibilityWrites h |}.

(** [lastLocationSource] is initialised to the empty string; nothing has been
    written to a status image yet. *)
Definition atStart (h : t) : t :=
  {| locationManager := locationManager h;
     gpsStatusWhiteImage := gpsStatusWhiteImage h;
     gpsStatusRedImage := gpsStatusRedImage h;
     gpsStatusBlueImage := gpsStatusBlueImage h;
     gpsStatusYellowImage := gpsStatusYellowImage h;
     gpsStatusGreenImage := gpsStatusGreenImage h;
     sourceValueText := sourceValueText h;
     accuracyValueText := accuracyValueText h;
     compassImage := compassImage h;
     headingValueText := headingValueText h;
     lastLocationSource := "";
     visibilityWrites := [] |}.
End HandLockedUIContentManager.

(** The inputs of the two presentation managers that the button callbacks
    use; [true] is an assigned input. *)
Module HandLockedUIPresentationManager.
Record t : Type := {
  floatingDetailsUIContentManager : bool;
  floatingDetailsUIFrame : bool
}.
End HandLockedUIPresentationManager.

Module FloatingDetailsUIPresentationManager.
Record t : Type := {
  floatingDetailsUIFrame : bool
}.
End FloatingDetailsUIPresentationManager.

Module LM := LocationManager.
Module MK := MobileKitManager.
Module FD := FloatingDetailsUIContentManager.
Module HL := HandLockedUIContentManager.
Module HP := HandLockedUIPresentationManager.
Module FP := FloatingDetailsUIPresentationManager.

(** ** The scene *)

Record World : Type := {
  (** [global.deviceInfoSystem.isEditor()] *)
  isEditor : bool;
  locationManager : LM.t;
  mobileKitManager : MK.t;
  floatingDetails : FD.t;
  handLocked : HL.t;
  handLockedPresentation : HP.t;
  floatingDetailsPresentation : FP.t;
  (** The frame of the detailed panel, the scene object both
      [floatingDetailsUIFrame] inputs refer to: its [enabled] flag. *)
  floatingDetailsUIFrameEnabled : bool;
  console : list string
}.

Definition withLM (w : World) (m : LM.t) : World :=
  {| isEditor := isEditor w; locationManager := m;
     mobileKitManager := mobileKitManager w;
     floatingDetails := floatingDetails w; handLocked := handLocked w;
     handLockedPresentation := handLockedPresentation w;
     floatingDetailsPresentation := floatingDetailsPresentation w;
     floatingDetailsUIFrameEnabled := floatingDetailsUIFrameEnabled w;
     console := console w |}.

Definition withMK (w : World) (m : MK.t) : World :=
  {| isEditor := isEditor w; locationManager := locationManager w;
     mobileKitManager := m;
     floatingDetails := floatingDetails w; handLocked := handLocked w;
     handLockedPresentation := handLockedPresentation w;
     floatingDetailsPresentation := floatingDetailsPresentation w;
     floatingDetailsUIFrameEnabled := floatingDetailsUIFrameEnabled w;
     console := console w |}.

Definition withFD (w : World) (f : FD.t) : World :=
  {| isEditor := isEditor w; locationManager := locationManager w;
     mobileKitManager := mobileKitManager w;
     floatingDetails := f; handLocked := handLocked w;
     handLockedPresentation := handLockedPresentation w;
     floatingDetailsPresentation := floatingDetailsPresentation w;
     floatingDetailsUIFrameEnabled := floatingDetailsUIFrameEnabled w;
     console := console w |}.

Definition withHL (w : World) (h : HL.t) : World :=
  {| isEditor := isEditor w; locationManager := locationManager w;
     mobileKitManager := mobileKitManager w;
     floatingDetails := floatingDetails w; handLocked := h;
     handLockedPresentation := handLockedPresentation w;
     floatingDetailsPresentation := floatingDetailsPresentation w;
     floatingDetailsUIFrameEnabled := floatingDetailsUIFrameEnabled w;
     console := console w |}.

Definition withFrameEnabled (w : World) (x : bool) : World :=
  {| isEditor := isEditor w; locationManager := locationManager w;
     mobileKitManager := mobileKitManager w;
     floatingDetails := floatingDetails w; handLocked := handLocked w;
     handLockedPresentation := handLockedPresentation w;
     floatingDetailsPresentation := floatingDetailsPresentation w;
     floatingDetailsUIFrameEnabled := x;
     console := console w |}.

Definition print (line : string) (w : World) : World :=
  {| isEditor := isEditor w; locationManager := locationManager w;
     mobileKitManager := mobileKitManager w;
     floatingDetails := floatingDetails w; handLocked := handLocked w;
     handLockedPresentation := handLockedPresentation w;
     floatingDetailsPresentation := floatingDetailsPresentation w;
     floatingDetailsUIFrameEnabled := floatingDetailsUIFrameEnabled w;
     console := console w ++ [line] |}.

(** The scene at component start: the assigned inputs and the scene objects
    of [w], every component property at its initialiser, nothing printed. *)
Definition atStart (w : World) : World :=
  {| isEditor := isEditor w;
     locationManager := LM.atStart (locationManager w);
     mobileKitManager := MK.atStart (mobileKitManager w);
     floatingDetails := FD.atStart (floatingDetails w);
     handLocked := HL.atStart (handLocked w);
     handLockedPresentation := handLockedPresentation w;
     floatingDetailsPresentation := floatingDetailsPresentation w;
     floatingDetailsUIFrameEnabled := floatingDetailsUIFrameEnabled w;
     console := [] |}.

(** How a method ends: normally, or by an exception that leaves it. *)
Inductive Outcome : Type :=
| Done (w : World)
| Threw (error : string) (w : World).

Definition andThen (f g : World -> Outcome) (w : World) : Outcome :=
  match f w with
  | Done w' => g w'
  | Threw e w' => Threw e w'
  end.

Notation "f ;; g" := (andThen f g) (at level 61, right associativity).

(** The scene an outcome leaves behind. *)
Definition sceneOf (o : Outcome) : World :=
  match o with
  | Done w => w
  | Threw _ w => w
  end.

(** A method that cannot throw, as a step of a sequence. *)
Definition always (f : World -> World) (w : World) : Outcome := Done (f w).

(** ** [LocationManager]: the pure utilities *)

(** [LocationManager.getShortLocationSource]; the [switch] compares with
    [===], case by case in the order written. *)
Definition getShortLocationSource (locationSource : string) : string :=
  if String.eqb locationSource "NOT_AVAILABLE" then "Not available"
  else if String.eqb locationSource "GNSS_RECEIVER" then "GNSS / GPS"
  else if String.eqb locationSource "WIFI_POSITIONING_SYSTEM" then "WiFi"
  else if String.eqb locationSource "FUSED_LOCATION" then "Fused"
  else if String.eqb locationSource "" then "Unknown"
  else "Unknown".

(** [HandLockedUIContentManager.getGPSStatusImage]: the input whose image the
    [switch] returns. *)
Definition getGPSStatusImage (locationSource : string) : StatusImage :=
  if String.eqb locationSource "" then White
  else if String.eqb locationSource "NOT_AVAILABLE" then Red
  else if String.eqb locationSource "GNSS_RECEIVER" then Blue
  else if String.eqb locationSource "WIFI_POSITIONING_SYSTEM" then Yellow
  else if String.eqb locationSource "FUSED_LOCATION" then Green
  else White.

(** The five labels of the primary source's enumeration. *)
Definition locationSources : list string :=
  [""; "NOT_AVAILABLE"; "GNSS_RECEIVER"; "WIFI_POSITIONING_SYSTEM"; "FUSED_LOCATION"].

Definition statusImages : list StatusImage := [White; Red; Blue; Yellow; Green].

(** [Math.PI] *)
Definition PI : float := 3.141592653589793%float.

(** ** [HandLockedUIPresentationManager]: the panel that follows the hand *)

(** The frame loop of the presentation manager reads the left hand and the
    camera and writes the back plate only; it is kept apart from the scene
    of the other components. *)
Module HandLockedUIPlacement.

(** The platform's vectors and rotations, as far as [positionUI] uses
    them. *)
Class VectorPlatform (vec3 quat : Type) : Type := {
  newVec3 : float -> float -> float -> vec3;
  up : vec3;
  add : vec3 -> vec3 -> vec3;
  sub : vec3 -> vec3 -> vec3;
  uniformScale : vec3 -> float -> vec3;
  normalize : vec3 -> vec3;
  lerp : vec3 -> vec3 -> float -> vec3;
  lookAt : vec3 -> vec3 -> quat
}.

Section Frame.
Variables vec3 quat : Type.
Context {platform : VectorPlatform vec3 quat}.

(** A scene object: its [enabled] flag, and the world position and rotation
    of its transform. *)
Record SceneObject : Type := {
  enabled : bool;
  worldPosition : vec3;
  worldRotation : quat
}.

(** [SIK.HandInputData.getHand("left")], as far as the component reads it. *)
Record TrackedHand : Type := {
  isTracked : bool;
  isFacingCamera : bool;
  pinkyKnucklePosition : vec3;
  pinkyKnuckleRight : vec3
}.

Record t : Type := {
  isEditor : bool;
  handLockedUIBackPlate : option SceneObject;
  leftHand : TrackedHand;
  (** [mCamera.getWorldPosition()] *)
  cameraWorldPosition : vec3;
  console : list string
}.

(** How a callback ended, and the state it left. *)
Inductive Ended : Type :=
| Returned (p : t)
| Raised (error : string) (p : t).

Definition stateOf (r : Ended) : t :=
  match r with
  | Returned p => p
  | Raised _ p => p
  end.

Definition print (line : string) (p : t) : t :=
  {| isEditor := isEditor p; handLockedUIBackPlate := handLockedUIBackPlate p;
     leftHand := leftHand p; cameraWorldPosition := cameraWorldPosition p;
     console := console p ++ [line] |}.

Definition withBackPlate (p : t) (plate : SceneObject) : t :=
  {| isEditor := isEditor p; handLockedUIBackPlate := Some plate;
     leftHand := leftHand p; cameraWorldPosition := cameraWorldPosition p;
     console := console p |}.

(** [this.handLockedUIBackPlate.enabled = b] *)
Definition setBackPlateEnabled (b : bool) (p : t) : Ended :=
  match handLockedUIBackPlate p with
  | None => Raised TypeError p
  | Some plate =>
      Returned (withBackPlate p {| enabled := b;
                                   worldPosition := worldPosition plate;
                                   worldRotation := worldRotation plate |})
  end.

(** The callback bound to the [DelayedCallbackEvent] in [onAwake]. *)
Definition delayedCallback (p : t) : Ended :=
  if isEditor p then setBackPlateEnabled true p
  else setBackPlateEnabled false p.

(** [positionUI] *)
Definition positionUI (p : t) : t :=
  match handLockedUIBackPlate p with
  | None => print "positionUI() - Warning: handLockedUIBackPlate is not assigned." p
  | Some plate =>
      let currentWorldPosition := worldPosition plate in
      let targetWorldPosition :=
        if isEditor p then newVec3 0 0 (-100)
        else add (pinkyKnucklePosition (leftHand p))
                 (uniformScale (pinkyKnuckleRight (leftHand p)) 7) in
      let lerpedTargetWorldPosition :=
        lerp currentWorldPosition targetWorldPosition 0.2 in
      let directionToCamera :=
        normalize (sub (cameraWorldPosition p) lerpedTargetWorldPosition) in
      withBackPlate p {| enabled := enabled plate;
                         worldPosition := lerpedTargetWorldPosition;
                         worldRotation := lookAt directionToCamera up |}
  end.

(** [checkForUIActivation] *)
Definition checkForUIActivation (p : t) : Ended :=
  if isEditor p then setBackPlateEnabled true p
  else if isTracked (leftHand p) && isFacingCamera (leftHand p)
       then setBackPlateEnabled true p
       else setBackPlateEnabled false p.

(** [onUpdate], every frame. *)
Definition onUpdate (p : t) : Ended :=
  checkForUIActivation (positionUI p).

End Frame.

Arguments enabled {vec3 quat} _.
Arguments worldPosition {vec3 quat} _.
Arguments worldRotation {vec3 quat} _.
Arguments isTracked {vec3} _.
Arguments isFacingCamera {vec3} _.
Arguments isEditor {vec3 quat} _.
Arguments handLockedUIBackPlate {vec3 quat} _.
Arguments leftHand {vec3 quat} _.
Arguments console {vec3 quat} _.
Arguments Returned {vec3 quat} p.
Arguments Raised {vec3 quat} error p.
Arguments stateOf {vec3 quat} r.
Arguments print {vec3 quat} line p.
Arguments delayedCallback {vec3 quat} p.
Arguments positionUI {vec3 quat platform} p.
Arguments checkForUIActivation {vec3 quat} p.
Arguments onUpdate {vec3 quat platform} p.

End HandLockedUIPlacement.

(** ** [MobileKitManager]: the session *)

(** [onStart] and [startSession] against the mobile kit module: the session
    calls back when it connects and disconnects, the subscription when it
    fails. The promise awaited in [startSession] is settled by the first
    [resolve]; a later [resolve] does nothing. *)
Module MobileKitSession.

Record t : Type := {
  isEditor : bool;
  (** sessions created and started *)
  sessions : nat;
  (** the promise of [startSession] is awaited and not settled *)
  awaitingConnection : bool;
  (** ["gps-location"] subscriptions started *)
  subscriptions : nat;
  console : list string
}.

Definition print (line : string) (s : t) : t :=
  {| isEditor := isEditor s; sessions := sessions s;
     awaitingConnection := awaitingConnection s; subscriptions := subscriptions s;
     console := console s ++ [line] |}.

(** [startSession] up to the [await]: [createSession] and [start] are taken
    to return; the session is created, its two callbacks are added, and it
    is started. *)
Definition startSession (s : t) : t :=
  let s1 := print "startSession() - Awaiting session connection" s in
  {| isEditor := isEditor s1; sessions := S (sessions s1);
     awaitingConnection := true; subscriptions := subscriptions s1;
     console := console s1 |}.

(** [onStart] *)
Definition onStart (s : t) : t :=
  if isEditor s
  then print "onStart() - Mobile Kit is not available in the Lens Studio editor" s
  else startSession (print "onStart() - Mobile Kit starting on Spectacles" s).

(** [startGPSLocationSubscription], given what [session.startSubscription]
    does: it returns the subscription or throws. *)
Definition startGPSLocationSubscription (startSubscription : Completion unit) (s : t)
  : Completion t :=
  match startSubscription with
  | Throw error => Throw error
  | Normal _ =>
      Normal {| isEditor := isEditor s; sessions := sessions s;
                awaitingConnection := awaitingConnection s;
                subscriptions := S (subscriptions s);
                console := console s |}
  end.

(** [startSession] after the [await], inside its [try]. *)
Definition sessionConnected (startSubscription : Completion unit) (s : t) : t :=
  let s1 := print "startSession() - Session connected" s in
  match startGPSLocationSubscription startSubscription s1 with
  | Normal s2 => s2
  | Throw error => print ("startSession() - Error: " ++ error) s1
  end.

(** What the session and the subscription deliver. *)
Inductive Event : Type :=
| Connected (startSubscription : Completion unit)
| Disconnected
| SubscriptionError (error : string).

(** One callback, with the continuation of [startSession] when the callback
    settles the promise. *)
Definition step (e : Event) (s : t) : t :=
  match e with
  | Connected startSubscription =>
      let s1 := print "startSession() - session.onConnected callback triggered" s in
      if awaitingConnection s1
      then sessionConnected startSubscription
             {| isEditor := isEditor s1; sessions := sessions s1;
                awaitingConnection := false; subscriptions := subscriptions s1;
                console := console s1 |}
      else s1
  | Disconnected => print "startSession() - session.onDisconnected callback triggered" s
  | SubscriptionError error =>
      print ("startGPSLocationSubscription() - GPS Location subscription error: " ++ error) s
  end.

Definition run (events : list Event) (s : t) : t :=
  fold_left (fun s0 e => step e s0) events s.

(** Before [OnStartEvent]. *)
Definition atStart (editor : bool) : t :=
  {| isEditor := editor; sessions := 0; awaitingConnection := false;
     subscriptions := 0; console := [] |}.

End MobileKitSession.

Module UP := HandLockedUIPlacement.
Module MS := MobileKitSession.

(** ** Sample scenes *)

(** A stand-in for the platform's number formatting, to run the components
    on a concrete scene: the components move its result around and never
    look into it. *)
Definition sampleToFixed (x : float) (digits : nat) : string :=
  if PrimFloat.eqb x 0%float then "0" else "#".

(** A scene on the device or in the editor with every input assigned, the
    mobile kit scene object enabled or not, before anything has run. *)
Definition assignedScene (editor mobileKitEnabled : bool) : World :=
  {| isEditor := editor;
     locationManager :=
       {| LM.floatingDetailsUIContentManager := true;
          LM.locationSource := ""; LM.latitude := 0; LM.longitude := 0;
          LM.horizontalAccuracy := 0; LM.altitude := 0; LM.verticalAccuracy := 0;
          LM.heading := 0;
          LM.pendingPositionRequests := 0;
          LM.repeatProcessGeoPositionEvent := None |};
     mobileKitManager :=
       {| MK.floatingDetailsUIContentManager := true;
          MK.latitude := JNumber 0; MK.longitude := JNumber 0;
          MK.horizontalAccuracy := JNumber 0; MK.altitude := JNumber 0;
          MK.verticalAccuracy := JNumber 0 |};
     floatingDetails :=
       {| FD.mapComponent := Some {| pins := []; nextPinId := 0 |};
          FD.locationManager := true;
          FD.locationDataText := Some "";
          FD.mobileKitManagerSceneObject := Some mobileKitEnabled;
          FD.mobileKitManager := true;
          FD.startMobileKitButton := Some false;
          FD.startMobileKitButtonText := Some white;
          FD.mobileKitText := Some "";
          FD.mobileKitPin := None |};
     handLocked :=
       {| HL.locationManager := true;
          HL.gpsStatusWhiteImage := Some false;
          HL.gpsStatusRedImage := Some false;
          HL.gpsStatusBlueImage := Some false;
          HL.gpsStatusYellowImage := Some false;
          HL.gpsStatusGreenImage := Some false;
          HL.sourceValueText := Some "";
          HL.accuracyValueText := Some "";
          HL.compassImage := Some 0%float;
          HL.headingValueText := Some "";
          HL.lastLocationSource := "";
          HL.visibilityWrites := [] |};
     handLockedPresentation :=
       {| HP.floatingDetailsUIContentManager := true;
          HP.floatingDetailsUIFrame := true |};
     floatingDetailsPresentation := {| FP.floatingDetailsUIFrame := true |};
     floatingDetailsUIFrameEnabled := false;
     console := [] |}.

(** The same scene on the device with no input assigned at all. *)
Definition unassignedScene : World :=
  {| isEditor := false;
     locationManager :=
       {| LM.floatingDetailsUIContentManager := false;
          LM.locationSource := ""; LM.latitude := 0; LM.longitude := 0;
          LM.horizontalAccuracy := 0; LM.altitude := 0; LM.verticalAccuracy := 0;
          LM.heading := 0;
          LM.pendingPositionRequests := 0;
          LM.repeatProcessGeoPositionEvent := None |};
     mobileKitManager :=
       {| MK.floatingDetailsUIContentManager := false;
          MK.latitude := JNumber 0; MK.longitude := JNumber 0;
          MK.horizontalAccuracy := JNumber 0; MK.altitude := JNumber 0;
          MK.verticalAccuracy := JNumber 0 |};
     floatingDetails :=
       {| FD.mapComponent := None;
          FD.locationManager := false;
          FD.locationDataText := None;
          FD.mobileKitManagerSceneObject := None;
          FD.mobileKitManager := false;
          FD.startMobileKitButton := None;
          FD.startMobileKitButtonText := None;
          FD.mobileKitText := None;
          FD.mobileKitPin := None |};
     handLocked :=
       {| HL.locationManager := false;
          HL.gpsStatusWhiteImage := None;
          HL.gpsStatusRedImage := None;
          HL.gpsStatusBlueImage := None;
          HL.gpsStatusYellowImage := None;
          HL.gpsStatusGreenImage := None;
          HL.sourceValueText := None;
          HL.accuracyValueText := None;
          HL.compassImage := None;
          HL.headingValueText := None;
          HL.lastLocationSource := "";
          HL.visibilityWrites := [] |};
     handLockedPresentation :=
       {| HP.floatingDetailsUIContentManager := false;
          HP.floatingDetailsUIFrame := false |};
     floatingDetailsPresentation := {| FP.floatingDetailsUIFrame := false |};
     floatingDetailsUIFrameEnabled := false;
     console := [] |}.

(** A position of the location service: a satellite fix heading east. *)
Definition samplePosition : GeoPosition.t :=
  {| GeoPosition.locationSource := "GNSS_RECEIVER";
     GeoPosition.latitude := 52.2175; GeoPosition.longitude := 5.1696;
     GeoPosition.horizontalAccuracy := 9.08; GeoPosition.altitude := 15.31;
     GeoPosition.verticalAccuracy := 30; GeoPosition.heading := 90 |}.

(** The assigned scene on the device with the mobile kit enabled, but with
    no image assigned for the satellite status. *)
Definition sceneWithoutBlueImage : World :=
  withHL (assignedScene false true)
    {| HL.locationManager := true;
       HL.gpsStatusWhiteImage := Some false;
       HL.gpsStatusRedImage := Some false;
       HL.gpsStatusBlueImage := None;
       HL.gpsStatusYellowImage := Some false;
       HL.gpsStatusGreenImage := Some false;
       HL.sourceValueText := Some "";
       HL.accuracyValueText := Some "";
       HL.compassImage := Some 0%float;
       HL.headingValueText := Some "";
       HL.lastLocationSource := "";
       HL.visibilityWrites := [] |}.

(** A position of the location service before it has a source to report. *)
Definition sourcelessPosition : GeoPosition.t :=
  {| GeoPosition.locationSource := "";
     GeoPosition.latitude := 0; GeoPosition.longitude := 0;
     GeoPosition.horizontalAccuracy := 0; GeoPosition.altitude := 0;
     GeoPosition.verticalAccuracy := 0; GeoPosition.heading := 0 |}.

(** The two messages of the scenario, as [JSON.parse] reads them. *)
Definition firstMessage : JsValue :=
  JObject [("latitude", JNumber 52.2175); ("longitude", JNumber 5.1696);
           ("horizontal_accuracy", JNumber 9.08)].

Definition secondMessage : JsValue :=
  JObject [("altitude", JNumber 15.31)].


(** A stand-in for the platform's vectors: triples of numbers, and a
    rotation kept as the two vectors it was built from. *)
Definition sampleVec3 : Type := float * float * float.

Definition sampleQuat : Type := sampleVec3 * sampleVec3.

Definition sampleVectors : UP.VectorPlatform sampleVec3 sampleQuat :=
  {| UP.newVec3 := fun x y z => (x, y, z);
     UP.up := (0, 1, 0)%float;
     UP.add := fun a b =>
       match a, b with
       | (ax, ay, az), (bx, by', bz) => (ax + bx, ay + by', az + bz)%float
       end;
     UP.sub := fun a b =>
       match a, b with
       | (ax, ay, az), (bx, by', bz) => (ax - bx, ay - by', az - bz)%float
       end;
     UP.uniformScale := fun a k =>
       match a with
       | (ax, ay, az) => (ax * k, ay * k, az * k)%float
       end;
     UP.normalize := fun a => a;
     UP.lerp := fun a b k =>
       match a, b with
       | (ax, ay, az), (bx, by', bz) =>
           (ax + (bx - ax) * k, ay + (by' - ay) * k, az + (bz - az) * k)%float
       end;
     UP.lookAt := fun direction upward => (direction, upward) |}.

(** The hand-locked panel on the device, hidden, with the left hand tracked
    and facing the camera or not. *)
Definition samplePanel (tracked facing : bool) : UP.t sampleVec3 sampleQuat :=
  {| UP.isEditor := false;
     UP.handLockedUIBackPlate :=
       Some {| UP.enabled := false;
               UP.worldPosition := (0, 0, 0)%float;
               UP.worldRotation := ((0, 0, 1), (0, 1, 0))%float |};
     UP.leftHand :=
       {| UP.isTracked := tracked; UP.isFacingCamera := facing;
          UP.pinkyKnucklePosition := (10, 0, -40)%float;
          UP.pinkyKnuckleRight := (1, 0, 0)%float |};
     UP.cameraWorldPosition := (0, 0, 0)%float;
     UP.console := [] |}.

(** A message whose latitude is a string. *)
Definition textualMessage : list (string * JsValue) :=
  [("latitude", JString "52.2175"); ("longitude", JNumber 5.1696)].

(** A message as the mobile application sends it, with its topic. *)
Definition topicMessage : list (string * JsValue) :=
  [("topic", JString "gps-location"); ("latitude", JNumber 52.2175);
   ("longitude", JNumber 5.1696); ("horizontal_accuracy", JNumber 9.08)].

(** The hand-locked panel with no back plate assigned. *)
Definition unassignedPanel : UP.t sampleVec3 sampleQuat :=
  {| UP.isEditor := false;
     UP.handLockedUIBackPlate := None;
     UP.leftHand := UP.leftHand (samplePanel true true);
     UP.cameraWorldPosition := (0, 0, 0)%float;
     UP.console := [] |}.

Section Components.

(** [Number.prototype.toFixed(digits)], the platform's formatting of a number. *)
Variable toFixed : float -> nat -> string.

(** [v.toFixed(digits)] on a stored value: only a number has the method. *)
Definition toFixedOf (v : JsValue) (digits : nat) : Completion string :=
  match v with
  | JNumber x => Normal (toFixed x digits)
  | _ => Throw TypeError
  end.

Definition bindC {A B : Type} (c : Completion A) (k : A -> Completion B) : Completion B :=
  match c with
  | Normal a => k a
  | Throw e => Throw e
  end.

(** ** [FloatingDetailsUIContentManager] *)

(** The seven-line text [updateLocationText] assigns. *)
Definition locationText (m : LM.t) : string :=
  "Source: " ++ LM.locationSource m ++
  newline ++ "Latitude: " ++ toFixed (LM.latitude m) 6 ++
  newline ++ "Longitude: " ++ toFixed (LM.longitude m) 6 ++
  newline ++ "Horizontal Accuracy: " ++ toFixed (LM.horizontalAccuracy m) 0 ++ "m" ++
  newline ++ "Altitude: " ++ toFixed (LM.altitude m) 0 ++ "m" ++
  newline ++ "Vertical Accuracy: " ++ toFixed (LM.verticalAccuracy m) 0 ++ "m" ++
  newline ++ "Heading: " ++ toFixed (LM.heading m) 0 ++ degreeSuffix.

(** [updateLocationText] *)
Definition updateLocationText (w : World) : World :=
  let f := floatingDetails w in
  if negb (FD.locationManager f) then w
  else match FD.locationDataText f with
       | None => w
       | Some _ =>
           withFD w (FD.withLocationDataText f (Some (locationText (locationManager w))))
       end.

(** [removeMobileKitPin] *)
Definition removeMobileKitPin (w : World) : World :=
  let f := floatingDetails w in
  match FD.mobileKitPin f, FD.mapComponent f with
  | Some p, Some m => withFD w (FD.withMap f (Some (removeMapPin m p)) None)
  | _, _ => w
  end.

(** [updateMobileKitPin], last branch, first statement: the existing pin, if
    any, is taken off the map ([mapComponent] is assigned there). *)
Definition removeExistingPin (m : MapComponent) (w : World) : World :=
  let f := floatingDetails w in
  match FD.mobileKitPin f with
  | Some p => withFD w (FD.withMap f (Some (removeMapPin m p)) None)
  | None => w
  end.

(** [updateMobileKitPin], last branch, second statement: a new pin at the
    stored longitude and latitude. *)
Definition createPinAtCurrentLocation (w : World) : World :=
  let f := floatingDetails w in
  let k := mobileKitManager w in
  match FD.mapComponent f with
  | Some m =>
      let created := createMapPin m (MK.longitude k) (MK.latitude k) in
      withFD w (FD.withMap f (Some (snd created)) (Some (fst created)))
  | None => w
  end.

(** [updateMobileKitPin] *)
Definition updateMobileKitPin (w : World) : Outcome :=
  let f := floatingDetails w in
  match FD.mapComponent f with
  | None => Done w
  | Some m =>
      if isEditor w then Done (removeMobileKitPin w)
      else match FD.mobileKitManagerSceneObject f with
           | None => Threw TypeError w
           | Some enabled =>
               if negb enabled then Done (removeMobileKitPin w)
               else if negb (FD.mobileKitManager f) then Threw TypeError w
               else if strictEqualsZero (MK.latitude (mobileKitManager w))
                       && strictEqualsZero (MK.longitude (mobileKitManager w))
               then Done (removeMobileKitPin w)
               else Done (createPinAtCurrentLocation (removeExistingPin m w))
           end
  end.

(** [this.mobileKitText.text = text] *)
Definition setMobileKitText (text : string) (w : World) : Outcome :=
  match FD.mobileKitText (floatingDetails w) with
  | None => Threw TypeError w
  | Some _ => Done (withFD w (FD.withMobileKitText (floatingDetails w) (Some text)))
  end.

(** [this.startMobileKitButton.inactive = b] *)
Definition setButtonInactive (b : bool) (w : World) : Outcome :=
  match FD.startMobileKitButton (floatingDetails w) with
  | None => Threw TypeError w
  | Some _ => Done (withFD w (FD.withButton (floatingDetails w) (Some b)))
  end.

(** [this.startMobileKitButtonText.textFill.color = c] *)
Definition setButtonTextColor (c : vec4) (w : World) : Outcome :=
  match FD.startMobileKitButtonText (floatingDetails w) with
  | None => Threw TypeError w
  | Some _ => Done (withFD w (FD.withButtonText (floatingDetails w) (Some c)))
  end.

(** The five-line text of the last branch of [updateMobileKitText], from
    five numbers. *)
Definition mobileKitTextOf
    (latitude longitude horizontalAccuracy altitude verticalAccuracy : float) : string :=
  "Latitude: " ++ toFixed latitude 6 ++
  newline ++ "Longitude: " ++ toFixed longitude 6 ++
  newline ++ "Horizontal Accuracy: " ++ toFixed horizontalAccuracy 0 ++ "m" ++
  newline ++ "Altitude: " ++ toFixed altitude 0 ++ "m" ++
  newline ++ "Vertical Accuracy: " ++ toFixed verticalAccuracy 0 ++ "m".

(** The same text as the branch computes it, from the stored values, left to
    right: a value without [toFixed] throws. *)
Definition mobileKitReadingText (k : MK.t) : Completion string :=
  bindC (toFixedOf (MK.latitude k) 6) (fun lat =>
  bindC (toFixedOf (MK.longitude k) 6) (fun lon =>
  bindC (toFixedOf (MK.horizontalAccuracy k) 0) (fun hacc =>
  bindC (toFixedOf (MK.altitude k) 0) (fun alt =>
  bindC (toFixedOf (MK.verticalAccuracy k) 0) (fun vacc =>
  Normal ("Latitude: " ++ lat ++
          newline ++ "Longitude: " ++ lon ++
          newline ++ "Horizontal Accuracy: " ++ hacc ++ "m" ++
          newline ++ "Altitude: " ++ alt ++ "m" ++
          newline ++ "Vertical Accuracy: " ++ vacc ++ "m")))))).

(** [updateMobileKitText] *)
Definition updateMobileKitText (w : World) : Outcome :=
  if isEditor w then
    (setMobileKitText "Mobile Kit unavailable in editor" ;;
     setButtonInactive true ;;
     setButtonTextColor lightGrey ;;
     always removeMobileKitPin) w
  else match FD.mobileKitManagerSceneObject (floatingDetails w) with
       | None => Threw TypeError w
       | Some enabled =>
           if negb enabled then
             (setMobileKitText "Mobile Kit available on device" ;;
              setButtonInactive false ;;
              setButtonTextColor white ;;
              always removeMobileKitPin) w
           else if negb (FD.mobileKitManager (floatingDetails w)) then Threw TypeError w
           else if strictEqualsZero (MK.latitude (mobileKitManager w))
                   && strictEqualsZero (MK.longitude (mobileKitManager w))
           then
             (setMobileKitText "No Mobile Kit data" ;;
              setButtonInactive true ;;
              setButtonTextColor lightGrey ;;
              always removeMobileKitPin) w
           else match mobileKitReadingText (mobileKitManager w) with
                | Throw e => Threw e w
                | Normal text =>
                    (setMobileKitText text ;;
                     setButtonInactive false ;;
                     setButtonTextColor lightGrey ;;
                     updateMobileKitPin) w
                end
       end.

(** [updateContent] *)
Definition updateContent : World -> Outcome :=
  always updateLocationText ;; updateMobileKitText ;; updateMobileKitPin.

(** [startMobileKitButtonPressed] *)
Definition startMobileKitButtonPressed (w : World) : Outcome :=
  match FD.mobileKitManagerSceneObject (floatingDetails w) with
  | None => Threw TypeError w
  | Some _ => updateContent (withFD w (FD.withSceneObject (floatingDetails w) (Some true)))
  end.

(** ** [LocationManager] *)

(** [newLocationManagerDataAvailable] *)
Definition newLocationManagerDataAvailable (w : World) : Outcome :=
  if LM.floatingDetailsUIContentManager (locationManager w) then updateContent w
  else Done w.

(** [configureLocationManager]: a new location service, nothing requested
    yet; the repeating event is created, bound to [processGeoPosition] and
    [reset(0.0)]. *)
Definition configureLocationManager (w : World) : World :=
  withLM w (LM.withService (locationManager w) 0 (Some 0%float)).

(** [this.locationService.getCurrentPosition(onSuccess, onError)]: the
    request is asynchronous; the call registers the two callbacks and
    returns, and one of them is delivered in a later turn. *)
Definition getCurrentPosition (w : World) : World :=
  withLM w (LM.withService (locationManager w)
              (S (LM.pendingPositionRequests (locationManager w)))
              (LM.repeatProcessGeoPositionEvent (locationManager w))).

(** [this.repeatProcessGeoPositionEvent.reset(delay)] *)
Definition resetRepeatEvent (delay : float) (w : World) : World :=
  withLM w (LM.withService (locationManager w)
              (LM.pendingPositionRequests (locationManager w)) (Some delay)).

(** [processGeoPosition]: the request, then the [reset(1.0)]. *)
Definition processGeoPosition (w : World) : World :=
  resetRepeatEvent 1 (getCurrentPosition w).

(** The success callback of [processGeoPosition]. *)
Definition onGeoPosition (geoPosition : GeoPosition.t) (w : World) : Outcome :=
  newLocationManagerDataAvailable
    (withLM w (LM.withReading (locationManager w) geoPosition)).

(** The error callback of [processGeoPosition]. *)
Definition onGeoPositionError (error : string) (w : World) : World :=
  print ("processGeoPosition() error: " ++ error) w.

(** [processNorthAlignedOrientationUpdate], given the degrees
    [GeoLocation.getNorthAlignedHeading] computes from the quaternion. *)
Definition processNorthAlignedOrientationUpdate (northAlignedHeading : float) (w : World)
  : Outcome :=
  let stored := withLM w (LM.withHeading (locationManager w) northAlignedHeading) in
  let fixed :=
    if isEditor stored
    then withLM stored (LM.withHeading (locationManager stored)
                          (- LM.heading (locationManager stored))%float)
    else stored in
  newLocationManagerDataAvailable fixed.

(** ** [MobileKitManager] *)

(** [newMobileKitDataAvailable] *)
Definition newMobileKitDataAvailable (w : World) : Outcome :=
  if MK.floatingDetailsUIContentManager (mobileKitManager w) then updateContent w
  else Threw TypeError w.

(** [if (locationData.key !== undefined) { this.property = locationData.key; }] *)
Definition storeIfPresent (locationData : JsValue) (key : string)
    (assign : MK.t -> JsValue -> MK.t) (w : World) : Outcome :=
  match getMember locationData key with
  | Throw e => Threw e w
  | Normal None => Done w
  | Normal (Some v) => Done (withMK w (assign (mobileKitManager w) v))
  end.

(** The body of the [try] block once [JSON.parse] has returned. *)
Definition storeLocationData (locationData : JsValue) : World -> Outcome :=
  storeIfPresent locationData "latitude" MK.withLatitude ;;
  storeIfPresent locationData "longitude" MK.withLongitude ;;
  storeIfPresent locationData "horizontal_accuracy" MK.withHorizontalAccuracy ;;
  storeIfPresent locationData "altitude" MK.withAltitude ;;
  storeIfPresent locationData "vertical_accuracy" MK.withVerticalAccuracy ;;
  newMobileKitDataAvailable.

(** The callback added to the ["gps-location"] subscription, given the
    response text and what [JSON.parse] makes of it. *)
Definition onGPSLocationResponse (response : string) (parsed : ParseResult) (w : World)
  : World :=
  let logged :=
    print ("startGPSLocationSubscription() - GPS Location subscription response: "
           ++ response) w in
  let tried :=
    match parsed with
    | ParseError e => Threw e logged
    | Parsed locationData => storeLocationData locationData logged
    end in
  match tried with
  | Done w' => w'
  | Threw e w' =>
      print ("startGPSLocationSubscription() - Error parsing GPS location data: " ++ e) w'
  end.

(** ** [HandLockedUIContentManager] *)

(** [if (image) image.sceneObject.enabled = false;] *)
Definition disableIfAssigned (h : HL.t) (i : StatusImage) : HL.t :=
  match HL.image h i with
  | Some _ => HL.setEnabled h i false
  | None => h
  end.

(** [disableAllGPSStatusImages] *)
Definition disableAllGPSStatusImages (h : HL.t) : HL.t :=
  fold_left disableIfAssigned statusImages h.

(** [updateGPSStatusIndicator] *)
Definition updateGPSStatusIndicator (w : World) : World :=
  let h := handLocked w in
  if negb (HL.locationManager h) then w
  else
    let currentLocationSource := LM.locationSource (locationManager w) in
    if String.eqb currentLocationSource (HL.lastLocationSource h) then w
    else
      let h1 := disableAllGPSStatusImages (HL.withLastLocationSource h currentLocationSource) in
      let targetImage := getGPSStatusImage currentLocationSource in
      match HL.image h1 targetImage with
      | Some _ => withHL w (HL.setEnabled h1 targetImage true)
      | None =>
          print ("updateGPSStatusIndicator() - Warning: No image found for GPS status: "
                 ++ currentLocationSource) (withHL w h1)
      end.

(** [updateLocationTextElements] *)
Definition updateLocationTextElements (w : World) : World :=
  let h := handLocked w in
  let m := locationManager w in
  if negb (HL.locationManager h) then w
  else
    withHL w (HL.withTexts h
      (match HL.sourceValueText h with
       | Some _ => Some (getShortLocationSource (LM.locationSource m))
       | None => None
       end)
      (match HL.accuracyValueText h with
       | Some _ => Some (toFixed (LM.horizontalAccuracy m) 0 ++ "m")
       | None => None
       end)
      (match HL.headingValueText h with
       | Some _ => Some (toFixed (LM.heading m) 0 ++ degreeSuffix)
       | None => None
       end)).

(** [updateCompassRotation]: the rotation set is [quat.angleAxis] of the
    heading in radians about [vec3.forward()]. *)
Definition updateCompassRotation (w : World) : World :=
  let h := handLocked w in
  if negb (HL.locationManager h) then w
  else match HL.compassImage h with
       | None => w
       | Some _ =>
           withHL w (HL.withCompass h
             (Some (LM.heading (locationManager w) * PI / 180)%float))
       end.

(** [onUpdate], every frame. *)
Definition onUpdate (w : World) : World :=
  updateCompassRotation (updateLocationTextElements (updateGPSStatusIndicator w)).

(** ** The presentation managers' button callbacks *)

(** [FloatingDetailsUIPresentationManager.closeButtonPressed] *)
Definition closeButtonPressed (w : World) : World :=
  if FP.floatingDetailsUIFrame (floatingDetailsPresentation w)
  then withFrameEnabled w false
  else print "closeButtonPressed() - Warning: floatingDetailsUIFrame is not assigned." w.

(** [HandLockedUIPresentationManager.detailsButtonPressed] *)
Definition detailsButtonPressed (w : World) : Outcome :=
  if HP.floatingDetailsUIFrame (handLockedPresentation w)
  then
    let shown := withFrameEnabled w true in
    if HP.floatingDetailsUIContentManager (handLockedPresentation shown)
    then updateContent shown
    else Threw TypeError shown
  else Done (print "detailsButtonPressed() - Warning: floatingDetailsUIFrame is not assigned."
               w).

(** ** The scene over time *)

(** What the platform delivers to the components, one turn each. *)
Inductive Event : Type :=
| Started
| FrameUpdate
| RepeatEventFired
| PositionDelivered (geoPosition : GeoPosition.t)
| PositionFailed (error : string)
| OrientationUpdated (northAlignedHeading : float)
| GPSLocationReceived (response : string) (parsed : ParseResult)
| StartMobileKitPressed
| DetailsButtonPressed
| CloseButtonPressed.

(** One pending position request is answered. *)
Definition answered (w : World) : World :=
  withLM w (LM.withService (locationManager w)
              (Nat.pred (LM.pendingPositionRequests (locationManager w)))
              (LM.repeatProcessGeoPositionEvent (locationManager w))).

(** The repeating event has fired: it is no longer armed. *)
Definition fired (w : World) : World :=
  withLM w (LM.withService (locationManager w)
              (LM.pendingPositionRequests (locationManager w)) None).

(** One turn. [OnStartEvent] runs [configureLocationManager] and the content
    manager's [onStart]; the repeating event fires only while armed; a
    position callback is delivered only for a pending request. *)
Definition step (e : Event) (w : World) : Outcome :=
  match e with
  | Started => updateContent (configureLocationManager w)
  | FrameUpdate => Done (onUpdate w)
  | RepeatEventFired =>
      match LM.repeatProcessGeoPositionEvent (locationManager w) with
      | Some _ => Done (processGeoPosition (fired w))
      | None => Done w
      end
  | PositionDelivered g =>
      match LM.pendingPositionRequests (locationManager w) with
      | O => Done w
      | S _ => onGeoPosition g (answered w)
      end
  | PositionFailed error =>
      match LM.pendingPositionRequests (locationManager w) with
      | O => Done w
      | S _ => Done (onGeoPositionError error (answered w))
      end
  | OrientationUpdated h => processNorthAlignedOrientationUpdate h w
  | GPSLocationReceived response parsed => Done (onGPSLocationResponse response parsed w)
  | StartMobileKitPressed => startMobileKitButtonPressed w
  | DetailsButtonPressed => detailsButtonPressed w
  | CloseButtonPressed => Done (closeButtonPressed w)
  end.

(** A sequence of turns; an exception that leaves a callback ends that turn
    only. *)
Fixpoint run (events : list Event) (w : World) : World :=
  match events with
  | [] => w
  | e :: rest => run rest (sceneOf (step e w))
  end.

(** ** Predicates of the statements *)

(** [f] relates every scene to the scene it leaves, however it ends. *)
Definition preserves (R : World -> World -> Prop) (f : World -> Outcome) : Prop :=
  forall w, R w (sceneOf (f w)).

(** [w'] is [w] with, at most, another content-manager state. *)
Definition onlyFloatingDetailsChanged (w w' : World) : Prop :=
  w' = withFD w (floatingDetails w').

(** [w'] has the primary adapter's state and the compact panel of [w]. *)
Definition samePrimaryAndPanel (w w' : World) : Prop :=
  locationManager w' = locationManager w /\ handLocked w' = handLocked w.

(** [w'] shows the primary text of [w]. *)
Definition sameLocationDataText (w w' : World) : Prop :=
  FD.locationDataText (floatingDetails w') = FD.locationDataText (floatingDetails w).

(** The scene after the five conditional assignments on an object payload. *)
Definition storedPayload (payload : list (string * JsValue)) (w : World) : World :=
  let store key (assign : MK.t -> JsValue -> MK.t) (w0 : World) :=
    match ownProperty payload key with
    | Some v => withMK w0 (assign (mobileKitManager w0) v)
    | None => w0
    end in
  store "vertical_accuracy" MK.withVerticalAccuracy
    (store "altitude" MK.withAltitude
       (store "horizontal_accuracy" MK.withHorizontalAccuracy
          (store "longitude" MK.withLongitude
             (store "latitude" MK.withLatitude w)))).

(** The value of a field after a message: the payload's when the key is
    present, the prior one when it is absent. *)
Definition presentOr (payload : list (string * JsValue)) (key : string) (prior : JsValue)
  : JsValue :=
  match ownProperty payload key with
  | Some v => v
  | None => prior
  end.

(** The status images that are enabled. *)
Definition enabledImages (h : HL.t) : list StatusImage :=
  filter (fun i => match HL.image h i with Some true => true | _ => false end) statusImages.

Definition allImagesAssigned (h : HL.t) : Prop :=
  forall i : StatusImage, HL.image h i <> None.

(** What the status-icon update reads and writes in the panel. *)
Definition statusState (h : HL.t)
  : bool * list (option bool) * string * list (StatusImage * bool) :=
  (HL.locationManager h, map (HL.image h) statusImages, HL.lastLocationSource h,
   HL.visibilityWrites h).

(** The status-icon update has nothing to do: no location manager is
    assigned, or the source is the one it saw last. *)
Definition inSync (w : World) : Prop :=
  HL.locationManager (handLocked w) = false \/
  LM.locationSource (locationManager w) = HL.lastLocationSource (handLocked w).

(** The turn [e] does not bring a position with a source other than [source]. *)
Definition keepsSource (source : string) (e : Event) : Prop :=
  match e with
  | PositionDelivered g => GeoPosition.locationSource g = source
  | _ => True
  end.

(** The four display states of the secondary source. *)
Inductive DisplayState : Type := Unavailable | Available | NoData | Active.

(** The display state as the specification words it: simulated
    environment, else manager disabled, else coordinates (0,0), else data. *)
Definition displayState (editor enabled : bool) (latitude longitude : JsValue)
  : DisplayState :=
  if editor then Unavailable
  else if negb enabled then Available
  else if strictEqualsZero latitude && strictEqualsZero longitude then NoData
  else Active.

(** The pins of this component on the map surface. *)
Definition pinsOnMap (f : FD.t) : list MapPin :=
  match FD.mapComponent f with
  | Some m => pins m
  | None => []
  end.

(** The map surface and the component's reference agree: the surface holds
    the referenced pin and no other, and every handle given out is below the
    next one. *)
Definition pinConsistent (f : FD.t) : Prop :=
  match FD.mapComponent f, FD.mobileKitPin f with
  | Some m, Some p => pins m = [p] /\ pinId p < nextPinId m
  | Some m, None => pins m = []
  | None, Some _ => False
  | None, None => True
  end.

(** [w'] is consistent if [w] is. *)
Definition pinsStayConsistent (w w' : World) : Prop :=
  pinConsistent (floatingDetails w) -> pinConsistent (floatingDetails w').

(** The secondary display of [w']: its text, the control's [inactive] flag
    and the tint of the control's label. *)
Definition shows (w' : World) (text : string) (inactive : bool) (tint : vec4) : Prop :=
  FD.mobileKitText (floatingDetails w') = Some text /\
  FD.startMobileKitButton (floatingDetails w') = Some inactive /\
  FD.startMobileKitButtonText (floatingDetails w') = Some tint.

(** No pin of the secondary source: none referenced, none on the map. *)
Definition noPin (w' : World) : Prop :=
  FD.mobileKitPin (floatingDetails w') = None /\ pinsOnMap (floatingDetails w') = [].

(** ** Further predicates *)

(** The five keys the subscription callback reads. *)
Definition locationKeys : list string :=
  ["latitude"; "longitude"; "horizontal_accuracy"; "altitude"; "vertical_accuracy"].

(** The reading a message with an object payload leaves, from the reading
    before it. *)
Definition appliedPayload (payload : list (string * JsValue)) (k : MK.t) : MK.t :=
  {| MK.floatingDetailsUIContentManager := MK.floatingDetailsUIContentManager k;
     MK.latitude := presentOr payload "latitude" (MK.latitude k);
     MK.longitude := presentOr payload "longitude" (MK.longitude k);
     MK.horizontalAccuracy :=
       presentOr payload "horizontal_accuracy" (MK.horizontalAccuracy k);
     MK.altitude := presentOr payload "altitude" (MK.altitude k);
     MK.verticalAccuracy :=
       presentOr payload "vertical_accuracy" (MK.verticalAccuracy k) |}.

(** [typeof v === "number"] *)
Definition isNumber (v : JsValue) : bool :=
  match v with
  | JNumber _ => true
  | _ => false
  end.

(** Each of the five stored values is a number. *)
Definition numericReading (k : MK.t) : bool :=
  isNumber (MK.latitude k) && isNumber (MK.longitude k)
  && isNumber (MK.horizontalAccuracy k) && isNumber (MK.altitude k)
  && isNumber (MK.verticalAccuracy k).

(** The heading an orientation update stores: the sign is inverted in the
    editor. *)
Definition storedHeading (editor : bool) (northAlignedHeading : float) : float :=
  if editor then (- northAlignedHeading)%float else northAlignedHeading.

Definition isAssigned {A : Type} (input : option A) : bool :=
  match input with
  | Some _ => true
  | None => false
  end.

(** What the content manager's refresh never changes: which inputs are
    assigned, and the [enabled] flag of the mobile kit scene object. *)
Definition wiring (f : FD.t)
  : bool * bool * bool * option bool * bool * bool * bool * bool :=
  (isAssigned (FD.mapComponent f), FD.locationManager f,
   isAssigned (FD.locationDataText f), FD.mobileKitManagerSceneObject f,
   FD.mobileKitManager f, isAssigned (FD.startMobileKitButton f),
   isAssigned (FD.startMobileKitButtonText f), isAssigned (FD.mobileKitText f)).

Definition sameWiring (w w' : World) : Prop :=
  wiring (floatingDetails w') = wiring (floatingDetails w).

(** The inputs [updateMobileKitText] uses without a test are assigned. *)
Definition refreshAssigned (f : FD.t) : bool :=
  isAssigned (FD.mobileKitText f) && isAssigned (FD.startMobileKitButton f)
  && isAssigned (FD.startMobileKitButtonText f)
  && isAssigned (FD.mobileKitManagerSceneObject f) && FD.mobileKitManager f.

(** Every input that some callback uses without a test is assigned. *)
Definition wellAssigned (w : World) : bool :=
  refreshAssigned (floatingDetails w)
  && MK.floatingDetailsUIContentManager (mobileKitManager w)
  && HP.floatingDetailsUIContentManager (handLockedPresentation w).

(** A payload whose values under the five keys, where present, are numbers. *)
Definition numericPayload (payload : list (string * JsValue)) : bool :=
  forallb (fun key => match ownProperty payload key with
                      | Some v => isNumber v
                      | None => true
                      end) locationKeys.

(** A turn that stores no value other than a number in the secondary
    reading. *)
Definition storesNumbers (e : Event) : bool :=
  match e with
  | GPSLocationReceived _ (Parsed (JObject payload)) => numericPayload payload
  | _ => true
  end.

(** What the secondary display is to show in a display state: the text, the
    control's [inactive] flag and the tint; nothing when a stored value has
    no [toFixed]. *)
Definition expectedDisplay (state : DisplayState) (k : MK.t)
  : option (string * bool * vec4) :=
  match state with
  | Unavailable => Some ("Mobile Kit unavailable in editor", true, lightGrey)
  | Available => Some ("Mobile Kit available on device", false, white)
  | NoData => Some ("No Mobile Kit data", true, lightGrey)
  | Active =>
      match mobileKitReadingText k with
      | Normal text => Some (text, false, lightGrey)
      | Throw _ => None
      end
  end.

(** The display state of a scene whose mobile kit scene object is assigned. *)
Definition displayStateOf (w : World) (enabled : bool) : DisplayState :=
  displayState (isEditor w) enabled
    (MK.latitude (mobileKitManager w)) (MK.longitude (mobileKitManager w)).

(** A scene on which no callback can throw: every input used without a test
    is assigned, the secondary reading holds numbers, and the map agrees
    with the pin reference. *)
Definition safeScene (w : World) : Prop :=
  wellAssigned w = true /\
  numericReading (mobileKitManager w) = true /\
  pinConsistent (floatingDetails w).

(** The scene is in the active display state: on the device, the mobile kit
    scene object enabled, coordinates other than (0,0). *)
Definition activeScene (w : World) : bool :=
  match FD.mobileKitManagerSceneObject (floatingDetails w) with
  | Some enabled =>
      match displayStateOf w enabled with
      | Active => true
      | _ => false
      end
  | None => false
  end.

(** [w'] is in the display state of [w], and has no pin unless [w] has one
    or is active. *)
Definition pinOnlyIfActive (w w' : World) : Prop :=
  isEditor w' = isEditor w /\
  FD.mobileKitManagerSceneObject (floatingDetails w')
  = FD.mobileKitManagerSceneObject (floatingDetails w) /\
  mobileKitManager w' = mobileKitManager w /\
  (activeScene w = false -> noPin w -> noPin w').

(** None of the callbacks is the session's [onConnected]. *)
Definition noConnection (events : list MS.Event) : bool :=
  forallb (fun e => match e with
                    | MS.Connected _ => false
                    | _ => true
                    end) events.

(** The scene [w] with the console [lines]. *)
Definition withConsole (w : World) (lines : list string) : World :=
  {| isEditor := isEditor w; locationManager := locationManager w;
     mobileKitManager := mobileKitManager w;
     floatingDetails := floatingDetails w; handLocked := handLocked w;
     handLockedPresentation := handLockedPresentation w;
     floatingDetailsPresentation := floatingDetailsPresentation w;
     floatingDetailsUIFrameEnabled := floatingDetailsUIFrameEnabled w;
     console := lines |}.

Definition mapScene (f : World -> World) (r : Outcome) : Outcome :=
  match r with
  | Done w => Done (f w)
  | Threw error w => Threw error (f w)
  end.

(** [f] neither reads nor writes the console. *)
Definition consoleBlind (f : World -> Outcome) : Prop :=
  forall (w : World) (lines : list string),
    f (withConsole w lines) = mapScene (fun w' => withConsole w' lines) (f w).

(** The line the subscription callback prints first: the response as it was
    received. *)
Definition responseLine (response : string) : string :=
  "startGPSLocationSubscription() - GPS Location subscription response: " ++ response.

(** [w1] and [w2], left by the subscription callback from [w] on the
    responses [response1] and [response2], differ in the echo of the response
    and in nothing else: the lines printed after it are the same, and so is
    everything outside the console. *)
Definition sameButResponse (w : World) (response1 response2 : string) (w1 w2 : World)
  : Prop :=
  exists rest : list string,
    console w1 = List.app (console w) (responseLine response1 :: rest) /\
    w2 = withConsole w1 (List.app (console w) (responseLine response2 :: rest)).

(** ** The lens: the components' scene and the hand-locked panel *)

Section Lens.
Variables vec3 quat : Type.
Context {platform : UP.VectorPlatform vec3 quat}.

(** The scene of the components together with what the presentation manager
    of the hand-locked panel reads and writes; the editor flag and the
    console are the scene's. *)
Record Lens : Type := {
  scene : World;
  handLockedUIBackPlate : option (UP.SceneObject vec3 quat);
  leftHand : UP.TrackedHand vec3;
  cameraWorldPosition : vec3
}.

(** The presentation manager's view of the lens. *)
Definition panelOf (l : Lens) : UP.t vec3 quat :=
  {| UP.isEditor := isEditor (scene l);
     UP.handLockedUIBackPlate := handLockedUIBackPlate l;
     UP.leftHand := leftHand l;
     UP.cameraWorldPosition := cameraWorldPosition l;
     UP.console := console (scene l) |}.

Definition withScene (l : Lens) (w : World) : Lens :=
  {| scene := w; handLockedUIBackPlate := handLockedUIBackPlate l;
     leftHand := leftHand l; cameraWorldPosition := cameraWorldPosition l |}.

(** The lens after a callback of the presentation manager left [p]. *)
Definition withPanel (l : Lens) (p : UP.t vec3 quat) : Lens :=
  {| scene := withConsole (scene l) (UP.console p);
     handLockedUIBackPlate := UP.handLockedUIBackPlate p;
     leftHand := leftHand l; cameraWorldPosition := cameraWorldPosition l |}.

(** The hand and the camera as the platform reports them at a frame. *)
Definition tracked (l : Lens) (hand : UP.TrackedHand vec3) (camera : vec3) : Lens :=
  {| scene := scene l; handLockedUIBackPlate := handLockedUIBackPlate l;
     leftHand := hand; cameraWorldPosition := camera |}.

(** A turn of the lens: a turn of the components, a frame of the hand-locked
    panel's presentation manager, or the delayed callback of its [onAwake]. *)
Inductive Turn : Type :=
| ComponentTurn (e : Event)
| PanelFrame (hand : UP.TrackedHand vec3) (camera : vec3)
| PanelDelayedCallback.

(** One turn: the error that left the callback, if any, and the lens after
    it. *)
Definition lensStep (t : Turn) (l : Lens) : option string * Lens :=
  match t with
  | ComponentTurn e =>
      match step e (scene l) with
      | Done w' => (None, withScene l w')
      | Threw error w' => (Some error, withScene l w')
      end
  | PanelFrame hand camera =>
      match UP.onUpdate (panelOf (tracked l hand camera)) with
      | UP.Returned p => (None, withPanel (tracked l hand camera) p)
      | UP.Raised error p => (Some error, withPanel (tracked l hand camera) p)
      end
  | PanelDelayedCallback =>
      match UP.delayedCallback (panelOf l) with
      | UP.Returned p => (None, withPanel l p)
      | UP.Raised error p => (Some error, withPanel l p)
      end
  end.

Fixpoint lensRun (turns : list Turn) (l : Lens) : Lens :=
  match turns with
  | [] => l
  | t :: rest => lensRun rest (snd (lensStep t l))
  end.

(** The errors of the turns of a run that ended by an exception leaving the
    callback, oldest first. *)
Fixpoint thrownIn (turns : list Turn) (l : Lens) : list string :=
  match turns with
  | [] => []
  | t :: rest =>
      match fst (lensStep t l) with
      | None => thrownIn rest (snd (lensStep t l))
      | Some error => error :: thrownIn rest (snd (lensStep t l))
      end
  end.

(** A lens on which no callback can throw: its scene is such a scene and
    the back plate is assigned. *)
Definition safeLens (l : Lens) : Prop :=
  safeScene (scene l) /\ isAssigned (handLockedUIBackPlate l) = true.

Definition turnStoresNumbers (t : Turn) : bool :=
  match t with
  | ComponentTurn e => storesNumbers e
  | _ => true
  end.

End Lens.

#[global] Arguments scene {vec3 quat} _.
#[global] Arguments handLockedUIBackPlate {vec3 quat} _.
#[global] Arguments leftHand {vec3 quat} _.
#[global] Arguments cameraWorldPosition {vec3 quat} _.
#[global] Arguments panelOf {vec3 quat} l.
#[global] Arguments withScene {vec3 quat} l w.
#[global] Arguments withPanel {vec3 quat} l p.
#[global] Arguments tracked {vec3 quat} l hand camera.
#[global] Arguments ComponentTurn {vec3} e.
#[global] Arguments PanelFrame {vec3} hand camera.
#[global] Arguments PanelDelayedCallback {vec3}.
#[global] Arguments lensStep {vec3 quat platform} t l.
#[global] Arguments lensRun {vec3 quat platform} turns l.
#[global] Arguments thrownIn {vec3 quat platform} turns l.
#[global] Arguments safeLens {vec3 quat} l.
#[global] Arguments turnStoresNumbers {vec3} t.

(** The assigned scene on the device before anything has run, with the
    hand-locked panel hidden. *)
Definition sampleLens : Lens sampleVec3 sampleQuat :=
  {| scene := atStart (assignedScene false false);
     handLockedUIBackPlate := UP.handLockedUIBackPlate (samplePanel true true);
     leftHand := UP.leftHand (samplePanel true true);
     cameraWorldPosition := (0, 0, 0)%float |}.

(** ** Proof tools *)

(** Case analysis on every test the goal's method makes. *)
Ltac branches :=
  repeat match goal with
         | |- context [if ?b then _ else _] => destruct b
         | |- context [match ?x with Some _ => _ | None => _ end] => destruct x
         end.

Lemma preserves_andThen (R : World -> World -> Prop) `{Transitive World R}
    (f g : World -> Outcome) :
  preserves R f -> preserves R g -> preserves R (f ;; g).
Proof.
  intros Hf Hg w. unfold andThen. specialize (Hf w).
  destruct (f w) as [w1 | e w1]; simpl in *; [| exact Hf].
  transitivity w1; [exact Hf | apply Hg].
Qed.

Lemma preserves_always (R : World -> World -> Prop) (f : World -> World) :
  (forall w, R w (f w)) -> preserves R (always f).
Proof. intros Hf w. apply Hf. Qed.

Lemma sceneOf_always_andThen (f : World -> World) (g : World -> Outcome) (w : World) :
  sceneOf ((always f ;; g) w) = sceneOf (g (f w)).
Proof. reflexivity. Qed.

#[local] Instance onlyFloatingDetailsChanged_PreOrder : PreOrder onlyFloatingDetailsChanged.
Proof.
  split.
  - intros w. destruct w; reflexivity.
  - intros w1 w2 w3 H12 H23. unfold onlyFloatingDetailsChanged in *.
    rewrite H23, H12. destruct w1; reflexivity.
Qed.

#[local] Instance samePrimaryAndPanel_PreOrder : PreOrder samePrimaryAndPanel.
Proof.
  split.
  - intros w. split; reflexivity.
  - intros w1 w2 w3 [Hl Hh] [Hl' Hh']. split; congruence.
Qed.

#[local] Instance sameLocationDataText_PreOrder : PreOrder sameLocationDataText.
Proof.
  split.
  - intros w. reflexivity.
  - intros w1 w2 w3 H12 H23. unfold sameLocationDataText in *. congruence.
Qed.

#[local] Instance pinsStayConsistent_PreOrder : PreOrder pinsStayConsistent.
Proof.
  split.
  - intros w H. exact H.
  - intros w1 w2 w3 H12 H23 H. apply H23, H12, H.
Qed.

Create HintDb frame discriminated.

(** ** Frame lemmas: the content manager changes its own state only *)

Lemma onlyFD_withFD (w : World) (f : FD.t) : onlyFloatingDetailsChanged w (withFD w f).
Proof. destruct w; reflexivity. Qed.

Lemma onlyFD_locationManager (w w' : World) :
  onlyFloatingDetailsChanged w w' -> locationManager w' = locationManager w.
Proof. intros H. rewrite H. reflexivity. Qed.

Lemma onlyFD_mobileKitManager (w w' : World) :
  onlyFloatingDetailsChanged w w' -> mobileKitManager w' = mobileKitManager w.
Proof. intros H. rewrite H. reflexivity. Qed.

Lemma onlyFD_samePrimaryAndPanel (w w' : World) :
  onlyFloatingDetailsChanged w w' -> samePrimaryAndPanel w w'.
Proof. intros H. rewrite H. split; reflexivity. Qed.

Lemma removeMobileKitPin_onlyFD (w : World) :
  onlyFloatingDetailsChanged w (removeMobileKitPin w).
Proof.
  unfold removeMobileKitPin. branches; auto using onlyFD_withFD; reflexivity.
Qed.

Lemma updateLocationText_onlyFD (w : World) :
  onlyFloatingDetailsChanged w (updateLocationText w).
Proof.
  unfold updateLocationText. branches; auto using onlyFD_withFD; reflexivity.
Qed.

Lemma setMobileKitText_onlyFD (t : string) :
  preserves onlyFloatingDetailsChanged (setMobileKitText t).
Proof.
  intro w. unfold setMobileKitText. branches; simpl; auto using onlyFD_withFD; reflexivity.
Qed.

Lemma setButtonInactive_onlyFD (b : bool) :
  preserves onlyFloatingDetailsChanged (setButtonInactive b).
Proof.
  intro w. unfold setButtonInactive. branches; simpl; auto using onlyFD_withFD; reflexivity.
Qed.

Lemma setButtonTextColor_onlyFD (c : vec4) :
  preserves onlyFloatingDetailsChanged (setButtonTextColor c).
Proof.
  intro w. unfold setButtonTextColor. branches; simpl; auto using onlyFD_withFD; reflexivity.
Qed.

Lemma replacePin_onlyFD (m : MapComponent) (w : World) :
  onlyFloatingDetailsChanged w (createPinAtCurrentLocation (removeExistingPin m w)).
Proof.
  transitivity (removeExistingPin m w).
  - unfold removeExistingPin. branches; auto using onlyFD_withFD; reflexivity.
  - unfold createPinAtCurrentLocation. branches; auto using onlyFD_withFD; reflexivity.
Qed.

Lemma updateMobileKitPin_onlyFD : preserves onlyFloatingDetailsChanged updateMobileKitPin.
Proof.
  intro w. unfold updateMobileKitPin.
  destruct (FD.mapComponent (floatingDetails w)) as [m |]; [| reflexivity].
  destruct (isEditor w); [apply removeMobileKitPin_onlyFD |].
  destruct (FD.mobileKitManagerSceneObject (floatingDetails w)) as [enabled |];
    [| reflexivity].
  destruct (negb enabled); [apply removeMobileKitPin_onlyFD |].
  destruct (negb (FD.mobileKitManager (floatingDetails w))); [reflexivity |].
  destruct (strictEqualsZero _ && strictEqualsZero _); [apply removeMobileKitPin_onlyFD |].
  apply replacePin_onlyFD.
Qed.

#[local] Hint Resolve setMobileKitText_onlyFD setButtonInactive_onlyFD
  setButtonTextColor_onlyFD updateMobileKitPin_onlyFD : frame.
#[local] Hint Resolve removeMobileKitPin_onlyFD updateLocationText_onlyFD : frame.

Lemma updateMobileKitText_onlyFD : preserves onlyFloatingDetailsChanged updateMobileKitText.
Proof.
  assert (Hfixed : forall (t : string) (b : bool) (c : vec4),
    preserves onlyFloatingDetailsChanged
      (setMobileKitText t ;; setButtonInactive b ;; setButtonTextColor c ;;
       always removeMobileKitPin)).
  { intros t b c. repeat apply preserves_andThen; try typeclasses eauto;
      auto using preserves_always with frame. }
  intro w. unfold updateMobileKitText.
  destruct (isEditor w); [apply Hfixed |].
  destruct (FD.mobileKitManagerSceneObject (floatingDetails w)) as [enabled |];
    [| reflexivity].
  destruct (negb enabled); [apply Hfixed |].
  destruct (negb (FD.mobileKitManager (floatingDetails w))); [reflexivity |].
  destruct (strictEqualsZero _ && strictEqualsZero _); [apply Hfixed |].
  destruct (mobileKitReadingText (mobileKitManager w)); [| reflexivity].
  revert w. repeat apply preserves_andThen; try typeclasses eauto; auto with frame.
Qed.

#[local] Hint Resolve updateMobileKitText_onlyFD : frame.

Lemma updateContent_onlyFD : preserves onlyFloatingDetailsChanged updateContent.
Proof.
  unfold updateContent. repeat apply preserves_andThen; try typeclasses eauto;
    auto using preserves_always with frame.
Qed.

Lemma newMobileKitDataAvailable_onlyFD :
  preserves onlyFloatingDetailsChanged newMobileKitDataAvailable.
Proof.
  intro w. unfold newMobileKitDataAvailable.
  destruct (MK.floatingDetailsUIContentManager (mobileKitManager w));
    [apply updateContent_onlyFD | reflexivity].
Qed.

Lemma newLocationManagerDataAvailable_onlyFD :
  preserves onlyFloatingDetailsChanged newLocationManagerDataAvailable.
Proof.
  intro w. unfold newLocationManagerDataAvailable.
  destruct (LM.floatingDetailsUIContentManager (locationManager w));
    [apply updateContent_onlyFD | reflexivity].
Qed.

(** After the primary text is written, the refresh does not touch it. *)
Lemma secondary_refresh_keeps_primary_text :
  preserves sameLocationDataText (updateMobileKitText ;; updateMobileKitPin).
Proof.
  assert (Hremove : forall w, sameLocationDataText w (removeMobileKitPin w)).
  { intro w. unfold removeMobileKitPin. branches; reflexivity. }
  assert (Hpin : preserves sameLocationDataText updateMobileKitPin).
  { intro w. unfold updateMobileKitPin, createPinAtCurrentLocation, removeExistingPin,
      removeMobileKitPin.
    branches; reflexivity. }
  assert (Htext : forall t, preserves sameLocationDataText (setMobileKitText t)).
  { intros t w. unfold setMobileKitText. branches; reflexivity. }
  assert (Hbutton : forall b, preserves sameLocationDataText (setButtonInactive b)).
  { intros b w. unfold setButtonInactive. branches; reflexivity. }
  assert (Hcolor : forall c, preserves sameLocationDataText (setButtonTextColor c)).
  { intros c w. unfold setButtonTextColor. branches; reflexivity. }
  apply preserves_andThen; [typeclasses eauto | | exact Hpin].
  assert (Hfixed : forall (t : string) (b : bool) (c : vec4),
    preserves sameLocationDataText
      (setMobileKitText t ;; setButtonInactive b ;; setButtonTextColor c ;;
       always removeMobileKitPin)).
  { intros t b c. repeat apply preserves_andThen; try typeclasses eauto;
      auto using preserves_always. }
  intro w. unfold updateMobileKitText.
  destruct (isEditor w); [apply Hfixed |].
  destruct (FD.mobileKitManagerSceneObject (floatingDetails w)) as [enabled |];
    [| reflexivity].
  destruct (negb enabled); [apply Hfixed |].
  destruct (negb (FD.mobileKitManager (floatingDetails w))); [reflexivity |].
  destruct (strictEqualsZero _ && strictEqualsZero _); [apply Hfixed |].
  destruct (mobileKitReadingText (mobileKitManager w)); [| reflexivity].
  revert w. repeat apply preserves_andThen; try typeclasses eauto; auto.
Qed.

(** ** The secondary adapter: sparse field application *)

Lemma stores_of_object (payload : list (string * JsValue)) (w : World) :
  storeLocationData (JObject payload) w
  = newMobileKitDataAvailable (storedPayload payload w).
Proof.
  unfold storeLocationData, andThen, storeIfPresent, storedPayload, getMember.
  destruct (ownProperty payload "latitude"), (ownProperty payload "longitude"),
    (ownProperty payload "horizontal_accuracy"), (ownProperty payload "altitude"),
    (ownProperty payload "vertical_accuracy"); reflexivity.
Qed.

Lemma storedPayload_fields (payload : list (string * JsValue)) (w : World) :
  let k := mobileKitManager w in
  let k' := mobileKitManager (storedPayload payload w) in
  MK.latitude k' = presentOr payload "latitude" (MK.latitude k) /\
  MK.longitude k' = presentOr payload "longitude" (MK.longitude k) /\
  MK.horizontalAccuracy k'
  = presentOr payload "horizontal_accuracy" (MK.horizontalAccuracy k) /\
  MK.altitude k' = presentOr payload "altitude" (MK.altitude k) /\
  MK.verticalAccuracy k' = presentOr payload "vertical_accuracy" (MK.verticalAccuracy k).
Proof.
  unfold storedPayload, presentOr.
  destruct (ownProperty payload "latitude"), (ownProperty payload "longitude"),
    (ownProperty payload "horizontal_accuracy"), (ownProperty payload "altitude"),
    (ownProperty payload "vertical_accuracy"); simpl; repeat split; reflexivity.
Qed.

Lemma storedPayload_print (payload : list (string * JsValue)) (line : string) (w : World) :
  mobileKitManager (storedPayload payload (print line w))
  = mobileKitManager (storedPayload payload w).
Proof.
  unfold storedPayload.
  destruct (ownProperty payload "latitude"), (ownProperty payload "longitude"),
    (ownProperty payload "horizontal_accuracy"), (ownProperty payload "altitude"),
    (ownProperty payload "vertical_accuracy"); reflexivity.
Qed.

(** The reading after a message with an object payload is the one the five
    assignments leave: the refresh that follows, and the handler's [catch],
    do not touch it. *)
Lemma reading_after_object_message
    (response : string) (payload : list (string * JsValue)) (w : World) :
  mobileKitManager (onGPSLocationResponse response (Parsed (JObject payload)) w)
  = mobileKitManager (storedPayload payload w).
Proof.
  unfold onGPSLocationResponse. rewrite stores_of_object.
  set (logged := print _ w).
  pose proof (newMobileKitDataAvailable_onlyFD (storedPayload payload logged)) as H.
  apply onlyFD_mobileKitManager in H.
  destruct (newMobileKitDataAvailable (storedPayload payload logged)) as [w' | e w'];
    simpl in H |- *; rewrite H; apply storedPayload_print.
Qed.

(** C1. For every object payload, applying a secondary-source message sets
    each of latitude, longitude, horizontal accuracy, altitude and vertical
    accuracy to the payload's value when the key is present and leaves it
    as it was when the key is absent. In particular the message with
    latitude 52.2175, longitude 5.1696 and horizontal accuracy 9.08 followed
    by the message with altitude 15.31 leaves those four values stored and
    the vertical accuracy at its prior value, which is 0 when these are the
    first messages. *)
Theorem secondary_message_updates_exactly_the_fields_present :
  (forall (response : string) (payload : list (string * JsValue)) (w : World),
     let k := mobileKitManager w in
     let k' := mobileKitManager (onGPSLocationResponse response (Parsed (JObject payload)) w) in
     MK.latitude k' = presentOr payload "latitude" (MK.latitude k) /\
     MK.longitude k' = presentOr payload "longitude" (MK.longitude k) /\
     MK.horizontalAccuracy k'
     = presentOr payload "horizontal_accuracy" (MK.horizontalAccuracy k) /\
     MK.altitude k' = presentOr payload "altitude" (MK.altitude k) /\
     MK.verticalAccuracy k'
     = presentOr payload "vertical_accuracy" (MK.verticalAccuracy k)) /\
  (forall (response1 response2 : string) (w : World),
     let k' := mobileKitManager
                 (onGPSLocationResponse response2 (Parsed secondMessage)
                    (onGPSLocationResponse response1 (Parsed firstMessage) w)) in
     MK.latitude k' = JNumber 52.2175 /\
     MK.longitude k' = JNumber 5.1696 /\
     MK.horizontalAccuracy k' = JNumber 9.08 /\
     MK.altitude k' = JNumber 15.31 /\
     MK.verticalAccuracy k' = MK.verticalAccuracy (mobileKitManager w)) /\
  (forall (response1 response2 : string) (w : World),
     MK.verticalAccuracy
       (mobileKitManager
          (onGPSLocationResponse response2 (Parsed secondMessage)
             (onGPSLocationResponse response1 (Parsed firstMessage) (atStart w))))
     = JNumber 0).
Proof.
  assert (Hsparse : forall (response : string) (payload : list (string * JsValue))
                           (w : World),
     let k := mobileKitManager w in
     let k' := mobileKitManager (onGPSLocationResponse response (Parsed (JObject payload)) w) in
     MK.latitude k' = presentOr payload "latitude" (MK.latitude k) /\
     MK.longitude k' = presentOr payload "longitude" (MK.longitude k) /\
     MK.horizontalAccuracy k'
     = presentOr payload "horizontal_accuracy" (MK.horizontalAccuracy k) /\
     MK.altitude k' = presentOr payload "altitude" (MK.altitude k) /\
     MK.verticalAccuracy k'
     = presentOr payload "vertical_accuracy" (MK.verticalAccuracy k)).
  { intros response payload w. cbv zeta.
    rewrite reading_after_object_message. apply storedPayload_fields. }
  assert (Hscenario : forall (response1 response2 : string) (w : World),
     let k' := mobileKitManager
                 (onGPSLocationResponse response2 (Parsed secondMessage)
                    (onGPSLocationResponse response1 (Parsed firstMessage) w)) in
     MK.latitude k' = JNumber 52.2175 /\
     MK.longitude k' = JNumber 5.1696 /\
     MK.horizontalAccuracy k' = JNumber 9.08 /\
     MK.altitude k' = JNumber 15.31 /\
     MK.verticalAccuracy k' = MK.verticalAccuracy (mobileKitManager w)).
  { intros response1 response2 w. cbv zeta. unfold firstMessage, secondMessage.
    destruct (Hsparse response2 [("altitude", JNumber 15.31)]
                (onGPSLocationResponse response1
                   (Parsed (JObject [("latitude", JNumber 52.2175);
                                     ("longitude", JNumber 5.1696);
                                     ("horizontal_accuracy", JNumber 9.08)])) w))
      as (R1 & R2 & R3 & R4 & R5).
    destruct (Hsparse response1 [("latitude", JNumber 52.2175);
                                 ("longitude", JNumber 5.1696);
                                 ("horizontal_accuracy", JNumber 9.08)] w)
      as (L1 & L2 & L3 & L4 & L5).
    rewrite R1, R2, R3, R4, R5, L1, L2, L3, L5. repeat split; reflexivity. }
  split; [exact Hsparse | split; [exact Hscenario |]].
  intros response1 response2 w.
  destruct (Hscenario response1 response2 (atStart w)) as (_ & _ & _ & _ & H).
  rewrite H. reflexivity.
Qed.

(** ** Failures *)

(** C6. A position-fetch error of the primary adapter and a parse failure of
    a secondary payload are each handled where they occur: the handler
    returns normally, it prints one line for the failure, and it changes
    nothing else in the scene, so both readings are as they were. The same
    holds for the payload [null], on which the first property read throws. *)
Theorem failures_are_logged_and_change_no_reading :
  (forall (response error : string) (w : World),
     onGPSLocationResponse response (ParseError error) w
     = print ("startGPSLocationSubscription() - Error parsing GPS location data: " ++ error)
         (print ("startGPSLocationSubscription() - GPS Location subscription response: "
                 ++ response) w)) /\
  (forall (response : string) (w : World),
     onGPSLocationResponse response (Parsed JNull) w
     = print ("startGPSLocationSubscription() - Error parsing GPS location data: "
              ++ TypeError)
         (print ("startGPSLocationSubscription() - GPS Location subscription response: "
                 ++ response) w)) /\
  (forall (error : string) (w : World),
     onGeoPositionError error w = print ("processGeoPosition() error: " ++ error) w) /\
  (forall (error : string) (w : World),
     exists w', step (PositionFailed error) w = Done w' /\
       mobileKitManager w' = mobileKitManager w /\
       LM.reading (locationManager w') = LM.reading (locationManager w)) /\
  (forall (line : string) (w : World),
     locationManager (print line w) = locationManager w /\
     mobileKitManager (print line w) = mobileKitManager w /\
     floatingDetails (print line w) = floatingDetails w /\
     handLocked (print line w) = handLocked w /\
     console (print line w) = List.app (console w) [line]).
Proof.
  repeat split.
  intros error w. simpl.
  destruct (LM.pendingPositionRequests (locationManager w)); eexists; repeat split.
Qed.

(** ** The primary adapter *)

(** C4, as amended. A successful position fetch overwrites the source,
    latitude, longitude, horizontal accuracy, altitude and vertical accuracy
    of the primary reading from the incoming position, all six before the
    consumers are notified: the notification runs on the scene that already
    holds them, the detailed panel (when it is assigned) shows them, and
    whatever the notification does they are the stored values afterwards.
    The heading is not taken from the position: it stays as the last
    orientation update left it. *)
Theorem position_fetch_overwrites_six_fields_and_keeps_heading :
  forall (geoPosition : GeoPosition.t) (w : World),
    let stored := LM.withReading (locationManager w) geoPosition in
    let w' := sceneOf (onGeoPosition geoPosition w) in
    LM.reading stored
    = (GeoPosition.locationSource geoPosition, GeoPosition.latitude geoPosition,
       GeoPosition.longitude geoPosition, GeoPosition.horizontalAccuracy geoPosition,
       GeoPosition.altitude geoPosition, GeoPosition.verticalAccuracy geoPosition,
       LM.heading (locationManager w)) /\
    onGeoPosition geoPosition w = newLocationManagerDataAvailable (withLM w stored) /\
    locationManager w' = stored /\
    (LM.floatingDetailsUIContentManager (locationManager w) = true ->
     FD.locationManager (floatingDetails w) = true ->
     FD.locationDataText (floatingDetails w) <> None ->
     FD.locationDataText (floatingDetails w') = Some (locationText stored)).
Proof.
  intros g w stored w'.
  split; [reflexivity |]. split; [reflexivity |]. split.
  - unfold w', onGeoPosition.
    rewrite (onlyFD_locationManager _ _ (newLocationManagerDataAvailable_onlyFD _)).
    reflexivity.
  - intros Hcm Hlm Htext. unfold w', onGeoPosition, newLocationManagerDataAvailable.
    simpl LM.floatingDetailsUIContentManager. rewrite Hcm.
    unfold updateContent. rewrite sceneOf_always_andThen.
    rewrite (secondary_refresh_keeps_primary_text _).
    unfold updateLocationText. simpl. rewrite Hlm. simpl.
    destruct (FD.locationDataText (floatingDetails w)); [reflexivity | congruence].
Qed.

(** C3, as amended. Every position pull arms the repeating event for the
    next pull itself, one time unit ahead, in the same turn in which it
    issues its request and while that request is still pending; neither
    callback of the request touches the event. So the next pull does not
    wait for the previous fetch: after the start, [n] firings of the event
    with no callback delivered in between leave [n] requests pending and the
    event armed again. *)
Theorem next_pull_is_scheduled_by_the_pull_itself :
  (forall w : World,
     let requested := getCurrentPosition w in
     processGeoPosition w = resetRepeatEvent 1 requested /\
     LM.pendingPositionRequests (locationManager requested)
     = S (LM.pendingPositionRequests (locationManager w)) /\
     LM.pendingPositionRequests (locationManager (processGeoPosition w))
     = S (LM.pendingPositionRequests (locationManager w)) /\
     LM.repeatProcessGeoPositionEvent (locationManager (processGeoPosition w))
     = Some 1%float) /\
  (forall (geoPosition : GeoPosition.t) (w : World),
     LM.repeatProcessGeoPositionEvent
       (locationManager (sceneOf (onGeoPosition geoPosition w)))
     = LM.repeatProcessGeoPositionEvent (locationManager w)) /\
  (forall (error : string) (w : World),
     LM.repeatProcessGeoPositionEvent (locationManager (onGeoPositionError error w))
     = LM.repeatProcessGeoPositionEvent (locationManager w)) /\
  (forall (n : nat) (w : World),
     let m' := locationManager
                 (run (repeat RepeatEventFired (S n)) (configureLocationManager w)) in
     LM.pendingPositionRequests m' = S n /\
     LM.repeatProcessGeoPositionEvent m' = Some 1%float).
Proof.
  split; [| split; [| split]].
  - intros w. repeat split.
  - intros g w. unfold onGeoPosition.
    rewrite (onlyFD_locationManager _ _ (newLocationManagerDataAvailable_onlyFD _)).
    reflexivity.
  - intros e w. reflexivity.
  - intros n w. cbv zeta.
    assert (Hrun : forall (k : nat) (w0 : World),
      LM.repeatProcessGeoPositionEvent (locationManager w0) <> None ->
      LM.pendingPositionRequests
        (locationManager (run (repeat RepeatEventFired (S k)) w0))
      = S k + LM.pendingPositionRequests (locationManager w0) /\
      LM.repeatProcessGeoPositionEvent
        (locationManager (run (repeat RepeatEventFired (S k)) w0)) = Some 1%float).
    { induction k as [| k IH]; intros w0 Harmed.
      - simpl. destruct (LM.repeatProcessGeoPositionEvent (locationManager w0));
          [split; reflexivity | congruence].
      - change (repeat RepeatEventFired (S (S k)))
          with (RepeatEventFired :: repeat RepeatEventFired (S k)).
        cbn [run step].
        destruct (LM.repeatProcessGeoPositionEvent (locationManager w0)) eqn:E;
          [| congruence].
        cbn [sceneOf].
        destruct (IH (processGeoPosition (fired w0))) as [Hp Ht];
          [simpl; discriminate |].
        rewrite Hp, Ht. split; [simpl; lia | reflexivity]. }
    destruct (Hrun n (configureLocationManager w)) as [Hp Ht]; [simpl; discriminate |].
    rewrite Hp, Ht. split; [simpl; lia | reflexivity].
Qed.

(** ** The compact panel *)

Lemma storeIfPresent_samePrimaryAndPanel
    (locationData : JsValue) (key : string) (assign : MK.t -> JsValue -> MK.t) :
  preserves samePrimaryAndPanel (storeIfPresent locationData key assign).
Proof.
  intro w. unfold storeIfPresent.
  destruct (getMember locationData key) as [[v |] | e]; split; reflexivity.
Qed.

Lemma newMobileKitDataAvailable_samePrimaryAndPanel :
  preserves samePrimaryAndPanel newMobileKitDataAvailable.
Proof. intro w. apply onlyFD_samePrimaryAndPanel, newMobileKitDataAvailable_onlyFD. Qed.

#[local] Hint Resolve storeIfPresent_samePrimaryAndPanel
  newMobileKitDataAvailable_samePrimaryAndPanel : frame.

Lemma onGPSLocationResponse_samePrimaryAndPanel
    (response : string) (parsed : ParseResult) (w : World) :
  samePrimaryAndPanel w (onGPSLocationResponse response parsed w).
Proof.
  unfold onGPSLocationResponse. set (logged := print _ w).
  assert (Htried : forall o : Outcome,
            samePrimaryAndPanel logged (sceneOf o) ->
            samePrimaryAndPanel w
              match o with
              | Done w' => w'
              | Threw e w' =>
                  print ("startGPSLocationSubscription() - Error parsing GPS location data: "
                         ++ e) w'
              end).
  { intros [w' | e w'] [Hl Hh]; split; simpl in *; congruence. }
  apply Htried. destruct parsed as [locationData | e]; [| split; reflexivity].
  generalize logged. unfold storeLocationData.
  repeat apply preserves_andThen; try typeclasses eauto; auto with frame.
Qed.

(** Whatever the disabling of one image keeps, the disabling of all keeps. *)
Lemma disableAll_keeps {A : Type} (observe : HL.t -> A) :
  (forall h i, observe (disableIfAssigned h i) = observe h) ->
  forall h, observe (disableAllGPSStatusImages h) = observe h.
Proof.
  intros H h. unfold disableAllGPSStatusImages, statusImages. simpl.
  rewrite !H. reflexivity.
Qed.

Lemma disableAll_lastLocationSource (h : HL.t) :
  HL.lastLocationSource (disableAllGPSStatusImages h) = HL.lastLocationSource h.
Proof.
  apply (disableAll_keeps HL.lastLocationSource).
  intros h0 i. unfold disableIfAssigned. destruct (HL.image h0 i); reflexivity.
Qed.

Lemma disableAll_images (h : HL.t) (i : StatusImage) :
  HL.image (disableAllGPSStatusImages h) i
  = match HL.image h i with Some _ => Some false | None => None end.
Proof.
  destruct h as [lm [w |] [r |] [b |] [y |] [g |] st at_ ci ht last writes];
    destruct i; reflexivity.
Qed.

Lemma updateGPSStatusIndicator_inSync (w : World) :
  inSync w -> updateGPSStatusIndicator w = w.
Proof.
  unfold inSync, updateGPSStatusIndicator. intros [H | H].
  - rewrite H. reflexivity.
  - destruct (negb (HL.locationManager (handLocked w))); [reflexivity |].
    rewrite H, String.eqb_refl. reflexivity.
Qed.

(** The two renderings after the status-icon update leave the primary
    adapter and the status state alone. *)
Lemma texts_and_compass_keep_status (w : World) :
  locationManager (updateCompassRotation (updateLocationTextElements w)) = locationManager w /\
  statusState (handLocked (updateCompassRotation (updateLocationTextElements w)))
  = statusState (handLocked w).
Proof.
  unfold updateCompassRotation, updateLocationTextElements.
  destruct (negb (HL.locationManager (handLocked w))) eqn:E.
  - rewrite E. split; reflexivity.
  - simpl. rewrite E.
    destruct (HL.compassImage (handLocked w)); split; reflexivity.
Qed.

Lemma onUpdate_inSync (w : World) :
  inSync w ->
  locationManager (onUpdate w) = locationManager w /\
  statusState (handLocked (onUpdate w)) = statusState (handLocked w).
Proof.
  intro H. unfold onUpdate. rewrite (updateGPSStatusIndicator_inSync w H).
  apply texts_and_compass_keep_status.
Qed.

Lemma inSync_of_status (w w' : World) :
  inSync w ->
  LM.locationSource (locationManager w') = LM.locationSource (locationManager w) ->
  statusState (handLocked w') = statusState (handLocked w) ->
  inSync w'.
Proof.
  unfold inSync, statusState. intros H Hs Hst.
  pose proof (f_equal (fun t => fst (fst (fst t))) Hst) as Hlm.
  pose proof (f_equal (fun t => snd (fst t)) Hst) as Hlast.
  simpl in Hlm, Hlast. rewrite Hlm, Hlast, Hs. exact H.
Qed.

Lemma updateGPSStatusIndicator_makes_inSync (w : World) :
  inSync (updateGPSStatusIndicator w).
Proof.
  unfold inSync, updateGPSStatusIndicator.
  destruct (HL.locationManager (handLocked w)) eqn:Elm; simpl; [| left; exact Elm].
  destruct (String.eqb_spec (LM.locationSource (locationManager w))
              (HL.lastLocationSource (handLocked w))) as [Heq | Hne];
    [right; exact Heq |].
  right. destruct (HL.image _ _); simpl; rewrite disableAll_lastLocationSource; reflexivity.
Qed.

Lemma onUpdate_makes_inSync (w : World) : inSync (onUpdate w).
Proof.
  unfold onUpdate.
  pose proof (updateGPSStatusIndicator_makes_inSync w) as H.
  destruct (texts_and_compass_keep_status (updateGPSStatusIndicator w)) as [Hl Hs].
  eapply inSync_of_status; [exact H | rewrite Hl; reflexivity | exact Hs].
Qed.

(** A turn that brings no other source leaves the source and the status
    state as they are, once the status-icon update has nothing to do. *)
Lemma step_keeps_status (e : Event) (w : World) :
  inSync w -> keepsSource (LM.locationSource (locationManager w)) e ->
  LM.locationSource (locationManager (sceneOf (step e w)))
  = LM.locationSource (locationManager w) /\
  statusState (handLocked (sceneOf (step e w))) = statusState (handLocked w).
Proof.
  intros Hsync Hkeeps.
  assert (Hsame : forall w0 w1 : World,
            samePrimaryAndPanel w0 w1 ->
            LM.locationSource (locationManager w0) = LM.locationSource (locationManager w) ->
            handLocked w0 = handLocked w ->
            LM.locationSource (locationManager w1) = LM.locationSource (locationManager w) /\
            statusState (handLocked w1) = statusState (handLocked w)).
  { intros w0 w1 [Hl Hh] Hs Hp. rewrite Hl, Hh, Hs, Hp. split; reflexivity. }
  destruct e as [| | | g | error | h | response parsed | | |]; cbn [step].
  - apply (Hsame (configureLocationManager w)); [| reflexivity | reflexivity].
    apply onlyFD_samePrimaryAndPanel, updateContent_onlyFD.
  - destruct (onUpdate_inSync w Hsync) as [Hl Hst]. simpl. rewrite Hl, Hst.
    split; reflexivity.
  - destruct (LM.repeatProcessGeoPositionEvent (locationManager w)); split; reflexivity.
  - destruct (LM.pendingPositionRequests (locationManager w)); [split; reflexivity |].
    unfold onGeoPosition.
    apply (Hsame (withLM (answered w) (LM.withReading (locationManager (answered w)) g)));
      [| exact Hkeeps | reflexivity].
    apply onlyFD_samePrimaryAndPanel, newLocationManagerDataAvailable_onlyFD.
  - destruct (LM.pendingPositionRequests (locationManager w)); split; reflexivity.
  - unfold processNorthAlignedOrientationUpdate.
    eapply Hsame;
      [apply onlyFD_samePrimaryAndPanel, newLocationManagerDataAvailable_onlyFD | |];
      destruct (isEditor _); reflexivity.
  - apply (Hsame w); [| reflexivity | reflexivity].
    apply onGPSLocationResponse_samePrimaryAndPanel.
  - unfold startMobileKitButtonPressed.
    destruct (FD.mobileKitManagerSceneObject (floatingDetails w)); [| split; reflexivity].
    eapply Hsame;
      [apply onlyFD_samePrimaryAndPanel, updateContent_onlyFD | reflexivity | reflexivity].
  - unfold detailsButtonPressed.
    destruct (HP.floatingDetailsUIFrame (handLockedPresentation w)); [| split; reflexivity].
    simpl. destruct (HP.floatingDetailsUIContentManager (handLockedPresentation w));
      [| split; reflexivity].
    eapply Hsame;
      [apply onlyFD_samePrimaryAndPanel, updateContent_onlyFD | reflexivity | reflexivity].
  - unfold closeButtonPressed.
    destruct (FP.floatingDetailsUIFrame (floatingDetailsPresentation w)); split; reflexivity.
Qed.

Lemma run_keeps_status (events : list Event) (w : World) :
  inSync w -> Forall (keepsSource (LM.locationSource (locationManager w))) events ->
  LM.locationSource (locationManager (run events w))
  = LM.locationSource (locationManager w) /\
  statusState (handLocked (run events w)) = statusState (handLocked w).
Proof.
  revert w. induction events as [| e events IH]; intros w Hsync Hall.
  - split; reflexivity.
  - inversion Hall as [| e' l' He Hrest]; subst.
    destruct (step_keeps_status e w Hsync He) as [Hs Hst].
    cbn [run].
    destruct (IH (sceneOf (step e w))) as [Hs' Hst'].
    + eapply inSync_of_status; eauto.
    + rewrite Hs. exact Hrest.
    + rewrite Hs', Hst', Hs, Hst. split; reflexivity.
Qed.

Lemma images_of_statusState (h h' : HL.t) :
  statusState h' = statusState h -> forall i, HL.image h' i = HL.image h i.
Proof.
  unfold statusState, statusImages. intros H i.
  pose proof (f_equal (fun t => snd (fst (fst t))) H) as Himages. simpl in Himages.
  injection Himages as Hw Hr Hb Hy Hg. destruct i; assumption.
Qed.

Lemma writes_of_statusState (h h' : HL.t) :
  statusState h' = statusState h -> HL.visibilityWrites h' = HL.visibilityWrites h.
Proof. intro H. exact (f_equal snd H). Qed.

(** C8. Once the compact panel has been rendered, rendering it again while
    the primary source is the one of that render writes no status image's
    visibility: the status-icon update of the second render is skipped and
    the images are as the first render left them. Any turns may lie between
    the two renders as long as no position with another source arrives. *)
Theorem second_render_with_unchanged_source_writes_no_icon_visibility :
  forall (w : World) (between : list Event),
    let rendered := onUpdate w in
    Forall (keepsSource (LM.locationSource (locationManager rendered))) between ->
    let again := onUpdate (run between rendered) in
    updateGPSStatusIndicator (run between rendered) = run between rendered /\
    HL.visibilityWrites (handLocked again) = HL.visibilityWrites (handLocked rendered) /\
    (forall i, HL.image (handLocked again) i = HL.image (handLocked rendered) i) /\
    HL.lastLocationSource (handLocked again) = HL.lastLocationSource (handLocked rendered).
Proof.
  intros w between rendered Hbetween again.
  pose proof (onUpdate_makes_inSync w) as Hsync. fold rendered in Hsync.
  destruct (run_keeps_status between rendered Hsync Hbetween) as [Hs Hst].
  assert (Hsync' : inSync (run between rendered))
    by (eapply inSync_of_status; eauto).
  destruct (onUpdate_inSync _ Hsync') as [_ Hst'].
  assert (Hagain : statusState (handLocked again) = statusState (handLocked rendered))
    by (unfold again; rewrite Hst'; exact Hst).
  split; [apply updateGPSStatusIndicator_inSync, Hsync' |].
  split; [apply writes_of_statusState, Hagain |].
  split; [apply images_of_statusState, Hagain |].
  exact (f_equal (fun t => snd (fst t)) Hagain).
Qed.

(** C10. At component start the last-source cache and the primary source are
    both the empty string. Through any turns after that, frame ticks
    included, in which no position with a non-empty source arrives, the
    status-icon update writes no image's visibility: the list of writes stays
    empty and every status image, the white one included, keeps the
    visibility the scene gave it. *)
Theorem no_status_icon_is_written_while_the_source_is_still_empty :
  forall (scene : World) (events : list Event),
    Forall (keepsSource "") events ->
    let w := run events (atStart scene) in
    HL.lastLocationSource (handLocked (atStart scene)) = "" /\
    LM.locationSource (locationManager (atStart scene)) = "" /\
    LM.locationSource (locationManager w) = "" /\
    HL.lastLocationSource (handLocked w) = "" /\
    HL.visibilityWrites (handLocked w) = [] /\
    (forall i, HL.image (handLocked w) i = HL.image (handLocked scene) i) /\
    HL.gpsStatusWhiteImage (handLocked w) = HL.gpsStatusWhiteImage (handLocked scene).
Proof.
  intros scene events Hevents w.
  assert (Hsync : inSync (atStart scene)) by (right; reflexivity).
  destruct (run_keeps_status events (atStart scene) Hsync Hevents) as [Hs Hst].
  fold w in Hs, Hst.
  assert (Himages : forall i, HL.image (handLocked w) i = HL.image (handLocked scene) i).
  { intro i. rewrite (images_of_statusState _ _ Hst i). destruct i; reflexivity. }
  repeat split; try reflexivity.
  - exact Hs.
  - exact (f_equal (fun t => snd (fst t)) Hst).
  - exact (writes_of_statusState _ _ Hst).
  - exact Himages.
  - exact (Himages White).
Qed.

(** C7. The short-label mapping and the status-icon selection give a result
    for every string: one of the five short labels, and one of the five
    status images; on the five labels of the enumeration they are the
    documented ones, and any other string is mapped like the unknown source.
    After a status-icon update triggered by a change of source, with a
    location manager and the five images assigned, exactly the image selected
    for the new source is enabled and the other four are disabled. *)
Theorem short_label_and_status_icon_are_total_and_one_icon_is_enabled :
  (forall source : string,
     In (getShortLocationSource source)
        ["Not available"; "GNSS / GPS"; "WiFi"; "Fused"; "Unknown"] /\
     In (getGPSStatusImage source) statusImages /\
     (~ In source locationSources ->
      getShortLocationSource source = "Unknown" /\ getGPSStatusImage source = White)) /\
  map getShortLocationSource locationSources
  = ["Unknown"; "Not available"; "GNSS / GPS"; "WiFi"; "Fused"] /\
  map getGPSStatusImage locationSources = [White; Red; Blue; Yellow; Green] /\
  (forall w : World,
     HL.locationManager (handLocked w) = true ->
     allImagesAssigned (handLocked w) ->
     LM.locationSource (locationManager w) <> HL.lastLocationSource (handLocked w) ->
     let selected := getGPSStatusImage (LM.locationSource (locationManager w)) in
     let h' := handLocked (updateGPSStatusIndicator w) in
     enabledImages h' = [selected] /\
     (forall i, HL.image h' i = Some (StatusImage_eqb i selected)) /\
     HL.lastLocationSource h' = LM.locationSource (locationManager w)).
Proof.
  split; [| split; [| split]]; try reflexivity.
  - intro source. unfold getShortLocationSource, getGPSStatusImage, locationSources.
    destruct (String.eqb_spec source "NOT_AVAILABLE");
      destruct (String.eqb_spec source "GNSS_RECEIVER");
      destruct (String.eqb_spec source "WIFI_POSITIONING_SYSTEM");
      destruct (String.eqb_spec source "FUSED_LOCATION");
      destruct (String.eqb_spec source ""); subst; simpl;
      try discriminate; (split; [tauto | split; [tauto |]]);
      intro Hnot; try (split; reflexivity); exfalso; apply Hnot; tauto.
  - intros w Hlm Hall Hchanged selected h'.
    apply String.eqb_neq in Hchanged.
    assert (Hh' : forall i, HL.image h' i = Some (StatusImage_eqb i selected)).
    { unfold h', updateGPSStatusIndicator. rewrite Hlm. simpl. rewrite Hchanged.
      fold selected.
      set (h1 := disableAllGPSStatusImages _).
      assert (H1 : forall i, HL.image h1 i = Some false).
      { intro i. unfold h1. rewrite disableAll_images.
        pose proof (Hall i) as Hi. destruct i; simpl in Hi |- *;
          match goal with |- match ?x with _ => _ end = _ => destruct x end;
          congruence. }
      rewrite (H1 selected). simpl.
      pose proof (H1 White) as Hw. pose proof (H1 Red) as Hr.
      pose proof (H1 Blue) as Hb. pose proof (H1 Yellow) as Hy.
      pose proof (H1 Green) as Hg. simpl in Hw, Hr, Hb, Hy, Hg.
      intro i. destruct selected, i; simpl; assumption || reflexivity. }
    split; [| split; [exact Hh' |]].
    + unfold enabledImages, statusImages. cbn [filter]. rewrite !Hh'.
      destruct selected; reflexivity.
    + unfold h', updateGPSStatusIndicator. rewrite Hlm. simpl. rewrite Hchanged.
      destruct (HL.image _ _); simpl; rewrite disableAll_lastLocationSource; reflexivity.
Qed.

(** ** The detailed panel and the map pin *)

Lemma removeMobileKitPin_removes (w : World) :
  pinConsistent (floatingDetails w) ->
  noPin (removeMobileKitPin w) /\ pinConsistent (floatingDetails (removeMobileKitPin w)).
Proof.
  unfold pinConsistent, removeMobileKitPin, noPin, pinsOnMap.
  destruct (FD.mapComponent (floatingDetails w)) as [m |] eqn:Em,
           (FD.mobileKitPin (floatingDetails w)) as [p |] eqn:Ep; simpl.
  - intros [Hpins _]. rewrite Hpins. simpl. rewrite Nat.eqb_refl. auto.
  - intro Hpins. rewrite Em, Ep. auto.
  - intros [].
  - intros _. rewrite Em, Ep. auto.
Qed.

Lemma removeExistingPin_removes (m : MapComponent) (w : World) :
  FD.mapComponent (floatingDetails w) = Some m ->
  pinConsistent (floatingDetails w) ->
  noPin (removeExistingPin m w) /\
  FD.mapComponent (floatingDetails (removeExistingPin m w))
  = Some {| pins := []; nextPinId := nextPinId m |}.
Proof.
  unfold pinConsistent, removeExistingPin, noPin, pinsOnMap. intros Em. rewrite Em.
  destruct (FD.mobileKitPin (floatingDetails w)) as [p |] eqn:Ep; simpl.
  - intros [Hpins _]. unfold removeMapPin. rewrite Hpins. simpl.
    rewrite Nat.eqb_refl. auto.
  - intro Hpins. rewrite Ep, Em, Hpins. destruct m as [ps next]. simpl in Hpins.
    subst ps. auto.
Qed.

(** The last branch of the pin refresh, on a consistent scene: the old pin
    is off the map before the new one, with a fresh handle, is on it. *)
Lemma replace_pin (m : MapComponent) (w : World) :
  FD.mapComponent (floatingDetails w) = Some m ->
  pinConsistent (floatingDetails w) ->
  let w' := createPinAtCurrentLocation (removeExistingPin m w) in
  let p := {| pinId := nextPinId m;
              pinLongitude := MK.longitude (mobileKitManager w);
              pinLatitude := MK.latitude (mobileKitManager w) |} in
  FD.mobileKitPin (floatingDetails w') = Some p /\
  pinsOnMap (floatingDetails w') = [p] /\
  pinConsistent (floatingDetails w').
Proof.
  intros Em Hw.
  destruct (removeExistingPin_removes m w Em Hw) as (_ & Em').
  assert (Hk : mobileKitManager (removeExistingPin m w) = mobileKitManager w).
  { unfold removeExistingPin. destruct (FD.mobileKitPin (floatingDetails w)); reflexivity. }
  cbv zeta. unfold createPinAtCurrentLocation, pinsOnMap, pinConsistent.
  rewrite Em', Hk. simpl. repeat split. lia.
Qed.

Lemma removeMobileKitPin_pinsStayConsistent (w : World) :
  pinsStayConsistent w (removeMobileKitPin w).
Proof. intro Hw. apply removeMobileKitPin_removes, Hw. Qed.

Lemma updateMobileKitPin_pinsStayConsistent : preserves pinsStayConsistent updateMobileKitPin.
Proof.
  intros w Hw. unfold updateMobileKitPin.
  destruct (FD.mapComponent (floatingDetails w)) as [m |] eqn:Em; [| exact Hw].
  destruct (isEditor w); [apply removeMobileKitPin_removes, Hw |].
  destruct (FD.mobileKitManagerSceneObject (floatingDetails w)) as [enabled |];
    [| exact Hw].
  destruct (negb enabled); [apply removeMobileKitPin_removes, Hw |].
  destruct (negb (FD.mobileKitManager (floatingDetails w))); [exact Hw |].
  destruct (strictEqualsZero _ && strictEqualsZero _);
    [apply removeMobileKitPin_removes, Hw |].
  apply (replace_pin m w Em Hw).
Qed.

Lemma setMobileKitText_pinsStayConsistent (t : string) :
  preserves pinsStayConsistent (setMobileKitText t).
Proof. intros w Hw. unfold setMobileKitText. branches; exact Hw. Qed.

Lemma setButtonInactive_pinsStayConsistent (b : bool) :
  preserves pinsStayConsistent (setButtonInactive b).
Proof. intros w Hw. unfold setButtonInactive. branches; exact Hw. Qed.

Lemma setButtonTextColor_pinsStayConsistent (c : vec4) :
  preserves pinsStayConsistent (setButtonTextColor c).
Proof. intros w Hw. unfold setButtonTextColor. branches; exact Hw. Qed.

Lemma updateLocationText_pinsStayConsistent (w : World) :
  pinsStayConsistent w (updateLocationText w).
Proof. intros Hw. unfold updateLocationText. branches; exact Hw. Qed.

Lemma storeIfPresent_pinsStayConsistent
    (locationData : JsValue) (key : string) (assign : MK.t -> JsValue -> MK.t) :
  preserves pinsStayConsistent (storeIfPresent locationData key assign).
Proof.
  intros w Hw. unfold storeIfPresent.
  destruct (getMember locationData key) as [[v |] | e]; exact Hw.
Qed.

#[local] Hint Resolve removeMobileKitPin_pinsStayConsistent
  updateLocationText_pinsStayConsistent : frame.
#[local] Hint Resolve updateMobileKitPin_pinsStayConsistent
  setMobileKitText_pinsStayConsistent setButtonInactive_pinsStayConsistent
  setButtonTextColor_pinsStayConsistent storeIfPresent_pinsStayConsistent : frame.

Lemma updateMobileKitText_pinsStayConsistent :
  preserves pinsStayConsistent updateMobileKitText.
Proof.
  assert (Hfixed : forall (t : string) (b : bool) (c : vec4),
    preserves pinsStayConsistent
      (setMobileKitText t ;; setButtonInactive b ;; setButtonTextColor c ;;
       always removeMobileKitPin)).
  { intros t b c. repeat apply preserves_andThen; try typeclasses eauto;
      auto using preserves_always with frame. }
  intros w. unfold updateMobileKitText.
  destruct (isEditor w); [apply Hfixed |].
  destruct (FD.mobileKitManagerSceneObject (floatingDetails w)) as [enabled |];
    [| reflexivity].
  destruct (negb enabled); [apply Hfixed |].
  destruct (negb (FD.mobileKitManager (floatingDetails w))); [reflexivity |].
  destruct (strictEqualsZero _ && strictEqualsZero _); [apply Hfixed |].
  destruct (mobileKitReadingText (mobileKitManager w)); [| reflexivity].
  revert w. repeat apply preserves_andThen; try typeclasses eauto; auto with frame.
Qed.

#[local] Hint Resolve updateMobileKitText_pinsStayConsistent : frame.

Lemma updateContent_pinsStayConsistent : preserves pinsStayConsistent updateContent.
Proof.
  unfold updateContent. repeat apply preserves_andThen; try typeclasses eauto;
    auto using preserves_always with frame.
Qed.

Lemma newMobileKitDataAvailable_pinsStayConsistent :
  preserves pinsStayConsistent newMobileKitDataAvailable.
Proof.
  intros w. unfold newMobileKitDataAvailable.
  destruct (MK.floatingDetailsUIContentManager (mobileKitManager w));
    [apply updateContent_pinsStayConsistent | reflexivity].
Qed.

Lemma newLocationManagerDataAvailable_pinsStayConsistent :
  preserves pinsStayConsistent newLocationManagerDataAvailable.
Proof.
  intros w. unfold newLocationManagerDataAvailable.
  destruct (LM.floatingDetailsUIContentManager (locationManager w));
    [apply updateContent_pinsStayConsistent | reflexivity].
Qed.

#[local] Hint Resolve newMobileKitDataAvailable_pinsStayConsistent : frame.

Lemma step_pinsStayConsistent (e : Event) : preserves pinsStayConsistent (step e).
Proof.
  intros w Hw.
  destruct e as [| | | g | error | h | response parsed | | |]; cbn [step].
  - apply updateContent_pinsStayConsistent. exact Hw.
  - simpl. unfold onUpdate, updateCompassRotation, updateLocationTextElements,
      updateGPSStatusIndicator.
    branches; exact Hw.
  - destruct (LM.repeatProcessGeoPositionEvent (locationManager w)); exact Hw.
  - destruct (LM.pendingPositionRequests (locationManager w)); [exact Hw |].
    apply newLocationManagerDataAvailable_pinsStayConsistent. exact Hw.
  - destruct (LM.pendingPositionRequests (locationManager w)); exact Hw.
  - unfold processNorthAlignedOrientationUpdate.
    apply newLocationManagerDataAvailable_pinsStayConsistent.
    destruct (isEditor _); exact Hw.
  - simpl. unfold onGPSLocationResponse. set (logged := print _ w).
    destruct parsed as [locationData | e]; [| exact Hw].
    assert (Hchain : preserves pinsStayConsistent (storeLocationData locationData)).
    { unfold storeLocationData.
      repeat apply preserves_andThen; try typeclasses eauto; auto with frame. }
    specialize (Hchain logged Hw).
    destruct (storeLocationData locationData logged); exact Hchain.
  - unfold startMobileKitButtonPressed.
    destruct (FD.mobileKitManagerSceneObject (floatingDetails w)); [| exact Hw].
    apply updateContent_pinsStayConsistent. exact Hw.
  - unfold detailsButtonPressed.
    destruct (HP.floatingDetailsUIFrame (handLockedPresentation w)); [| exact Hw].
    simpl. destruct (HP.floatingDetailsUIContentManager (handLockedPresentation w));
      [| exact Hw].
    apply updateContent_pinsStayConsistent. exact Hw.
  - simpl. unfold closeButtonPressed.
    destruct (FP.floatingDetailsUIFrame (floatingDetailsPresentation w)); exact Hw.
Qed.

Lemma run_pinConsistent (events : list Event) (w : World) :
  pinConsistent (floatingDetails w) -> pinConsistent (floatingDetails (run events w)).
Proof.
  revert w. induction events as [| e events IH]; intros w Hw; [exact Hw |].
  cbn [run]. apply IH, step_pinsStayConsistent, Hw.
Qed.

Lemma atStart_pinConsistent (scene : World) : pinConsistent (floatingDetails (atStart scene)).
Proof.
  unfold pinConsistent. simpl.
  destruct (FD.mapComponent (floatingDetails scene)); simpl; auto.
Qed.

Lemma pinConsistent_at_most_one (f : FD.t) :
  pinConsistent f -> length (pinsOnMap f) <= 1.
Proof.
  unfold pinConsistent, pinsOnMap.
  destruct (FD.mapComponent f) as [m |], (FD.mobileKitPin f) as [p |]; simpl.
  - intros [H _]. rewrite H. simpl. lia.
  - intros H. rewrite H. simpl. lia.
  - lia.
  - lia.
Qed.

(** C5. On a scene with the map surface, the mobile kit scene object and
    the mobile kit manager assigned, every map-pin refresh ends normally and:
    when the display state is not the active one (simulated environment,
    manager disabled, or coordinates (0,0)) any existing pin is off the map
    and the reference is cleared; otherwise the existing pin, if any, is
    removed first (the map is then empty and the reference cleared) and a new
    pin with a fresh handle is created at the stored longitude and latitude,
    whether or not the coordinates changed. The map never holds more than one
    pin of the secondary source: not after a refresh, and not after any
    sequence of turns from component start, through which the map and the
    reference stay in agreement. *)
Theorem map_pin_refresh_keeps_at_most_one_pin :
  forall (w : World) (m : MapComponent) (enabled : bool),
    pinConsistent (floatingDetails w) ->
    FD.mapComponent (floatingDetails w) = Some m ->
    FD.mobileKitManagerSceneObject (floatingDetails w) = Some enabled ->
    FD.mobileKitManager (floatingDetails w) = true ->
    let k := mobileKitManager w in
    (exists w', updateMobileKitPin w = Done w' /\
       length (pinsOnMap (floatingDetails w')) <= 1 /\
       match displayState (isEditor w) enabled (MK.latitude k) (MK.longitude k) with
       | Active =>
           let removed := removeExistingPin m w in
           let p := {| pinId := nextPinId m;
                       pinLongitude := MK.longitude k;
                       pinLatitude := MK.latitude k |} in
           noPin removed /\
           w' = createPinAtCurrentLocation removed /\
           FD.mobileKitPin (floatingDetails w') = Some p /\
           pinsOnMap (floatingDetails w') = [p] /\
           (forall old, FD.mobileKitPin (floatingDetails w) = Some old ->
                        pinId old <> pinId p)
       | _ => noPin w'
       end) /\
    (forall (scene : World) (events : list Event),
       pinConsistent (floatingDetails (run events (atStart scene))) /\
       length (pinsOnMap (floatingDetails (run events (atStart scene)))) <= 1).
Proof.
  intros w m enabled Hw Em Eo Ek k. split.
  - pose proof (updateMobileKitPin_pinsStayConsistent w Hw) as Hafter.
    apply pinConsistent_at_most_one in Hafter.
    unfold updateMobileKitPin, displayState in *. rewrite Em, Eo, Ek in *.
    fold k in Hafter |- *.
    destruct (isEditor w); simpl negb in *; cbv iota in *.
    { eexists. split; [reflexivity |]. split; [exact Hafter |].
      apply removeMobileKitPin_removes, Hw. }
    destruct enabled; simpl negb in *; cbv iota in *.
    2:{ eexists. split; [reflexivity |]. split; [exact Hafter |].
        apply removeMobileKitPin_removes, Hw. }
    destruct (strictEqualsZero (MK.latitude k) && strictEqualsZero (MK.longitude k)).
    { eexists. split; [reflexivity |]. split; [exact Hafter |].
      apply removeMobileKitPin_removes, Hw. }
    eexists. split; [reflexivity |]. split; [exact Hafter |].
    destruct (removeExistingPin_removes m w Em Hw) as (Hnone & _).
    destruct (replace_pin m w Em Hw) as (Hnew & Hmap & _).
    cbv zeta. split; [exact Hnone |].
    split; [reflexivity |]. split; [exact Hnew |]. split; [exact Hmap |].
    intros old Hold. unfold pinConsistent in Hw. rewrite Em, Hold in Hw.
    destruct Hw as [_ Hlt]. simpl. lia.
  - intros scene events.
    pose proof (run_pinConsistent events _ (atStart_pinConsistent scene)) as H.
    split; [exact H | apply pinConsistent_at_most_one, H].
Qed.

(** The three branches with a fixed message, on a scene with the text, the
    control and its label assigned. *)
Lemma fixed_message_branch (text : string) (inactive : bool) (tint : vec4) (w : World) :
  FD.mobileKitText (floatingDetails w) <> None ->
  FD.startMobileKitButton (floatingDetails w) <> None ->
  FD.startMobileKitButtonText (floatingDetails w) <> None ->
  pinConsistent (floatingDetails w) ->
  exists w',
    (setMobileKitText text ;; setButtonInactive inactive ;; setButtonTextColor tint ;;
     always removeMobileKitPin) w = Done w' /\
    shows w' text inactive tint /\ noPin w'.
Proof.
  intros Ht Hb Hc Hw. unfold andThen, always, setMobileKitText.
  destruct (FD.mobileKitText (floatingDetails w)) as [t0 |] eqn:Et; [| congruence].
  unfold setButtonInactive. simpl.
  destruct (FD.startMobileKitButton (floatingDetails w)) as [b0 |] eqn:Eb; [| congruence].
  unfold setButtonTextColor. simpl.
  destruct (FD.startMobileKitButtonText (floatingDetails w)) as [c0 |] eqn:Ec;
    [| congruence].
  eexists. split; [reflexivity |].
  match goal with |- shows (removeMobileKitPin ?x) _ _ _ /\ _ => set (w3 := x) end.
  assert (H3 : pinConsistent (floatingDetails w3)) by exact Hw.
  split; [| apply removeMobileKitPin_removes, H3].
  unfold shows, removeMobileKitPin.
  destruct (FD.mobileKitPin (floatingDetails w3)), (FD.mapComponent (floatingDetails w3));
    repeat split.
Qed.

(** The pin refresh leaves the secondary display as it is. *)
Lemma updateMobileKitPin_keeps_display
    (text : string) (inactive : bool) (tint : vec4) (w : World) :
  shows w text inactive tint -> shows (sceneOf (updateMobileKitPin w)) text inactive tint.
Proof.
  unfold shows, updateMobileKitPin, removeMobileKitPin, createPinAtCurrentLocation,
    removeExistingPin.
  intros (Ht & Hb & Hc). branches; simpl; auto.
Qed.

(** C2. On a scene with the text, the control, its label, the mobile kit
    scene object and the mobile kit manager assigned, every refresh of the
    secondary-source display ends normally and shows what the current
    environment, enabled flag and coordinates say, whatever was shown before:
    in the simulated environment the unavailable message, the control
    disabled and no pin; with the manager disabled the availability message,
    the control enabled and no pin; enabled with coordinates (0,0) the
    message "No Mobile Kit data", the control disabled and any existing pin
    removed; enabled with other coordinates the five-field text formatted
    from the stored numbers and the control enabled. *)
Theorem secondary_display_follows_the_four_way_branch :
  forall (w : World) (enabled : bool),
    FD.mobileKitText (floatingDetails w) <> None ->
    FD.startMobileKitButton (floatingDetails w) <> None ->
    FD.startMobileKitButtonText (floatingDetails w) <> None ->
    FD.mobileKitManagerSceneObject (floatingDetails w) = Some enabled ->
    FD.mobileKitManager (floatingDetails w) = true ->
    pinConsistent (floatingDetails w) ->
    let k := mobileKitManager w in
    match displayState (isEditor w) enabled (MK.latitude k) (MK.longitude k) with
    | Unavailable =>
        exists w', updateMobileKitText w = Done w' /\
          shows w' "Mobile Kit unavailable in editor" true lightGrey /\ noPin w'
    | Available =>
        exists w', updateMobileKitText w = Done w' /\
          shows w' "Mobile Kit available on device" false white /\ noPin w'
    | NoData =>
        exists w', updateMobileKitText w = Done w' /\
          shows w' "No Mobile Kit data" true lightGrey /\ noPin w'
    | Active =>
        forall latitude longitude horizontalAccuracy altitude verticalAccuracy : float,
          MK.latitude k = JNumber latitude ->
          MK.longitude k = JNumber longitude ->
          MK.horizontalAccuracy k = JNumber horizontalAccuracy ->
          MK.altitude k = JNumber altitude ->
          MK.verticalAccuracy k = JNumber verticalAccuracy ->
          exists w', updateMobileKitText w = Done w' /\
            shows w'
              (mobileKitTextOf latitude longitude horizontalAccuracy altitude
                 verticalAccuracy)
              false lightGrey
    end.
Proof.
  intros w enabled Ht Hb Hc Eo Ek Hw k.
  unfold displayState, updateMobileKitText. rewrite Eo, Ek. fold k.
  destruct (isEditor w); [apply fixed_message_branch; assumption |].
  destruct enabled; simpl negb; cbv iota; [| apply fixed_message_branch; assumption].
  destruct (strictEqualsZero (MK.latitude k) && strictEqualsZero (MK.longitude k));
    [apply fixed_message_branch; assumption |].
  intros latitude longitude horizontalAccuracy altitude verticalAccuracy
    Hlat Hlon Hhacc Halt Hvacc.
  unfold mobileKitReadingText. rewrite Hlat, Hlon, Hhacc, Halt, Hvacc.
  cbn [toFixedOf bindC].
  unfold andThen, setMobileKitText.
  destruct (FD.mobileKitText (floatingDetails w)) as [t0 |] eqn:Et; [| congruence].
  unfold setButtonInactive. simpl.
  destruct (FD.startMobileKitButton (floatingDetails w)) as [b0 |] eqn:Eb; [| congruence].
  unfold setButtonTextColor. simpl.
  destruct (FD.startMobileKitButtonText (floatingDetails w)) as [c0 |] eqn:Ec;
    [| congruence].
  match goal with |- exists w', updateMobileKitPin ?x = _ /\ _ => set (w3 := x) end.
  assert (Hdone : exists w', updateMobileKitPin w3 = Done w').
  { unfold updateMobileKitPin. subst w3. simpl. rewrite Eo, Ek.
    branches; eexists; reflexivity. }
  destruct Hdone as [w' Hdone]. exists w'. split; [exact Hdone |].
  change w' with (sceneOf (Done w')). rewrite <- Hdone.
  apply updateMobileKitPin_keeps_display. repeat split.
Qed.

(** ** Unassigned inputs *)

Lemma setEnabled_unassigned (h : HL.t) (j i : StatusImage) (value : bool) :
  HL.image h i = None -> HL.image h j <> None ->
  HL.image (HL.setEnabled h j value) i = None /\
  (forall b, In (i, b) (HL.visibilityWrites (HL.setEnabled h j value)) ->
             In (i, b) (HL.visibilityWrites h)).
Proof.
  intros Hi Hj. split.
  - destruct i, j; simpl in *; congruence.
  - intros b Hin. simpl in Hin. apply in_app_or in Hin.
    destruct Hin as [Hin | [Heq | []]]; [exact Hin |].
    injection Heq as Hji Hb. subst j. contradiction.
Qed.

(** An image that is not assigned is passed over by
    [disableAllGPSStatusImages]: it stays unassigned and nothing is written
    to it. *)
Lemma disableAll_unassigned (h : HL.t) (i : StatusImage) :
  HL.image h i = None ->
  HL.image (disableAllGPSStatusImages h) i = None /\
  (forall b, In (i, b) (HL.visibilityWrites (disableAllGPSStatusImages h)) ->
             In (i, b) (HL.visibilityWrites h)).
Proof.
  unfold disableAllGPSStatusImages. generalize statusImages. intros images. revert h.
  induction images as [| j images IH]; intros h Hi; [auto |].
  cbn [fold_left].
  assert (Hstep : HL.image (disableIfAssigned h j) i = None /\
                  (forall b, In (i, b) (HL.visibilityWrites (disableIfAssigned h j)) ->
                             In (i, b) (HL.visibilityWrites h))).
  { unfold disableIfAssigned. destruct (HL.image h j) eqn:Ej; [| auto].
    apply setEnabled_unassigned; congruence. }
  destruct Hstep as [H1 H2]. destruct (IH _ H1) as [H3 H4]. split; auto.
Qed.

(** C9, as amended. Each operation that tests a referenced element before
    using it skips the element when it is not assigned, without reading a
    property of it: the primary adapter's notification (content manager),
    the primary text refresh (location manager, text), the map-pin refresh
    and removal (map surface), the compact panel's render (location manager,
    each status image, each text, the compass image), the close-button and
    details-button callbacks (frame) and the positioning of the hand-locked
    panel (back plate) all end normally. A status image that is not assigned
    stays so and is never written to, whichever image the update selects. Of
    these operations, a warning is printed by the status-icon update, when
    the image selected for the new source is not assigned (and in no other
    case), by the two button callbacks, when the frame is not assigned, and
    by the positioning of the hand-locked panel, when the back plate is not
    assigned; the other tests skip without printing. *)
Theorem guarded_operations_skip_an_unassigned_element :
  (forall w : World,
     LM.floatingDetailsUIContentManager (locationManager w) = false ->
     newLocationManagerDataAvailable w = Done w) /\
  (forall w : World,
     FD.locationManager (floatingDetails w) = false \/
     FD.locationDataText (floatingDetails w) = None ->
     updateLocationText w = w) /\
  (forall w : World,
     FD.mapComponent (floatingDetails w) = None ->
     updateMobileKitPin w = Done w /\ removeMobileKitPin w = w) /\
  (forall w : World,
     HL.locationManager (handLocked w) = false -> onUpdate w = w) /\
  (forall w : World,
     HL.locationManager (handLocked w) = true ->
     LM.locationSource (locationManager w) <> HL.lastLocationSource (handLocked w) ->
     HL.image (handLocked w) (getGPSStatusImage (LM.locationSource (locationManager w)))
     = None ->
     let w' := updateGPSStatusIndicator w in
     console w' = List.app (console w)
                    ["updateGPSStatusIndicator() - Warning: No image found for GPS status: "
                     ++ LM.locationSource (locationManager w)] /\
     enabledImages (handLocked w') = [] /\
     (forall i, HL.image (handLocked w) i = None -> HL.image (handLocked w') i = None)) /\
  (forall (w : World) (i : StatusImage),
     HL.image (handLocked w) i = None ->
     let w' := updateGPSStatusIndicator w in
     HL.image (handLocked w') i = None /\
     (forall b, In (i, b) (HL.visibilityWrites (handLocked w')) ->
                In (i, b) (HL.visibilityWrites (handLocked w)))) /\
  (forall w : World,
     HL.locationManager (handLocked w) = false \/
     LM.locationSource (locationManager w) = HL.lastLocationSource (handLocked w) \/
     HL.image (handLocked w) (getGPSStatusImage (LM.locationSource (locationManager w)))
     <> None ->
     console (updateGPSStatusIndicator w) = console w) /\
  (forall w : World,
     let w' := updateCompassRotation (updateLocationTextElements w) in
     console w' = console w /\
     (HL.sourceValueText (handLocked w) = None ->
      HL.sourceValueText (handLocked w') = None) /\
     (HL.accuracyValueText (handLocked w) = None ->
      HL.accuracyValueText (handLocked w') = None) /\
     (HL.headingValueText (handLocked w) = None ->
      HL.headingValueText (handLocked w') = None) /\
     (HL.compassImage (handLocked w) = None -> HL.compassImage (handLocked w') = None)) /\
  (forall w : World,
     FP.floatingDetailsUIFrame (floatingDetailsPresentation w) = false ->
     closeButtonPressed w
     = print "closeButtonPressed() - Warning: floatingDetailsUIFrame is not assigned." w) /\
  (forall w : World,
     HP.floatingDetailsUIFrame (handLockedPresentation w) = false ->
     detailsButtonPressed w
     = Done (print "detailsButtonPressed() - Warning: floatingDetailsUIFrame is not assigned."
               w)) /\
  (forall (vec3 quat : Type) (platform : UP.VectorPlatform vec3 quat) (p : UP.t vec3 quat),
     UP.handLockedUIBackPlate p = None ->
     UP.positionUI p
     = UP.print "positionUI() - Warning: handLockedUIBackPlate is not assigned." p).
Proof.
  repeat match goal with |- _ /\ _ => split end.
  - intros w H. unfold newLocationManagerDataAvailable. rewrite H. reflexivity.
  - intros w [H | H]; unfold updateLocationText; rewrite H; [reflexivity |].
    destruct (negb _); reflexivity.
  - intros w H. split.
    + unfold updateMobileKitPin. rewrite H. reflexivity.
    + unfold removeMobileKitPin. rewrite H.
      destruct (FD.mobileKitPin (floatingDetails w)); reflexivity.
  - intros w H. unfold onUpdate, updateGPSStatusIndicator. rewrite H. simpl.
    unfold updateLocationTextElements. rewrite H. simpl.
    unfold updateCompassRotation. rewrite H. reflexivity.
  - intros w Hlm Hchanged Htarget w'. unfold w', updateGPSStatusIndicator.
    rewrite Hlm. simpl negb. cbv iota.
    apply String.eqb_neq in Hchanged. rewrite Hchanged.
    set (target := getGPSStatusImage _) in *.
    set (h1 := disableAllGPSStatusImages _).
    assert (H1 : forall i, HL.image h1 i
                 = match HL.image (handLocked w) i with
                   | Some _ => Some false | None => None end).
    { intro i. unfold h1. rewrite disableAll_images. destruct i; reflexivity. }
    rewrite (H1 target), Htarget.
    split; [reflexivity |]. split.
    + unfold enabledImages, statusImages. simpl handLocked. cbn [filter]. rewrite !H1.
      destruct (HL.image (handLocked w) White), (HL.image (handLocked w) Red),
        (HL.image (handLocked w) Blue), (HL.image (handLocked w) Yellow),
        (HL.image (handLocked w) Green); reflexivity.
    + intros i Hi. simpl handLocked. rewrite H1, Hi. reflexivity.
  - intros w i Hi w'. unfold w', updateGPSStatusIndicator.
    destruct (negb _); [auto |].
    destruct (String.eqb _ _); [auto |].
    set (target := getGPSStatusImage _).
    set (h0 := HL.withLastLocationSource (handLocked w) _).
    assert (Hi0 : HL.image h0 i = None) by (destruct i; exact Hi).
    destruct (disableAll_unassigned h0 i Hi0) as [H1 H2].
    destruct (HL.image (disableAllGPSStatusImages h0) target) eqn:Et.
    + destruct (setEnabled_unassigned (disableAllGPSStatusImages h0) target i true H1)
        as [H3 H4]; [congruence |].
      split; [exact H3 |]. intros value Hin. apply (H2 value), (H4 value), Hin.
    + split; [exact H1 | exact H2].
  - intros w H. unfold updateGPSStatusIndicator.
    destruct (HL.locationManager (handLocked w)) eqn:Hlm; simpl negb; cbv iota;
      [| reflexivity].
    destruct (String.eqb_spec (LM.locationSource (locationManager w))
                (HL.lastLocationSource (handLocked w))) as [Heq | Hne]; [reflexivity |].
    destruct H as [H | [H | H]]; [discriminate | contradiction |].
    set (target := getGPSStatusImage _) in *.
    rewrite disableAll_images.
    assert (Ht : HL.image (HL.withLastLocationSource (handLocked w)
                             (LM.locationSource (locationManager w))) target
                 = HL.image (handLocked w) target) by (destruct target; reflexivity).
    rewrite Ht. destruct (HL.image (handLocked w) target); [reflexivity | congruence].
  - intros w. cbv zeta. unfold updateCompassRotation, updateLocationTextElements.
    destruct (negb (HL.locationManager (handLocked w))) eqn:E.
    + rewrite E. repeat split; auto.
    + simpl. rewrite E. destruct (HL.compassImage (handLocked w)) eqn:Ec; simpl;
        repeat split; try (intro H; rewrite H; reflexivity); congruence.
  - intros w H. unfold closeButtonPressed. rewrite H. reflexivity.
  - intros w H. unfold detailsButtonPressed. rewrite H. reflexivity.
  - intros vec3 quat platform p H. unfold UP.positionUI. rewrite H. reflexivity.
Qed.

(** ** Further properties of the components *)

Lemma onlyFD_isEditor (w w' : World) :
  onlyFloatingDetailsChanged w w' -> isEditor w' = isEditor w.
Proof. intros H. rewrite H. reflexivity. Qed.

Lemma onlyFD_frame (w w' : World) :
  onlyFloatingDetailsChanged w w' ->
  floatingDetailsUIFrameEnabled w' = floatingDetailsUIFrameEnabled w /\
  console w' = console w /\
  handLockedPresentation w' = handLockedPresentation w /\
  floatingDetailsPresentation w' = floatingDetailsPresentation w.
Proof. intros H. rewrite H. repeat split. Qed.

Lemma orientation_update_primary (h : float) (w : World) :
  locationManager (sceneOf (processNorthAlignedOrientationUpdate h w))
  = LM.withHeading (locationManager w) (storedHeading (isEditor w) h).
Proof.
  unfold processNorthAlignedOrientationUpdate.
  rewrite (onlyFD_locationManager _ _ (newLocationManagerDataAvailable_onlyFD _)).
  simpl. destruct (isEditor w); reflexivity.
Qed.

Lemma orientation_update_isEditor (h : float) (w : World) :
  isEditor (sceneOf (processNorthAlignedOrientationUpdate h w)) = isEditor w.
Proof.
  unfold processNorthAlignedOrientationUpdate.
  rewrite (onlyFD_isEditor _ _ (newLocationManagerDataAvailable_onlyFD _)).
  simpl. destruct (isEditor w) eqn:E; simpl; exact E.
Qed.

Lemma position_update_primary (g : GeoPosition.t) (w : World) :
  locationManager (sceneOf (onGeoPosition g w)) = LM.withReading (locationManager w) g /\
  isEditor (sceneOf (onGeoPosition g w)) = isEditor w.
Proof.
  unfold onGeoPosition.
  rewrite (onlyFD_locationManager _ _ (newLocationManagerDataAvailable_onlyFD _)).
  rewrite (onlyFD_isEditor _ _ (newLocationManagerDataAvailable_onlyFD _)).
  split; reflexivity.
Qed.

(** X1. An orientation update stores the heading it is given, with the sign
    inverted in the editor only, and leaves the six values of the position
    fetch alone; a position fetch leaves the heading alone. So the two
    callbacks commute on the primary adapter's state: a fetch followed by an
    orientation update leaves what the update followed by the fetch leaves,
    whatever the refreshes in between do. *)
Theorem position_and_orientation_updates_commute :
  forall (geoPosition : GeoPosition.t) (northAlignedHeading : float) (w : World),
    let m := locationManager w in
    let turned := locationManager
                    (sceneOf (processNorthAlignedOrientationUpdate northAlignedHeading w)) in
    let fetchedThenTurned :=
      locationManager
        (sceneOf (processNorthAlignedOrientationUpdate northAlignedHeading
                    (sceneOf (onGeoPosition geoPosition w)))) in
    let turnedThenFetched :=
      locationManager
        (sceneOf (onGeoPosition geoPosition
                    (sceneOf (processNorthAlignedOrientationUpdate northAlignedHeading w)))) in
    LM.reading turned
    = (LM.locationSource m, LM.latitude m, LM.longitude m, LM.horizontalAccuracy m,
       LM.altitude m, LM.verticalAccuracy m,
       storedHeading (isEditor w) northAlignedHeading) /\
    fetchedThenTurned = turnedThenFetched /\
    LM.reading fetchedThenTurned
    = (GeoPosition.locationSource geoPosition, GeoPosition.latitude geoPosition,
       GeoPosition.longitude geoPosition, GeoPosition.horizontalAccuracy geoPosition,
       GeoPosition.altitude geoPosition, GeoPosition.verticalAccuracy geoPosition,
       storedHeading (isEditor w) northAlignedHeading).
Proof.
  intros g h w. cbv zeta.
  rewrite !orientation_update_primary.
  destruct (position_update_primary g w) as [Hm He].
  destruct (position_update_primary g (sceneOf (processNorthAlignedOrientationUpdate h w)))
    as [Hm' _].
  rewrite Hm, He, Hm', orientation_update_primary.
  repeat split.
Qed.

(** ** Messages of the secondary adapter, composed *)

Lemma ownProperty_app (p1 p2 : list (string * JsValue)) (key : string) :
  ownProperty (p1 ++ p2) key
  = match ownProperty p2 key with
    | Some v => Some v
    | None => ownProperty p1 key
    end.
Proof.
  induction p1 as [| [k v] p1 IH]; simpl.
  - destruct (ownProperty p2 key); reflexivity.
  - rewrite IH. destruct (ownProperty p2 key); reflexivity.
Qed.

Lemma presentOr_app (p1 p2 : list (string * JsValue)) (key : string) (prior : JsValue) :
  presentOr (p1 ++ p2) key prior = presentOr p2 key (presentOr p1 key prior).
Proof.
  unfold presentOr. rewrite ownProperty_app.
  destruct (ownProperty p2 key); reflexivity.
Qed.

Lemma storedPayload_applied (payload : list (string * JsValue)) (w : World) :
  mobileKitManager (storedPayload payload w) = appliedPayload payload (mobileKitManager w).
Proof.
  unfold storedPayload, appliedPayload, presentOr.
  destruct (mobileKitManager w) eqn:Ek.
  destruct (ownProperty payload "latitude"), (ownProperty payload "longitude"),
    (ownProperty payload "horizontal_accuracy"), (ownProperty payload "altitude"),
    (ownProperty payload "vertical_accuracy"); simpl; rewrite ?Ek; reflexivity.
Qed.

Lemma reading_after_message
    (response : string) (payload : list (string * JsValue)) (w : World) :
  mobileKitManager (onGPSLocationResponse response (Parsed (JObject payload)) w)
  = appliedPayload payload (mobileKitManager w).
Proof. rewrite reading_after_object_message. apply storedPayload_applied. Qed.

(** X2. Messages of the secondary adapter accumulate: the reading after a
    message with payload [p1] followed by one with payload [p2] is the
    reading after the single message whose payload lists the properties of
    [p1] and then those of [p2] (a later value for a key replaces an earlier
    one). In particular a message received twice leaves the reading the
    first one left, and a message with no property leaves the reading as it
    was. *)
Theorem successive_messages_merge :
  forall (response1 response2 response : string) (p1 p2 : list (string * JsValue))
         (w : World),
    mobileKitManager
      (onGPSLocationResponse response2 (Parsed (JObject p2))
         (onGPSLocationResponse response1 (Parsed (JObject p1)) w))
    = mobileKitManager (onGPSLocationResponse response (Parsed (JObject (p1 ++ p2))) w) /\
    mobileKitManager
      (onGPSLocationResponse response2 (Parsed (JObject p1))
         (onGPSLocationResponse response1 (Parsed (JObject p1)) w))
    = mobileKitManager (onGPSLocationResponse response1 (Parsed (JObject p1)) w) /\
    mobileKitManager (onGPSLocationResponse response (Parsed (JObject [])) w)
    = mobileKitManager w.
Proof.
  intros r1 r2 r p1 p2 w. rewrite !reading_after_message.
  split; [| split].
  - unfold appliedPayload. simpl. rewrite !presentOr_app. reflexivity.
  - unfold appliedPayload, presentOr. simpl.
    destruct (ownProperty p1 "latitude"), (ownProperty p1 "longitude"),
      (ownProperty p1 "horizontal_accuracy"), (ownProperty p1 "altitude"),
      (ownProperty p1 "vertical_accuracy"); reflexivity.
  - destruct (mobileKitManager w); reflexivity.
Qed.

Lemma storedPayload_ext (p1 p2 : list (string * JsValue)) (w : World) :
  (forall key, In key locationKeys -> ownProperty p1 key = ownProperty p2 key) ->
  storedPayload p1 w = storedPayload p2 w.
Proof.
  intros H. unfold storedPayload.
  rewrite (H "latitude"), (H "longitude"), (H "horizontal_accuracy"), (H "altitude"),
    (H "vertical_accuracy"); simpl; auto 10.
Qed.

Lemma ownProperty_other_key (key k : string) (v : JsValue) (p : list (string * JsValue)) :
  key <> k -> ownProperty ((key, v) :: p) k = ownProperty p k.
Proof.
  intros Hne. simpl. apply String.eqb_neq in Hne. rewrite Hne.
  destruct (ownProperty p k); reflexivity.
Qed.

(** ** The echo of the response *)

Lemma consoleBlind_andThen (f g : World -> Outcome) :
  consoleBlind f -> consoleBlind g -> consoleBlind (f ;; g).
Proof.
  intros Hf Hg w lines. unfold andThen. rewrite Hf.
  destruct (f w) as [w' | error w']; [apply Hg | reflexivity].
Qed.

Lemma consoleBlind_always (f : World -> World) :
  (forall w lines, f (withConsole w lines) = withConsole (f w) lines) ->
  consoleBlind (always f).
Proof. intros Hf w lines. unfold always. rewrite Hf. reflexivity. Qed.

Lemma removeMobileKitPin_withConsole (w : World) (lines : list string) :
  removeMobileKitPin (withConsole w lines) = withConsole (removeMobileKitPin w) lines.
Proof.
  unfold removeMobileKitPin. simpl.
  destruct (FD.mobileKitPin (floatingDetails w)), (FD.mapComponent (floatingDetails w));
    reflexivity.
Qed.

Lemma updateMobileKitPin_consoleBlind : consoleBlind updateMobileKitPin.
Proof.
  intros w lines. unfold updateMobileKitPin. simpl.
  rewrite !removeMobileKitPin_withConsole.
  destruct (FD.mapComponent (floatingDetails w)) as [m |] eqn:Em; [| reflexivity].
  destruct (isEditor w); [reflexivity |].
  destruct (FD.mobileKitManagerSceneObject (floatingDetails w)) as [enabled |];
    [| reflexivity].
  destruct (negb enabled); [reflexivity |].
  destruct (negb (FD.mobileKitManager (floatingDetails w))); [reflexivity |].
  destruct (strictEqualsZero _ && strictEqualsZero _); [reflexivity |].
  unfold createPinAtCurrentLocation, removeExistingPin. simpl.
  destruct (FD.mobileKitPin (floatingDetails w)); simpl; rewrite ?Em; reflexivity.
Qed.

Lemma updateContent_consoleBlind : consoleBlind updateContent.
Proof.
  assert (Htext : forall t, consoleBlind (setMobileKitText t)).
  { intros t w lines. unfold setMobileKitText. simpl.
    destruct (FD.mobileKitText (floatingDetails w)); reflexivity. }
  assert (Hbutton : forall b, consoleBlind (setButtonInactive b)).
  { intros b w lines. unfold setButtonInactive. simpl.
    destruct (FD.startMobileKitButton (floatingDetails w)); reflexivity. }
  assert (Hcolor : forall c, consoleBlind (setButtonTextColor c)).
  { intros c w lines. unfold setButtonTextColor. simpl.
    destruct (FD.startMobileKitButtonText (floatingDetails w)); reflexivity. }
  assert (Hremove : consoleBlind (always removeMobileKitPin))
    by (apply consoleBlind_always, removeMobileKitPin_withConsole).
  assert (Hfixed : forall t b c,
            consoleBlind (setMobileKitText t ;; setButtonInactive b ;;
                          setButtonTextColor c ;; always removeMobileKitPin)).
  { intros t b c. repeat apply consoleBlind_andThen; auto. }
  assert (Hsecondary : consoleBlind updateMobileKitText).
  { intros w lines. unfold updateMobileKitText.
    change (isEditor (withConsole w lines)) with (isEditor w).
    change (floatingDetails (withConsole w lines)) with (floatingDetails w).
    change (mobileKitManager (withConsole w lines)) with (mobileKitManager w).
    destruct (isEditor w); [apply Hfixed |].
    destruct (FD.mobileKitManagerSceneObject (floatingDetails w)) as [enabled |];
      [| reflexivity].
    destruct (negb enabled); [apply Hfixed |].
    destruct (negb (FD.mobileKitManager (floatingDetails w))); [reflexivity |].
    destruct (strictEqualsZero _ && strictEqualsZero _); [apply Hfixed |].
    destruct (mobileKitReadingText (mobileKitManager w)); [| reflexivity].
    revert w lines.
    repeat apply consoleBlind_andThen; auto using updateMobileKitPin_consoleBlind. }
  unfold updateContent.
  repeat apply consoleBlind_andThen; auto using updateMobileKitPin_consoleBlind.
  apply consoleBlind_always. intros w lines. unfold updateLocationText. simpl.
  destruct (negb (FD.locationManager (floatingDetails w))); [reflexivity |].
  destruct (FD.locationDataText (floatingDetails w)); reflexivity.
Qed.

Lemma storeLocationData_consoleBlind (locationData : JsValue) :
  consoleBlind (storeLocationData locationData).
Proof.
  assert (Hstore : forall key assign,
            (forall k v lines,
               assign (mobileKitManager (withConsole (withMK (withConsole k lines) v) lines))
                      JNull
               = assign (mobileKitManager (withMK k v)) JNull) ->
            consoleBlind (storeIfPresent locationData key assign)).
  { intros key assign _ w lines. unfold storeIfPresent.
    destruct (getMember locationData key) as [[v |] | error]; reflexivity. }
  unfold storeLocationData.
  repeat apply consoleBlind_andThen; try (apply Hstore; reflexivity).
  intros w lines. unfold newMobileKitDataAvailable. simpl.
  destruct (MK.floatingDetailsUIContentManager (mobileKitManager w)); [| reflexivity].
  apply updateContent_consoleBlind.
Qed.

(** The response text reaches the console and nothing else: the callback
    run on another response text with the same parse result leaves the same
    scene but for the echoed line. *)
Lemma response_only_in_the_echo (response1 response2 : string) (parsed : ParseResult)
    (w : World) :
  sameButResponse w response1 response2
    (onGPSLocationResponse response1 parsed w)
    (onGPSLocationResponse response2 parsed w).
Proof.
  unfold sameButResponse, onGPSLocationResponse. fold (responseLine response1).
  fold (responseLine response2).
  set (tried0 := match parsed with
                 | ParseError e => Threw e w
                 | Parsed locationData => storeLocationData locationData w
                 end).
  assert (Htried : forall response,
            match parsed with
            | ParseError e => Threw e (print (responseLine response) w)
            | Parsed locationData =>
                storeLocationData locationData (print (responseLine response) w)
            end
            = mapScene (fun w' => withConsole w' (List.app (console w)
                                                     [responseLine response])) tried0).
  { intros response. unfold tried0. destruct parsed as [locationData | e]; [| reflexivity].
    apply (storeLocationData_consoleBlind locationData w). }
  rewrite !Htried. destruct tried0 as [w0 | error w0]; simpl.
  - exists []. split; reflexivity.
  - eexists [_]. split; [rewrite <- app_assoc; reflexivity |].
    unfold print, withConsole. simpl. rewrite <- !app_assoc. reflexivity.
Qed.

(** X3. The subscription callback looks at five keys of the parsed payload
    and at nothing else. Two messages, each echoed as it was received, whose
    payloads are objects with the same values under [latitude],
    [longitude], [horizontal_accuracy], [altitude] and [vertical_accuracy]
    leave scenes that differ in the echoed response line only; so a property
    under any other key, such as [topic], changes nothing but the echo, and
    a payload that is a boolean, a number, a string or an array is handled
    like the empty object (nothing is stored, the display is refreshed). *)
Theorem only_the_five_keys_of_a_payload_matter :
  (forall (response1 response2 : string) (p1 p2 : list (string * JsValue)) (w : World),
     (forall key, In key locationKeys -> ownProperty p1 key = ownProperty p2 key) ->
     sameButResponse w response1 response2
       (onGPSLocationResponse response1 (Parsed (JObject p1)) w)
       (onGPSLocationResponse response2 (Parsed (JObject p2)) w)) /\
  (forall (response1 response2 key : string) (v : JsValue) (p : list (string * JsValue))
          (w : World),
     ~ In key locationKeys ->
     sameButResponse w response1 response2
       (onGPSLocationResponse response1 (Parsed (JObject ((key, v) :: p))) w)
       (onGPSLocationResponse response2 (Parsed (JObject p)) w)) /\
  (forall (response1 response2 : string) (v : JsValue) (w : World),
     match v with
     | JNull | JObject _ => True
     | _ => sameButResponse w response1 response2
              (onGPSLocationResponse response1 (Parsed v) w)
              (onGPSLocationResponse response2 (Parsed (JObject [])) w)
     end).
Proof.
  assert (Hext : forall (response1 response2 : string) (p1 p2 : list (string * JsValue))
                        (w : World),
     (forall key, In key locationKeys -> ownProperty p1 key = ownProperty p2 key) ->
     sameButResponse w response1 response2
       (onGPSLocationResponse response1 (Parsed (JObject p1)) w)
       (onGPSLocationResponse response2 (Parsed (JObject p2)) w)).
  { intros response1 response2 p1 p2 w H.
    assert (Hsame : onGPSLocationResponse response2 (Parsed (JObject p2)) w
                    = onGPSLocationResponse response2 (Parsed (JObject p1)) w).
    { unfold onGPSLocationResponse.
      rewrite !stores_of_object, (storedPayload_ext p1 p2 _ H). reflexivity. }
    rewrite Hsame. apply response_only_in_the_echo. }
  split; [exact Hext | split].
  - intros response1 response2 key v p w Hnot. apply Hext. intros k Hk.
    apply ownProperty_other_key. intros ->. exact (Hnot Hk).
  - intros response1 response2 v w. destruct v; try exact I;
      apply (response_only_in_the_echo response1 response2 (Parsed (JObject [])) w).
Qed.

(** ** A refresh that throws *)

Lemma mobileKitReadingText_non_numeric (k : MK.t) :
  numericReading k = false -> mobileKitReadingText k = Throw TypeError.
Proof.
  unfold numericReading, mobileKitReadingText. destruct k as [cm lat lon hacc alt vacc].
  simpl.
  destruct lat; simpl; try reflexivity.
  destruct lon; simpl; try reflexivity.
  destruct hacc; simpl; try reflexivity.
  destruct alt; simpl; try reflexivity.
  destruct vacc; simpl; try reflexivity.
  discriminate.
Qed.

Lemma mobileKitReadingText_numeric (k : MK.t) :
  numericReading k = true -> exists text, mobileKitReadingText k = Normal text.
Proof.
  unfold numericReading, mobileKitReadingText. destruct k as [cm lat lon hacc alt vacc].
  simpl.
  destruct lat; simpl; try discriminate.
  destruct lon; simpl; try discriminate.
  destruct hacc; simpl; try discriminate.
  destruct alt; simpl; try discriminate.
  destruct vacc; simpl; try discriminate.
  eexists; reflexivity.
Qed.

(** The primary text refresh changes the primary text only. *)
Lemma updateLocationText_details (w : World) :
  exists text,
    updateLocationText w
    = withFD w (FD.withLocationDataText (floatingDetails w) text).
Proof.
  unfold updateLocationText.
  destruct w as [ed lm mk [map flm ldt so fmk btn btxt mkt pin] hl hp fp fr con]. simpl.
  destruct (negb flm); [exists ldt; reflexivity |].
  destruct ldt; eexists; reflexivity.
Qed.

(** On the device, with the mobile kit enabled and coordinates other than
    (0,0), a stored value that is not a number makes the refresh throw once
    the primary text is written. *)
Lemma updateContent_throws_on_non_number (w : World) :
  isEditor w = false ->
  FD.mobileKitManagerSceneObject (floatingDetails w) = Some true ->
  FD.mobileKitManager (floatingDetails w) = true ->
  strictEqualsZero (MK.latitude (mobileKitManager w))
  && strictEqualsZero (MK.longitude (mobileKitManager w)) = false ->
  numericReading (mobileKitManager w) = false ->
  updateContent w = Threw TypeError (updateLocationText w).
Proof.
  intros He Eo Ek Hz Hn. unfold updateContent, andThen, always.
  destruct (updateLocationText_details w) as [text Hw1]. rewrite Hw1.
  unfold updateMobileKitText. simpl. rewrite He, Eo, Ek. simpl. rewrite Hz.
  rewrite (mobileKitReadingText_non_numeric _ Hn). reflexivity.
Qed.

(** X4. An exception of the display refresh inside the subscription callback
    is caught by the callback's [catch]: the values of the payload stay
    stored, and the failure is printed as an error of parsing, the prefix of
    the parse failure followed by the text of the [TypeError], although the
    payload was parsed. This is so when the secondary adapter's content
    manager is not assigned (nothing is refreshed), and when, on the device
    with the mobile kit enabled and its inputs assigned, a stored value is
    not a number and the coordinates are not (0,0) (the primary text is
    refreshed, the secondary display is not). *)
Theorem refresh_failure_in_the_callback_is_printed_as_parse_error :
  forall (response : string) (payload : list (string * JsValue)) (w : World),
    let stored := storedPayload payload (print (responseLine response) w) in
    let failed (w' : World) (message : string) :=
      print ("startGPSLocationSubscription() - Error parsing GPS location data: "
             ++ TypeError ++ message) w' in
    mobileKitManager stored = appliedPayload payload (mobileKitManager w) /\
    (MK.floatingDetailsUIContentManager (mobileKitManager w) = false ->
     exists message : string,
       onGPSLocationResponse response (Parsed (JObject payload)) w
       = failed stored message) /\
    (MK.floatingDetailsUIContentManager (mobileKitManager w) = true ->
     isEditor w = false ->
     FD.mobileKitManagerSceneObject (floatingDetails w) = Some true ->
     FD.mobileKitManager (floatingDetails w) = true ->
     strictEqualsZero (MK.latitude (mobileKitManager stored))
     && strictEqualsZero (MK.longitude (mobileKitManager stored)) = false ->
     numericReading (mobileKitManager stored) = false ->
     exists message : string,
       onGPSLocationResponse response (Parsed (JObject payload)) w
       = failed (updateLocationText stored) message).
Proof.
  intros response payload w stored failed. unfold responseLine in stored.
  assert (Hk : mobileKitManager stored = appliedPayload payload (mobileKitManager w)).
  { unfold stored. rewrite storedPayload_applied. reflexivity. }
  assert (Hfd : isEditor stored = isEditor w /\
                floatingDetails stored = floatingDetails w).
  { unfold stored, storedPayload.
    destruct (ownProperty payload "latitude"), (ownProperty payload "longitude"),
      (ownProperty payload "horizontal_accuracy"), (ownProperty payload "altitude"),
      (ownProperty payload "vertical_accuracy"); split; reflexivity. }
  destruct Hfd as [He Hf].
  assert (Hempty : forall w' : World,
            print ("startGPSLocationSubscription() - Error parsing GPS location data: "
                   ++ TypeError) w' = failed w' "").
  { intros w'. reflexivity. }
  split; [exact Hk | split].
  - intros Hcm. exists "". rewrite <- Hempty.
    unfold onGPSLocationResponse. rewrite stores_of_object. fold stored.
    unfold newMobileKitDataAvailable. rewrite Hk. simpl. rewrite Hcm. reflexivity.
  - intros Hcm Hed Eo Ek Hz Hn. exists "". rewrite <- Hempty.
    unfold onGPSLocationResponse.
    rewrite stores_of_object. fold stored.
    unfold newMobileKitDataAvailable. rewrite Hk at 1. simpl. rewrite Hcm.
    rewrite updateContent_throws_on_non_number;
      [reflexivity | congruence | congruence | congruence | exact Hz | exact Hn].
Qed.

(** X5. Once the secondary reading holds a value that is not a number, on
    the device with the mobile kit enabled, its inputs assigned and
    coordinates other than (0,0), the callbacks of the primary adapter end
    by a [TypeError] that nothing catches: the position (or the heading) is
    stored and the primary text is refreshed, then the refresh of the
    secondary display throws. *)
Theorem primary_callbacks_throw_on_a_non_numeric_secondary_value :
  forall (w : World),
    LM.floatingDetailsUIContentManager (locationManager w) = true ->
    isEditor w = false ->
    FD.mobileKitManagerSceneObject (floatingDetails w) = Some true ->
    FD.mobileKitManager (floatingDetails w) = true ->
    strictEqualsZero (MK.latitude (mobileKitManager w))
    && strictEqualsZero (MK.longitude (mobileKitManager w)) = false ->
    numericReading (mobileKitManager w) = false ->
    (forall geoPosition : GeoPosition.t,
       onGeoPosition geoPosition w
       = Threw TypeError
           (updateLocationText
              (withLM w (LM.withReading (locationManager w) geoPosition)))) /\
    (forall northAlignedHeading : float,
       processNorthAlignedOrientationUpdate northAlignedHeading w
       = Threw TypeError
           (updateLocationText
              (withLM w (LM.withHeading (locationManager w) northAlignedHeading)))).
Proof.
  intros w Hcm He Eo Ek Hz Hn. split.
  - intros g. unfold onGeoPosition, newLocationManagerDataAvailable. simpl. rewrite Hcm.
    apply updateContent_throws_on_non_number; assumption.
  - intros h. unfold processNorthAlignedOrientationUpdate. simpl. rewrite He.
    unfold newLocationManagerDataAvailable. simpl. rewrite Hcm.
    apply updateContent_throws_on_non_number; assumption.
Qed.

(** ** What every refresh keeps *)

#[local] Instance sameWiring_PreOrder : PreOrder sameWiring.
Proof.
  split.
  - intros w. reflexivity.
  - intros w1 w2 w3 H12 H23. unfold sameWiring in *. congruence.
Qed.

(** A relation kept by each statement of the refresh is kept by the refresh. *)
Lemma refresh_preserves (R : World -> World -> Prop) `{PreOrder World R} :
  (forall t, preserves R (setMobileKitText t)) ->
  (forall b, preserves R (setButtonInactive b)) ->
  (forall c, preserves R (setButtonTextColor c)) ->
  (forall w, R w (removeMobileKitPin w)) ->
  (forall w, R w (updateLocationText w)) ->
  preserves R updateMobileKitPin ->
  preserves R updateMobileKitText /\ preserves R updateContent.
Proof.
  intros Htext Hbutton Hcolor Hremove Hprimary Hpin.
  assert (Hsecondary : preserves R updateMobileKitText).
  { assert (Hfixed : forall (t : string) (b : bool) (c : vec4),
      preserves R (setMobileKitText t ;; setButtonInactive b ;; setButtonTextColor c ;;
                   always removeMobileKitPin)).
    { intros t b c. repeat apply preserves_andThen; try typeclasses eauto;
        auto using preserves_always. }
    intro w. unfold updateMobileKitText.
    destruct (isEditor w); [apply Hfixed |].
    destruct (FD.mobileKitManagerSceneObject (floatingDetails w)) as [enabled |];
      [| reflexivity].
    destruct (negb enabled); [apply Hfixed |].
    destruct (negb (FD.mobileKitManager (floatingDetails w))); [reflexivity |].
    destruct (strictEqualsZero _ && strictEqualsZero _); [apply Hfixed |].
    destruct (mobileKitReadingText (mobileKitManager w)); [| reflexivity].
    revert w. repeat apply preserves_andThen; try typeclasses eauto; auto. }
  split; [exact Hsecondary |].
  unfold updateContent. repeat apply preserves_andThen; try typeclasses eauto;
    auto using preserves_always.
Qed.

(** Case analysis on every test of the method, remembering the outcome. *)
Ltac branches_eqn :=
  repeat match goal with
         | |- context [if ?b then _ else _] => destruct b eqn:?
         | |- context [match ?x with Some _ => _ | None => _ end] => destruct x eqn:?
         end.

(** Rewriting with the remembered outcomes, then computation. *)
Ltac settle :=
  simpl; try congruence;
  repeat match goal with H : _ = _ |- _ => rewrite H end; simpl; reflexivity.

Lemma refresh_sameWiring :
  preserves sameWiring updateMobileKitText /\ preserves sameWiring updateContent.
Proof.
  apply refresh_preserves; try typeclasses eauto.
  - intros t w. unfold setMobileKitText, sameWiring, wiring.
    branches_eqn; settle.
  - intros b w. unfold setButtonInactive, sameWiring, wiring.
    branches_eqn; settle.
  - intros c w. unfold setButtonTextColor, sameWiring, wiring.
    branches_eqn; settle.
  - intros w. unfold removeMobileKitPin, sameWiring, wiring.
    branches_eqn; settle.
  - intros w. unfold updateLocationText, sameWiring, wiring.
    branches_eqn; settle.
  - intros w. unfold updateMobileKitPin, createPinAtCurrentLocation, removeExistingPin,
      removeMobileKitPin, sameWiring, wiring.
    branches_eqn; settle.
Qed.

Lemma sameWiring_inputs (w w' : World) :
  sameWiring w w' ->
  FD.mobileKitManagerSceneObject (floatingDetails w')
  = FD.mobileKitManagerSceneObject (floatingDetails w) /\
  FD.mobileKitManager (floatingDetails w') = FD.mobileKitManager (floatingDetails w) /\
  refreshAssigned (floatingDetails w') = refreshAssigned (floatingDetails w) /\
  isAssigned (FD.mapComponent (floatingDetails w'))
  = isAssigned (FD.mapComponent (floatingDetails w)).
Proof.
  unfold sameWiring, wiring, refreshAssigned. intros H.
  injection H as Hmap Hlm Hldt Hso Hk Hb Hc Ht.
  rewrite Hso, Hk, Hb, Hc, Ht, Hmap. repeat split.
Qed.

Lemma refreshAssigned_inputs (f : FD.t) :
  refreshAssigned f = true ->
  FD.mobileKitText f <> None /\ FD.startMobileKitButton f <> None /\
  FD.startMobileKitButtonText f <> None /\
  (exists enabled, FD.mobileKitManagerSceneObject f = Some enabled) /\
  FD.mobileKitManager f = true.
Proof.
  unfold refreshAssigned.
  destruct (FD.mobileKitText f), (FD.startMobileKitButton f),
    (FD.startMobileKitButtonText f), (FD.mobileKitManagerSceneObject f),
    (FD.mobileKitManager f); simpl; try discriminate.
  intros _. repeat split; try discriminate. eexists; reflexivity.
Qed.

(** The refresh of the secondary display, on a scene with its inputs
    assigned, whenever the display expected of the state exists. *)
Lemma updateMobileKitText_expected
    (w : World) (enabled : bool) (text : string) (inactive : bool) (tint : vec4) :
  refreshAssigned (floatingDetails w) = true ->
  FD.mobileKitManagerSceneObject (floatingDetails w) = Some enabled ->
  pinConsistent (floatingDetails w) ->
  expectedDisplay (displayStateOf w enabled) (mobileKitManager w)
  = Some (text, inactive, tint) ->
  exists w', updateMobileKitText w = Done w' /\ shows w' text inactive tint /\
             (displayStateOf w enabled <> Active -> noPin w').
Proof.
  intros Ha Eo Hw.
  destruct (refreshAssigned_inputs _ Ha) as (Ht & Hb & Hc & _ & Ek).
  unfold displayStateOf, displayState, updateMobileKitText. rewrite Eo, Ek.
  assert (Hfixed : forall t b c,
            Some (t, b, c) = Some (text, inactive, tint) ->
            exists w',
              (setMobileKitText t ;; setButtonInactive b ;; setButtonTextColor c ;;
               always removeMobileKitPin) w = Done w' /\
              shows w' text inactive tint /\ noPin w').
  { intros t b c Heq. injection Heq as -> -> ->.
    apply fixed_message_branch; assumption. }
  destruct (isEditor w); simpl expectedDisplay.
  { intros He. destruct (Hfixed _ _ _ He) as (w' & H1 & H2 & H3). eauto. }
  destruct enabled; simpl negb; cbv iota.
  2:{ intros He. destruct (Hfixed _ _ _ He) as (w' & H1 & H2 & H3). eauto. }
  destruct (strictEqualsZero _ && strictEqualsZero _); simpl expectedDisplay.
  { intros He. destruct (Hfixed _ _ _ He) as (w' & H1 & H2 & H3). eauto. }
  destruct (mobileKitReadingText (mobileKitManager w)) as [t |]; [| discriminate].
  intros He. injection He as -> <- <-.
  unfold andThen, setMobileKitText.
  destruct (FD.mobileKitText (floatingDetails w)) as [t0 |] eqn:Et; [| congruence].
  unfold setButtonInactive. simpl.
  destruct (FD.startMobileKitButton (floatingDetails w)) as [b0 |] eqn:Eb; [| congruence].
  unfold setButtonTextColor. simpl.
  destruct (FD.startMobileKitButtonText (floatingDetails w)) as [c0 |] eqn:Ec;
    [| congruence].
  match goal with |- exists w', updateMobileKitPin ?x = _ /\ _ => set (w3 := x) end.
  assert (Hdone : exists w', updateMobileKitPin w3 = Done w').
  { unfold updateMobileKitPin. subst w3. simpl. rewrite Eo, Ek.
    branches; eexists; reflexivity. }
  destruct Hdone as [w' Hdone]. exists w'. split; [exact Hdone |].
  split; [| congruence].
  change w' with (sceneOf (Done w')). rewrite <- Hdone.
  apply updateMobileKitPin_keeps_display. repeat split.
Qed.

(** The pin refresh on a scene with its inputs assigned. *)
Lemma updateMobileKitPin_assigned (w : World) (enabled : bool) :
  FD.mobileKitManagerSceneObject (floatingDetails w) = Some enabled ->
  FD.mobileKitManager (floatingDetails w) = true ->
  pinConsistent (floatingDetails w) ->
  exists w', updateMobileKitPin w = Done w' /\
    (displayStateOf w enabled <> Active -> noPin w -> noPin w') /\
    (displayStateOf w enabled <> Active ->
     FD.mapComponent (floatingDetails w) <> None -> noPin w').
Proof.
  intros Eo Ek Hw. unfold updateMobileKitPin, displayStateOf, displayState.
  rewrite Eo, Ek.
  destruct (FD.mapComponent (floatingDetails w)) as [m |] eqn:Em.
  2:{ eexists. split; [reflexivity |]. split; [auto | congruence]. }
  destruct (isEditor w).
  { eexists. split; [reflexivity |].
    split; intros; apply removeMobileKitPin_removes, Hw. }
  destruct enabled; simpl negb; cbv iota.
  2:{ eexists. split; [reflexivity |].
      split; intros; apply removeMobileKitPin_removes, Hw. }
  destruct (strictEqualsZero _ && strictEqualsZero _).
  { eexists. split; [reflexivity |].
    split; intros; apply removeMobileKitPin_removes, Hw. }
  eexists. split; [reflexivity |]. split; congruence.
Qed.

(** The whole refresh on a scene with the secondary display's inputs
    assigned: it ends normally and shows the display expected of the state;
    outside the active state no pin is left. *)
Lemma updateContent_expected
    (w : World) (enabled : bool) (text : string) (inactive : bool) (tint : vec4) :
  refreshAssigned (floatingDetails w) = true ->
  FD.mobileKitManagerSceneObject (floatingDetails w) = Some enabled ->
  pinConsistent (floatingDetails w) ->
  expectedDisplay (displayStateOf w enabled) (mobileKitManager w)
  = Some (text, inactive, tint) ->
  exists w', updateContent w = Done w' /\ shows w' text inactive tint /\
             (displayStateOf w enabled <> Active -> noPin w').
Proof.
  intros Ha Eo Hw He.
  destruct (updateLocationText_details w) as [primary Hw1].
  set (w1 := updateLocationText w) in *.
  assert (Hstate : displayStateOf w1 enabled = displayStateOf w enabled)
    by (rewrite Hw1; reflexivity).
  assert (Hk1 : mobileKitManager w1 = mobileKitManager w) by (rewrite Hw1; reflexivity).
  destruct (updateMobileKitText_expected w1 enabled text inactive tint)
    as (w2 & Hdone2 & Hshows2 & Hnone2).
  { rewrite Hw1. exact Ha. }
  { rewrite Hw1. exact Eo. }
  { rewrite Hw1. exact Hw. }
  { rewrite Hstate, Hk1. exact He. }
  assert (Hw2 : sceneOf (updateMobileKitText w1) = w2) by (rewrite Hdone2; reflexivity).
  pose proof (proj1 refresh_sameWiring w1) as Hwiring. rewrite Hw2 in Hwiring.
  destruct (sameWiring_inputs _ _ Hwiring) as (Eo2 & Ek2 & _ & _).
  pose proof (updateMobileKitText_pinsStayConsistent w1) as Hpins. rewrite Hw2 in Hpins.
  pose proof (updateMobileKitText_onlyFD w1) as Honly. rewrite Hw2 in Honly.
  assert (Hstate2 : displayStateOf w2 enabled = displayStateOf w enabled).
  { rewrite <- Hstate. unfold displayStateOf.
    rewrite (onlyFD_isEditor _ _ Honly), (onlyFD_mobileKitManager _ _ Honly). reflexivity. }
  destruct (refreshAssigned_inputs _ Ha) as (_ & _ & _ & _ & Ek).
  destruct (updateMobileKitPin_assigned w2 enabled) as (w3 & Hdone3 & Hkeep & _).
  { rewrite Eo2, Hw1. exact Eo. }
  { rewrite Ek2, Hw1. exact Ek. }
  { apply Hpins. rewrite Hw1. exact Hw. }
  exists w3. split; [| split].
  - unfold updateContent, andThen, always. fold w1. rewrite Hdone2. exact Hdone3.
  - change w3 with (sceneOf (Done w3)). rewrite <- Hdone3.
    apply updateMobileKitPin_keeps_display, Hshows2.
  - intros Hna. apply Hkeep; [rewrite Hstate2; exact Hna |].
    apply Hnone2. rewrite Hstate. exact Hna.
Qed.

(** ** Scenes on which nothing throws *)

Lemma expectedDisplay_numeric (state : DisplayState) (k : MK.t) :
  numericReading k = true ->
  exists text inactive tint, expectedDisplay state k = Some (text, inactive, tint).
Proof.
  intros Hn. destruct state; simpl; eauto.
  destruct (mobileKitReadingText_numeric k Hn) as [text ->]. eauto.
Qed.

Lemma updateContent_safe (w : World) :
  safeScene w ->
  exists w', updateContent w = Done w' /\ safeScene w' /\
             onlyFloatingDetailsChanged w w'.
Proof.
  intros (Ha & Hn & Hw).
  unfold wellAssigned in Ha. apply andb_prop in Ha as [Ha Hhp].
  apply andb_prop in Ha as [Ha Hmk].
  destruct (refreshAssigned_inputs _ Ha) as (_ & _ & _ & [enabled Eo] & _).
  destruct (expectedDisplay_numeric (displayStateOf w enabled) _ Hn)
    as (text & inactive & tint & He).
  destruct (updateContent_expected w enabled text inactive tint Ha Eo Hw He)
    as (w' & Hdone & _).
  exists w'. split; [exact Hdone |].
  assert (Hw' : sceneOf (updateContent w) = w') by (rewrite Hdone; reflexivity).
  pose proof (updateContent_onlyFD w) as Honly. rewrite Hw' in Honly.
  pose proof (proj2 refresh_sameWiring w) as Hwiring. rewrite Hw' in Hwiring.
  pose proof (updateContent_pinsStayConsistent w Hw) as Hpins. rewrite Hw' in Hpins.
  destruct (sameWiring_inputs _ _ Hwiring) as (_ & _ & Ha' & _).
  destruct (onlyFD_frame _ _ Honly) as (_ & _ & Hhp' & _).
  split; [| exact Honly]. unfold safeScene, wellAssigned.
  rewrite Ha', Ha, (onlyFD_mobileKitManager _ _ Honly), Hmk, Hhp', Hhp, Hn. auto.
Qed.

Lemma onUpdate_elsewhere (w : World) :
  floatingDetails (onUpdate w) = floatingDetails w /\
  mobileKitManager (onUpdate w) = mobileKitManager w /\
  handLockedPresentation (onUpdate w) = handLockedPresentation w /\
  isEditor (onUpdate w) = isEditor w /\
  floatingDetailsUIFrameEnabled (onUpdate w) = floatingDetailsUIFrameEnabled w.
Proof.
  unfold onUpdate, updateCompassRotation, updateLocationTextElements,
    updateGPSStatusIndicator.
  branches; repeat split.
Qed.

Lemma appliedPayload_numeric (payload : list (string * JsValue)) (k : MK.t) :
  numericReading k = true -> numericPayload payload = true ->
  numericReading (appliedPayload payload k) = true.
Proof.
  unfold numericReading, numericPayload, appliedPayload, presentOr, locationKeys.
  simpl. intros Hk Hp.
  repeat match goal with
         | H : _ && _ = true |- _ => apply andb_prop in H as [? ?]
         end.
  destruct (ownProperty payload "latitude"), (ownProperty payload "longitude"),
    (ownProperty payload "horizontal_accuracy"), (ownProperty payload "altitude"),
    (ownProperty payload "vertical_accuracy");
    repeat (apply andb_true_intro; split); assumption.
Qed.

(** A message whose payload stores numbers, on a scene on which nothing
    throws: the values are stored, the display is refreshed, and the only
    line printed is the response. *)
Lemma numeric_message_safe
    (response : string) (payload : list (string * JsValue)) (w : World) :
  safeScene w -> numericPayload payload = true ->
  let w' := onGPSLocationResponse response (Parsed (JObject payload)) w in
  safeScene w' /\
  console w'
  = List.app (console w)
      ["startGPSLocationSubscription() - GPS Location subscription response: " ++ response].
Proof.
  intros (Ha & Hn & Hw) Hp. cbv zeta.
  unfold onGPSLocationResponse. rewrite stores_of_object.
  set (stored := storedPayload payload (print _ w)).
  assert (Hk : mobileKitManager stored = appliedPayload payload (mobileKitManager w)).
  { unfold stored. rewrite storedPayload_applied. reflexivity. }
  assert (Hrest : floatingDetails stored = floatingDetails w /\
                  handLockedPresentation stored = handLockedPresentation w /\
                  console stored
                  = List.app (console w)
                      ["startGPSLocationSubscription() - GPS Location subscription response: "
                       ++ response]).
  { unfold stored, storedPayload.
    destruct (ownProperty payload "latitude"), (ownProperty payload "longitude"),
      (ownProperty payload "horizontal_accuracy"), (ownProperty payload "altitude"),
      (ownProperty payload "vertical_accuracy"); repeat split. }
  destruct Hrest as (Hf & Hhp & Hc).
  assert (Hstored : safeScene stored).
  { unfold safeScene, wellAssigned in *. rewrite Hf, Hhp, Hk.
    split; [| split; [apply appliedPayload_numeric; assumption | exact Hw]].
    destruct (mobileKitManager w); exact Ha. }
  assert (Hcm : MK.floatingDetailsUIContentManager (mobileKitManager stored) = true).
  { destruct Hstored as (H & _). unfold wellAssigned in H.
    apply andb_prop in H as [H _]. apply andb_prop in H as [_ H]. exact H. }
  unfold newMobileKitDataAvailable. rewrite Hcm.
  destruct (updateContent_safe stored Hstored) as (w' & Hdone & Hsafe & Honly).
  rewrite Hdone. split; [exact Hsafe |].
  destruct (onlyFD_frame _ _ Honly) as (_ & Hc' & _). rewrite Hc'. exact Hc.
Qed.

Lemma step_safe (e : Event) (w : World) :
  safeScene w -> storesNumbers e = true ->
  exists w', step e w = Done w' /\ safeScene w'.
Proof.
  intros Hs He.
  assert (Hrefresh : forall w0 : World,
            floatingDetails w0 = floatingDetails w ->
            mobileKitManager w0 = mobileKitManager w ->
            handLockedPresentation w0 = handLockedPresentation w ->
            exists w', updateContent w0 = Done w' /\ safeScene w').
  { intros w0 Hf Hk Hhp.
    destruct (updateContent_safe w0) as (w' & Hdone & Hsafe & _); [| eauto].
    unfold safeScene, wellAssigned in *. rewrite Hf, Hk, Hhp. exact Hs. }
  assert (Hkept : forall w0 : World,
            floatingDetails w0 = floatingDetails w ->
            mobileKitManager w0 = mobileKitManager w ->
            handLockedPresentation w0 = handLockedPresentation w ->
            safeScene w0).
  { intros w0 Hf Hk Hhp.
    unfold safeScene, wellAssigned in *. rewrite Hf, Hk, Hhp. exact Hs. }
  assert (Hsame : forall w0 : World,
            floatingDetails w0 = floatingDetails w ->
            mobileKitManager w0 = mobileKitManager w ->
            handLockedPresentation w0 = handLockedPresentation w ->
            exists w', Done w0 = Done w' /\ safeScene w').
  { intros w0 Hf Hk Hhp. exists w0. split; [reflexivity | apply Hkept; assumption]. }
  destruct e as [| | | g | error | h | response parsed | | |]; cbn [step].
  - apply Hrefresh; reflexivity.
  - destruct (onUpdate_elsewhere w) as (Hf & Hk & Hhp & _). apply Hsame; assumption.
  - destruct (LM.repeatProcessGeoPositionEvent (locationManager w));
      apply Hsame; reflexivity.
  - destruct (LM.pendingPositionRequests (locationManager w));
      [apply Hsame; reflexivity |].
    unfold onGeoPosition, newLocationManagerDataAvailable.
    destruct (LM.floatingDetailsUIContentManager _);
      [apply Hrefresh | apply Hsame]; reflexivity.
  - destruct (LM.pendingPositionRequests (locationManager w));
      apply Hsame; reflexivity.
  - unfold processNorthAlignedOrientationUpdate, newLocationManagerDataAvailable.
    destruct (LM.floatingDetailsUIContentManager _);
      [apply Hrefresh | apply Hsame]; destruct (isEditor _); reflexivity.
  - eexists. split; [reflexivity |].
    destruct parsed as [v | error].
    + destruct v as [| b | x | s | items | payload];
        try (apply (numeric_message_safe response [] w Hs); reflexivity).
      * apply (Hkept (onGPSLocationResponse response (Parsed JNull) w));
          reflexivity.
      * apply (numeric_message_safe response payload w Hs). exact He.
    + apply (Hkept (onGPSLocationResponse response (ParseError error) w)); reflexivity.
  - unfold startMobileKitButtonPressed.
    destruct Hs as (Ha & Hn & Hw). pose proof Ha as Ha0.
    unfold wellAssigned in Ha. apply andb_prop in Ha as [Ha Hhp].
    apply andb_prop in Ha as [Ha Hmk].
    destruct (refreshAssigned_inputs _ Ha) as (_ & _ & _ & [enabled Eo] & _).
    rewrite Eo.
    destruct (updateContent_safe
                (withFD w (FD.withSceneObject (floatingDetails w) (Some true))))
      as (w' & Hdone & Hsafe & _); [| eauto].
    unfold safeScene, wellAssigned. simpl. split; [| split; assumption].
    unfold refreshAssigned in *. simpl. rewrite Eo in Ha. simpl in Ha.
    rewrite Hmk, Hhp. simpl.
    destruct (FD.mobileKitText (floatingDetails w)),
      (FD.startMobileKitButton (floatingDetails w)),
      (FD.startMobileKitButtonText (floatingDetails w)),
      (FD.mobileKitManager (floatingDetails w)); simpl in *; congruence.
  - unfold detailsButtonPressed.
    destruct (HP.floatingDetailsUIFrame (handLockedPresentation w));
      [| apply Hsame; reflexivity].
    assert (Hhp : HP.floatingDetailsUIContentManager (handLockedPresentation w) = true).
    { destruct Hs as (Ha & _). unfold wellAssigned in Ha.
      apply andb_prop in Ha as [_ Ha]. exact Ha. }
    simpl. rewrite Hhp. apply Hrefresh; reflexivity.
  - unfold closeButtonPressed.
    destruct (FP.floatingDetailsUIFrame (floatingDetailsPresentation w));
      apply Hsame; reflexivity.
Qed.

Lemma safeScene_withConsole (w : World) (lines : list string) :
  safeScene w -> safeScene (withConsole w lines).
Proof. intros H. exact H. Qed.

(** A frame or the delayed callback of the hand-locked panel, with the back
    plate assigned: the callback returns, the plate stays assigned and
    nothing is printed. *)
Lemma panel_turn_safe (vec3 quat : Type) (platform : UP.VectorPlatform vec3 quat)
    (p : UP.t vec3 quat) :
  isAssigned (UP.handLockedUIBackPlate p) = true ->
  (exists p', UP.onUpdate p = UP.Returned p' /\
              isAssigned (UP.handLockedUIBackPlate p') = true /\
              UP.console p' = UP.console p) /\
  (exists p', UP.delayedCallback p = UP.Returned p' /\
              isAssigned (UP.handLockedUIBackPlate p') = true /\
              UP.console p' = UP.console p).
Proof.
  intros Hplate.
  destruct (UP.handLockedUIBackPlate p) as [plate |] eqn:Ep; [| discriminate].
  split.
  - unfold UP.onUpdate, UP.positionUI, UP.checkForUIActivation, UP.setBackPlateEnabled.
    rewrite Ep. simpl.
    destruct (UP.isEditor p); [eexists; split; [reflexivity | split; reflexivity] |].
    destruct (UP.isTracked _ && UP.isFacingCamera _);
      eexists; split; reflexivity || (split; reflexivity).
  - unfold UP.delayedCallback, UP.setBackPlateEnabled. rewrite Ep.
    destruct (UP.isEditor p); eexists; split; reflexivity || (split; reflexivity).
Qed.

Lemma lensStep_safe (vec3 quat : Type) (platform : UP.VectorPlatform vec3 quat)
    (t : Turn vec3) (l : Lens vec3 quat) :
  safeLens l -> turnStoresNumbers t = true ->
  fst (lensStep t l) = None /\ safeLens (snd (lensStep t l)).
Proof.
  intros [Hs Hplate] Ht. destruct t as [e | hand camera |]; cbn [lensStep].
  - destruct (step_safe e (scene l) Hs Ht) as (w' & Hdone & Hs').
    rewrite Hdone. split; [reflexivity | split; [exact Hs' | exact Hplate]].
  - destruct (proj1 (panel_turn_safe vec3 quat platform
                       (panelOf (tracked l hand camera)) Hplate))
      as (p' & Hdone & Hplate' & Hconsole).
    rewrite Hdone. split; [reflexivity |]. split; [| exact Hplate'].
    apply safeScene_withConsole, Hs.
  - destruct (proj2 (panel_turn_safe vec3 quat platform (panelOf l) Hplate))
      as (p' & Hdone & Hplate' & Hconsole).
    rewrite Hdone. split; [reflexivity |]. split; [| exact Hplate'].
    apply safeScene_withConsole, Hs.
Qed.

(** X6. On a lens where every input that a callback uses without a test is
    assigned (the text, the control, its label, the scene object and the
    manager of the secondary display, the content manager of the secondary
    adapter and of the hand-locked panel's presentation manager, and the
    back plate of that panel) and the secondary reading holds numbers, no
    turn ends by an exception as long as the payloads received store only
    numbers, and the lens stays such a lens: through any sequence of turns
    of the components, frames of the hand-locked panel and its delayed
    callback, no error leaves a callback; and a message whose payload stores
    numbers prints the response and nothing else. *)
Theorem no_turn_throws_on_an_assigned_lens_with_numeric_payloads :
  forall (vec3 quat : Type) (platform : UP.VectorPlatform vec3 quat)
         (turns : list (Turn vec3)) (l : Lens vec3 quat),
    safeLens l -> forallb turnStoresNumbers turns = true ->
    thrownIn turns l = [] /\ safeLens (lensRun turns l) /\
    (forall (response : string) (payload : list (string * JsValue)),
       numericPayload payload = true ->
       console (onGPSLocationResponse response (Parsed (JObject payload))
                  (scene (lensRun turns l)))
       = List.app (console (scene (lensRun turns l))) [responseLine response]).
Proof.
  intros vec3 quat platform.
  induction turns as [| t turns IH]; intros l Hs Ht.
  - split; [reflexivity | split; [exact Hs |]].
    intros response payload Hp.
    apply (numeric_message_safe response payload (scene l) (proj1 Hs) Hp).
  - simpl in Ht. apply andb_prop in Ht as [Ht Hrest].
    destruct (lensStep_safe vec3 quat platform t l Hs Ht) as [Hnone Hs'].
    cbn [thrownIn lensRun]. rewrite Hnone. apply IH; assumption.
Qed.

(** ** The compact panel's frame *)

(** What the status-icon update leaves alone in the panel. *)
Lemma updateGPSStatusIndicator_keeps {A : Type} (observe : HL.t -> A) :
  (forall h i b, observe (HL.setEnabled h i b) = observe h) ->
  (forall h s, observe (HL.withLastLocationSource h s) = observe h) ->
  forall w, observe (handLocked (updateGPSStatusIndicator w)) = observe (handLocked w).
Proof.
  intros Hset Hlast w. unfold updateGPSStatusIndicator.
  destruct (negb _); [reflexivity |].
  destruct (String.eqb _ _); [reflexivity |].
  assert (Hall : forall h, observe (disableAllGPSStatusImages h) = observe h).
  { apply disableAll_keeps. intros h i. unfold disableIfAssigned.
    destruct (HL.image h i); [apply Hset | reflexivity]. }
  destruct (HL.image _ _); simpl; rewrite ?Hset, Hall, Hlast; reflexivity.
Qed.

Lemma updateGPSStatusIndicator_elsewhere (w : World) :
  let w' := updateGPSStatusIndicator w in
  isEditor w' = isEditor w /\ locationManager w' = locationManager w /\
  mobileKitManager w' = mobileKitManager w /\ floatingDetails w' = floatingDetails w /\
  handLockedPresentation w' = handLockedPresentation w /\
  floatingDetailsPresentation w' = floatingDetailsPresentation w /\
  floatingDetailsUIFrameEnabled w' = floatingDetailsUIFrameEnabled w.
Proof.
  cbv zeta. unfold updateGPSStatusIndicator. branches; repeat split.
Qed.

Lemma texts_and_compass_idempotent (w : World) :
  updateCompassRotation
    (updateLocationTextElements
       (updateCompassRotation (updateLocationTextElements w)))
  = updateCompassRotation (updateLocationTextElements w).
Proof.
  unfold updateCompassRotation, updateLocationTextElements.
  destruct w as [ed lm mk fd [hlm wi ri bi yi gi st act ci ht last writes] hp fp fr con].
  simpl. destruct hlm; simpl; [| reflexivity].
  destruct ci; simpl; destruct st, act, ht; reflexivity.
Qed.

(** X7. Rendering the compact panel twice in a row is rendering it once:
    the second frame changes nothing, neither an element nor the console. A
    warning about a status image that is not assigned is therefore printed
    once for a change of source, not once a frame. *)
Theorem frame_after_frame_changes_nothing :
  forall w : World, onUpdate (onUpdate w) = onUpdate w.
Proof.
  intro w. unfold onUpdate at 1.
  rewrite (updateGPSStatusIndicator_inSync (onUpdate w) (onUpdate_makes_inSync w)).
  unfold onUpdate. apply texts_and_compass_idempotent.
Qed.

(** X8. A frame with a location manager assigned leaves on each assigned
    element of the compact panel the value of the current reading: the short
    label of the source, the horizontal accuracy and the heading without
    decimals, and the compass turned by the heading in radians; an element
    that is not assigned stays so, the source is remembered as the last one
    seen, and nothing outside the panel and the console changes. Without a
    location manager a frame changes nothing. *)
Theorem frame_shows_the_current_reading_on_the_compact_panel :
  forall w : World,
    let m := locationManager w in
    let h := handLocked w in
    let h' := handLocked (onUpdate w) in
    (HL.locationManager h = true ->
     HL.sourceValueText h'
     = (if isAssigned (HL.sourceValueText h)
        then Some (getShortLocationSource (LM.locationSource m)) else None) /\
     HL.accuracyValueText h'
     = (if isAssigned (HL.accuracyValueText h)
        then Some (toFixed (LM.horizontalAccuracy m) 0 ++ "m") else None) /\
     HL.headingValueText h'
     = (if isAssigned (HL.headingValueText h)
        then Some (toFixed (LM.heading m) 0 ++ degreeSuffix) else None) /\
     HL.compassImage h'
     = (if isAssigned (HL.compassImage h)
        then Some (LM.heading m * PI / 180)%float else None) /\
     HL.lastLocationSource h' = LM.locationSource m) /\
    (HL.locationManager h = false -> onUpdate w = w) /\
    locationManager (onUpdate w) = m /\
    mobileKitManager (onUpdate w) = mobileKitManager w /\
    floatingDetails (onUpdate w) = floatingDetails w /\
    floatingDetailsUIFrameEnabled (onUpdate w) = floatingDetailsUIFrameEnabled w.
Proof.
  intros w m h h'.
  destruct (onUpdate_elsewhere w) as (Hf & Hk & _ & _ & Hfr).
  destruct (updateGPSStatusIndicator_elsewhere w) as (_ & Hm1 & _).
  pose proof (proj1 (texts_and_compass_keep_status (updateGPSStatusIndicator w))) as Hm2.
  assert (Hm : locationManager (onUpdate w) = m).
  { unfold onUpdate. rewrite Hm2. exact Hm1. }
  split; [| split; [| repeat split; assumption]].
  - intros Hlm.
    pose proof (updateGPSStatusIndicator_keeps HL.locationManager
                  (fun _ _ _ => eq_refl) (fun _ _ => eq_refl) w) as H1.
    pose proof (updateGPSStatusIndicator_keeps HL.sourceValueText
                  (fun _ _ _ => eq_refl) (fun _ _ => eq_refl) w) as H2.
    pose proof (updateGPSStatusIndicator_keeps HL.accuracyValueText
                  (fun _ _ _ => eq_refl) (fun _ _ => eq_refl) w) as H3.
    pose proof (updateGPSStatusIndicator_keeps HL.headingValueText
                  (fun _ _ _ => eq_refl) (fun _ _ => eq_refl) w) as H4.
    pose proof (updateGPSStatusIndicator_keeps HL.compassImage
                  (fun _ _ _ => eq_refl) (fun _ _ => eq_refl) w) as H5.
    assert (Hlast : HL.lastLocationSource (handLocked (updateGPSStatusIndicator w))
                    = LM.locationSource m).
    { destruct (updateGPSStatusIndicator_makes_inSync w) as [Hoff | Hsync].
      - rewrite H1 in Hoff. fold h in Hoff. congruence.
      - rewrite <- Hsync, Hm1. reflexivity. }
    unfold h', onUpdate, updateCompassRotation, updateLocationTextElements.
    rewrite H1. fold h. rewrite Hlm. simpl. rewrite H1. fold h. rewrite Hlm. simpl.
    rewrite H2, H3, H4, H5, Hm1. fold h m.
    destruct (HL.compassImage h) eqn:Ec; simpl;
      destruct (HL.sourceValueText h), (HL.accuracyValueText h), (HL.headingValueText h);
      simpl; repeat split; try reflexivity; try exact Hlast; rewrite H5; exact Ec.
  - intros Hlm. unfold onUpdate.
    assert (H1 : updateGPSStatusIndicator w = w).
    { unfold updateGPSStatusIndicator. fold h. rewrite Hlm. reflexivity. }
    rewrite H1. unfold updateLocationTextElements. fold h. rewrite Hlm. simpl.
    unfold updateCompassRotation. fold h. rewrite Hlm. reflexivity.
Qed.

(** ** The controls of the details panel *)

Lemma updateContent_wiring (w : World) :
  let w' := sceneOf (updateContent w) in
  w' = withFD w (floatingDetails w') /\
  FD.mobileKitManagerSceneObject (floatingDetails w')
  = FD.mobileKitManagerSceneObject (floatingDetails w).
Proof.
  cbv zeta. split; [apply updateContent_onlyFD |].
  apply (sameWiring_inputs _ _ (proj2 refresh_sameWiring w)).
Qed.

(** X9. The start control of the secondary source throws a [TypeError] and
    changes nothing when the mobile kit scene object is not assigned. On a
    scene on which nothing throws it enables that object and refreshes the
    display in the same turn: in the editor the text says so and the control
    is inactive; on the device with coordinates (0,0) the display asks for
    data, the control is inactive and no pin is left; with other coordinates
    the reading is shown and the control stays active. *)
Theorem start_control_enables_the_mobile_kit_and_refreshes :
  forall w : World,
    (FD.mobileKitManagerSceneObject (floatingDetails w) = None ->
     startMobileKitButtonPressed w = Threw TypeError w) /\
    (safeScene w ->
     exists w',
       startMobileKitButtonPressed w = Done w' /\
       FD.mobileKitManagerSceneObject (floatingDetails w') = Some true /\
       w' = withFD w (floatingDetails w') /\
       match displayStateOf w true with
       | Unavailable => shows w' "Mobile Kit unavailable in editor" true lightGrey /\ noPin w'
       | NoData => shows w' "No Mobile Kit data" true lightGrey /\ noPin w'
       | Active =>
           exists text, mobileKitReadingText (mobileKitManager w) = Normal text /\
                        shows w' text false lightGrey
       | Available => False
       end).
Proof.
  intro w. split.
  - intros Hnone. unfold startMobileKitButtonPressed. rewrite Hnone. reflexivity.
  - intros (Ha & Hn & Hw).
    unfold wellAssigned in Ha. apply andb_prop in Ha as [Ha Hhp].
    apply andb_prop in Ha as [Ha Hmk].
    destruct (refreshAssigned_inputs _ Ha) as (Ht & Hb & Hc & [enabled Eo] & Ek).
    unfold startMobileKitButtonPressed. rewrite Eo.
    set (w0 := withFD w (FD.withSceneObject (floatingDetails w) (Some true))).
    assert (Ha0 : refreshAssigned (floatingDetails w0) = true).
    { unfold refreshAssigned in *. simpl. rewrite Eo in Ha. exact Ha. }
    destruct (expectedDisplay_numeric (displayStateOf w0 true) (mobileKitManager w0))
      as (text & inactive & tint & He); [exact Hn |].
    destruct (updateContent_expected w0 true text inactive tint Ha0 eq_refl Hw He)
      as (w' & Hdone & Hshows & Hnone).
    exists w'. split; [exact Hdone |].
    destruct (updateContent_wiring w0) as (Honly & Hso). rewrite Hdone in Honly, Hso.
    simpl in Honly, Hso.
    split; [exact Hso | split; [exact Honly |]].
    change (displayStateOf w0 true) with (displayStateOf w true) in *.
    change (mobileKitManager w0) with (mobileKitManager w) in *.
    unfold displayStateOf, displayState in *.
    destruct (isEditor w).
    { injection He as <- <- <-. split; [exact Hshows | apply Hnone; discriminate]. }
    simpl negb in *. cbv iota in *.
    destruct (strictEqualsZero _ && strictEqualsZero _).
    { injection He as <- <- <-. split; [exact Hshows | apply Hnone; discriminate]. }
    simpl in He.
    destruct (mobileKitReadingText (mobileKitManager w)) as [t |]; [| discriminate].
    injection He as <- <- <-. exists t. split; [reflexivity | exact Hshows].
Qed.

(** X10. The details control shows the details frame before it refreshes
    the content: with the frame assigned, the frame is visible after the
    turn however the refresh ends, and with no content manager assigned the
    turn ends by a [TypeError] with the frame already visible. With no frame
    assigned both controls print their warning and do nothing else, and no
    refresh runs. The close control hides the frame and changes nothing
    else; after the details control it leaves the refreshed content as it
    is. *)
Theorem details_and_close_controls_switch_the_details_frame :
  forall w : World,
    (HP.floatingDetailsUIFrame (handLockedPresentation w) = true ->
     floatingDetailsUIFrameEnabled (sceneOf (detailsButtonPressed w)) = true /\
     (HP.floatingDetailsUIContentManager (handLockedPresentation w) = false ->
      detailsButtonPressed w = Threw TypeError (withFrameEnabled w true))) /\
    (HP.floatingDetailsUIFrame (handLockedPresentation w) = false ->
     detailsButtonPressed w
     = Done (print "detailsButtonPressed() - Warning: floatingDetailsUIFrame is not assigned."
               w)) /\
    (FP.floatingDetailsUIFrame (floatingDetailsPresentation w) = true ->
     closeButtonPressed w = withFrameEnabled w false /\
     closeButtonPressed (sceneOf (detailsButtonPressed w))
     = withFrameEnabled (sceneOf (detailsButtonPressed w)) false) /\
    (FP.floatingDetailsUIFrame (floatingDetailsPresentation w) = false ->
     closeButtonPressed w
     = print "closeButtonPressed() - Warning: floatingDetailsUIFrame is not assigned." w).
Proof.
  intro w. unfold detailsButtonPressed, closeButtonPressed.
  split; [| split; [| split]].
  - intros Hframe. rewrite Hframe. simpl. split.
    + destruct (HP.floatingDetailsUIContentManager (handLockedPresentation w));
        [| reflexivity].
      apply (onlyFD_frame _ _ (updateContent_onlyFD (withFrameEnabled w true))).
    + intros Hcm. rewrite Hcm. reflexivity.
  - intros Hframe. rewrite Hframe. reflexivity.
  - intros Hframe. rewrite Hframe. split; [reflexivity |].
    assert (Hkept : FP.floatingDetailsUIFrame
                      (floatingDetailsPresentation (sceneOf (detailsButtonPressed w)))
                    = true).
    { rewrite <- Hframe. unfold detailsButtonPressed.
      destruct (HP.floatingDetailsUIFrame (handLockedPresentation w)); [| reflexivity].
      simpl.
      destruct (HP.floatingDetailsUIContentManager (handLockedPresentation w));
        [| reflexivity].
      destruct (onlyFD_frame _ _ (updateContent_onlyFD (withFrameEnabled w true)))
        as (_ & _ & _ & Hfp).
      rewrite Hfp. reflexivity. }
    unfold detailsButtonPressed in Hkept. rewrite Hkept. reflexivity.
  - intros Hframe. rewrite Hframe. reflexivity.
Qed.

(** ** The pin of the secondary source *)

(** The last branch of the pin refresh, on a consistent map. *)
Lemma updateMobileKitPin_active (w : World) (m : MapComponent) :
  isEditor w = false ->
  FD.mobileKitManagerSceneObject (floatingDetails w) = Some true ->
  FD.mobileKitManager (floatingDetails w) = true ->
  strictEqualsZero (MK.latitude (mobileKitManager w))
  && strictEqualsZero (MK.longitude (mobileKitManager w)) = false ->
  FD.mapComponent (floatingDetails w) = Some m ->
  pinConsistent (floatingDetails w) ->
  let p := {| pinId := nextPinId m;
              pinLongitude := MK.longitude (mobileKitManager w);
              pinLatitude := MK.latitude (mobileKitManager w) |} in
  exists w',
    updateMobileKitPin w = Done w' /\
    w' = withFD w (FD.withMap (floatingDetails w)
                     (Some {| pins := [p]; nextPinId := S (nextPinId m) |}) (Some p)).
Proof.
  intros Hed Eo Ek Hz Em Hw p. unfold updateMobileKitPin.
  rewrite Em, Hed, Eo, Ek, Hz. simpl. eexists. split; [reflexivity |].
  unfold createPinAtCurrentLocation, removeExistingPin.
  unfold pinConsistent in Hw. rewrite Em in Hw.
  destruct w as [ed lm mk [map flm ldt so fmk btn btxt mkt pin] hl hp fp fr con].
  simpl in *. subst map.
  destruct pin as [p0 |]; simpl.
  - destruct Hw as [Hpins _]. rewrite Hpins. simpl. rewrite Nat.eqb_refl. reflexivity.
  - rewrite Hw. reflexivity.
Qed.

(** X11. A refresh in the active state, with the map assigned and in
    agreement with the pin reference, replaces the pin twice, once at the
    end of the text refresh and once more after it: it ends with one pin on
    the map, at the stored longitude and latitude, under the second of the
    two fresh handles, and with the reading as the display text. *)
Theorem refresh_in_the_active_state_replaces_the_pin_twice :
  forall (w : World) (m : MapComponent),
    isEditor w = false ->
    refreshAssigned (floatingDetails w) = true ->
    FD.mobileKitManagerSceneObject (floatingDetails w) = Some true ->
    strictEqualsZero (MK.latitude (mobileKitManager w))
    && strictEqualsZero (MK.longitude (mobileKitManager w)) = false ->
    numericReading (mobileKitManager w) = true ->
    FD.mapComponent (floatingDetails w) = Some m ->
    pinConsistent (floatingDetails w) ->
    let p := {| pinId := S (nextPinId m);
                pinLongitude := MK.longitude (mobileKitManager w);
                pinLatitude := MK.latitude (mobileKitManager w) |} in
    exists w',
      updateContent w = Done w' /\
      FD.mobileKitPin (floatingDetails w') = Some p /\
      FD.mapComponent (floatingDetails w')
      = Some {| pins := [p]; nextPinId := S (S (nextPinId m)) |} /\
      (exists text, mobileKitReadingText (mobileKitManager w) = Normal text /\
                    shows w' text false lightGrey).
Proof.
  intros w m Hed Ha Eo Hz Hn Em Hw p.
  destruct (refreshAssigned_inputs _ Ha) as (Ht & Hb & Hc & _ & Ek).
  destruct (mobileKitReadingText_numeric _ Hn) as [text Htext].
  destruct (updateLocationText_details w) as [primary Hw1].
  unfold updateContent, andThen, always. rewrite Hw1.
  set (w1 := withFD w _).
  unfold updateMobileKitText.
  change (isEditor w1) with (isEditor w). rewrite Hed.
  change (FD.mobileKitManagerSceneObject (floatingDetails w1))
    with (FD.mobileKitManagerSceneObject (floatingDetails w)). rewrite Eo.
  change (FD.mobileKitManager (floatingDetails w1))
    with (FD.mobileKitManager (floatingDetails w)). rewrite Ek.
  change (mobileKitManager w1) with (mobileKitManager w). rewrite Hz, Htext.
  simpl negb. cbv iota.
  unfold andThen, setMobileKitText.
  change (FD.mobileKitText (floatingDetails w1))
    with (FD.mobileKitText (floatingDetails w)).
  destruct (FD.mobileKitText (floatingDetails w)) as [t0 |] eqn:Et; [| congruence].
  unfold setButtonInactive. simpl sceneOf.
  set (w2 := withFD w1 _).
  change (FD.startMobileKitButton (floatingDetails w2))
    with (FD.startMobileKitButton (floatingDetails w)).
  destruct (FD.startMobileKitButton (floatingDetails w)) as [b0 |] eqn:Eb; [| congruence].
  unfold setButtonTextColor.
  set (w3 := withFD w2 _).
  change (FD.startMobileKitButtonText (floatingDetails w3))
    with (FD.startMobileKitButtonText (floatingDetails w)).
  destruct (FD.startMobileKitButtonText (floatingDetails w)) as [c0 |] eqn:Ec;
    [| congruence].
  set (w4 := withFD w3 _).
  destruct (updateMobileKitPin_active w4 m Hed Eo Ek Hz Em Hw) as (w5 & Hdone5 & Hw5).
  rewrite Hdone5.
  destruct (updateMobileKitPin_active w5
              {| pins := [{| pinId := nextPinId m;
                             pinLongitude := MK.longitude (mobileKitManager w);
                             pinLatitude := MK.latitude (mobileKitManager w) |}];
                 nextPinId := S (nextPinId m) |})
    as (w6 & Hdone6 & Hw6);
    try (rewrite Hw5; simpl; assumption).
  { rewrite Hw5. reflexivity. }
  { rewrite Hw5. simpl. split; [reflexivity | apply Nat.lt_succ_diag_r]. }
  exists w6. split; [exact Hdone6 |].
  rewrite Hw6, Hw5. simpl. split; [reflexivity | split; [reflexivity |]].
  exists text. split; [reflexivity | repeat split].
Qed.

#[local] Instance pinOnlyIfActive_PreOrder : PreOrder pinOnlyIfActive.
Proof.
  split.
  - intros w. unfold pinOnlyIfActive. auto.
  - intros w1 w2 w3 (He12 & Ho12 & Hk12 & H12) (He23 & Ho23 & Hk23 & H23).
    split; [congruence | split; [congruence | split; [congruence |]]].
    intros Hna Hnone. apply H23; [| apply H12; assumption].
    unfold activeScene, displayStateOf in *. rewrite Ho12, He12, Hk12. exact Hna.
Qed.

Lemma noPin_sameDetails (w w0 : World) :
  floatingDetails w0 = floatingDetails w -> noPin w -> noPin w0.
Proof. unfold noPin. intros ->. auto. Qed.

Lemma refresh_pinOnlyIfActive : preserves pinOnlyIfActive updateContent.
Proof.
  assert (Hremove : forall w, pinOnlyIfActive w (removeMobileKitPin w)).
  { intros w. unfold removeMobileKitPin.
    destruct (FD.mobileKitPin _) eqn:Ep; [| reflexivity].
    destruct (FD.mapComponent _) eqn:Em; [| reflexivity].
    split; [reflexivity | split; [reflexivity | split; [reflexivity |]]].
    intros _ [Hnone _]. congruence. }
  apply refresh_preserves; try typeclasses eauto.
  - intros t w. unfold setMobileKitText.
    destruct (FD.mobileKitText _); [| reflexivity].
    split; [reflexivity | split; [reflexivity | split; [reflexivity |]]].
    intros _ Hnone. exact Hnone.
  - intros b w. unfold setButtonInactive.
    destruct (FD.startMobileKitButton _); [| reflexivity].
    split; [reflexivity | split; [reflexivity | split; [reflexivity |]]].
    intros _ Hnone. exact Hnone.
  - intros c w. unfold setButtonTextColor.
    destruct (FD.startMobileKitButtonText _); [| reflexivity].
    split; [reflexivity | split; [reflexivity | split; [reflexivity |]]].
    intros _ Hnone. exact Hnone.
  - exact Hremove.
  - intros w. unfold updateLocationText.
    destruct (negb _); [reflexivity |].
    destruct (FD.locationDataText _); [| reflexivity].
    split; [reflexivity | split; [reflexivity | split; [reflexivity |]]].
    intros _ Hnone. exact Hnone.
  - intros w. specialize (Hremove w).
    unfold updateMobileKitPin.
    destruct (FD.mapComponent (floatingDetails w)) as [m |] eqn:Em; [| reflexivity].
    destruct (isEditor w) eqn:Hed; [exact Hremove |].
    destruct (FD.mobileKitManagerSceneObject (floatingDetails w)) as [enabled |] eqn:Eo;
      [| reflexivity].
    destruct enabled; simpl negb; cbv iota; [| exact Hremove].
    destruct (negb (FD.mobileKitManager (floatingDetails w))); [reflexivity |].
    destruct (strictEqualsZero _ && strictEqualsZero _) eqn:Hz; [exact Hremove |].
    simpl sceneOf. unfold pinOnlyIfActive.
    split; [| split; [| split]].
    + apply (onlyFD_isEditor _ _ (replacePin_onlyFD m w)).
    + unfold createPinAtCurrentLocation, removeExistingPin.
      destruct (FD.mobileKitPin (floatingDetails w)); simpl; rewrite ?Em; simpl;
        try rewrite Em; simpl; exact Eo || (symmetry; exact Eo) || reflexivity.
    + apply (onlyFD_mobileKitManager _ _ (replacePin_onlyFD m w)).
    + intros Hna. unfold activeScene, displayStateOf, displayState in Hna.
      rewrite Eo, Hed, Hz in Hna. discriminate.
Qed.

(** A refresh of a scene without a pin leaves none unless the scene is
    active. *)
Lemma refresh_leaves_no_pin (w : World) :
  noPin w -> activeScene (sceneOf (updateContent w)) = false ->
  noPin (sceneOf (updateContent w)).
Proof.
  intros Hnone Hna.
  destruct (refresh_pinOnlyIfActive w) as (Hed & Ho & Hk & Hkeep).
  apply Hkeep; [| exact Hnone].
  unfold activeScene, displayStateOf in *. rewrite <- Ho, <- Hed, <- Hk. exact Hna.
Qed.

Lemma storedPayload_elsewhere (payload : list (string * JsValue)) (w : World) :
  floatingDetails (storedPayload payload w) = floatingDetails w /\
  isEditor (storedPayload payload w) = isEditor w /\
  console (storedPayload payload w) = console w.
Proof.
  unfold storedPayload.
  destruct (ownProperty payload "latitude"), (ownProperty payload "longitude"),
    (ownProperty payload "horizontal_accuracy"), (ownProperty payload "altitude"),
    (ownProperty payload "vertical_accuracy"); repeat split.
Qed.

Lemma step_leaves_no_pin (e : Event) (w : World) :
  noPin w -> activeScene (sceneOf (step e w)) = false -> noPin (sceneOf (step e w)).
Proof.
  intros Hnone.
  assert (Hrefresh : forall w0 : World,
            floatingDetails w0 = floatingDetails w ->
            activeScene (sceneOf (updateContent w0)) = false ->
            noPin (sceneOf (updateContent w0))).
  { intros w0 Hf. apply refresh_leaves_no_pin, (noPin_sameDetails w w0 Hf Hnone). }
  assert (Hsame : forall w0 : World,
            floatingDetails w0 = floatingDetails w -> noPin w0).
  { intros w0 Hf. exact (noPin_sameDetails w w0 Hf Hnone). }
  destruct e as [| | | g | error | h | response parsed | | |]; cbn [step].
  - apply Hrefresh. reflexivity.
  - intros _. apply Hsame, onUpdate_elsewhere.
  - intros _. destruct (LM.repeatProcessGeoPositionEvent (locationManager w));
      apply Hsame; reflexivity.
  - destruct (LM.pendingPositionRequests (locationManager w));
      [intros _; apply Hsame; reflexivity |].
    unfold onGeoPosition, newLocationManagerDataAvailable.
    destruct (LM.floatingDetailsUIContentManager _);
      [apply Hrefresh | intros _; apply Hsame]; reflexivity.
  - intros _. destruct (LM.pendingPositionRequests (locationManager w));
      apply Hsame; reflexivity.
  - unfold processNorthAlignedOrientationUpdate, newLocationManagerDataAvailable.
    destruct (LM.floatingDetailsUIContentManager _);
      [apply Hrefresh | intros _; apply Hsame]; destruct (isEditor _); reflexivity.
  - cbn [sceneOf].
    assert (Hobject : forall payload,
              activeScene (onGPSLocationResponse response (Parsed (JObject payload)) w)
              = false ->
              noPin (onGPSLocationResponse response (Parsed (JObject payload)) w)).
    { intros payload. unfold onGPSLocationResponse. rewrite stores_of_object.
      set (stored := storedPayload payload _).
      assert (Hf : floatingDetails stored = floatingDetails w).
      { unfold stored. rewrite (proj1 (storedPayload_elsewhere _ _)). reflexivity. }
      unfold newMobileKitDataAvailable.
      destruct (MK.floatingDetailsUIContentManager (mobileKitManager stored));
        [| intros _; apply Hsame; exact Hf].
      pose proof (Hrefresh stored Hf) as Hr.
      destruct (updateContent stored) as [w' | error w']; [exact Hr |].
      intros Hna. apply (noPin_sameDetails w' _ eq_refl). apply Hr. exact Hna. }
    destruct parsed as [v | error]; [| intros _; apply Hsame; reflexivity].
    destruct v as [| b | x | s | items | payload];
      try exact (Hobject []); [intros _; apply Hsame; reflexivity | apply Hobject].
  - unfold startMobileKitButtonPressed.
    destruct (FD.mobileKitManagerSceneObject (floatingDetails w)); [| intros _; exact Hnone].
    apply refresh_leaves_no_pin. exact Hnone.
  - unfold detailsButtonPressed.
    destruct (HP.floatingDetailsUIFrame (handLockedPresentation w));
      [| intros _; apply Hsame; reflexivity].
    simpl.
    destruct (HP.floatingDetailsUIContentManager (handLockedPresentation w));
      [apply Hrefresh | intros _; apply Hsame]; reflexivity.
  - intros _. unfold closeButtonPressed.
    destruct (FP.floatingDetailsUIFrame (floatingDetailsPresentation w));
      apply Hsame; reflexivity.
Qed.

Lemma step_isEditor (e : Event) (w : World) : isEditor (sceneOf (step e w)) = isEditor w.
Proof.
  assert (Hrefresh : forall w0 : World,
            isEditor (sceneOf (updateContent w0)) = isEditor w0).
  { intros w0. apply (onlyFD_isEditor _ _ (updateContent_onlyFD w0)). }
  destruct e as [| | | g | error | h | response parsed | | |]; cbn [step].
  - rewrite Hrefresh. reflexivity.
  - apply onUpdate_elsewhere.
  - destruct (LM.repeatProcessGeoPositionEvent (locationManager w)); reflexivity.
  - destruct (LM.pendingPositionRequests (locationManager w)); [reflexivity |].
    unfold onGeoPosition, newLocationManagerDataAvailable.
    destruct (LM.floatingDetailsUIContentManager _);
      [rewrite Hrefresh |]; reflexivity.
  - destruct (LM.pendingPositionRequests (locationManager w)); reflexivity.
  - apply orientation_update_isEditor.
  - cbn [sceneOf].
    assert (Hobject : forall payload,
              isEditor (onGPSLocationResponse response (Parsed (JObject payload)) w)
              = isEditor w).
    { intros payload. unfold onGPSLocationResponse. rewrite stores_of_object.
      set (stored := storedPayload payload _).
      assert (Hed : isEditor stored = isEditor w).
      { unfold stored. rewrite (proj1 (proj2 (storedPayload_elsewhere _ _))). reflexivity. }
      unfold newMobileKitDataAvailable.
      destruct (MK.floatingDetailsUIContentManager (mobileKitManager stored));
        [| exact Hed].
      pose proof (Hrefresh stored) as Hr.
      destruct (updateContent stored) as [w' | error w']; simpl in *; congruence. }
    destruct parsed as [v | error]; [| reflexivity].
    destruct v as [| b | x | s | items | payload];
      try exact (Hobject []); [reflexivity | apply Hobject].
  - unfold startMobileKitButtonPressed.
    destruct (FD.mobileKitManagerSceneObject (floatingDetails w)); [| reflexivity].
    rewrite Hrefresh. reflexivity.
  - unfold detailsButtonPressed.
    destruct (HP.floatingDetailsUIFrame (handLockedPresentation w)); [| reflexivity].
    simpl.
    destruct (HP.floatingDetailsUIContentManager (handLockedPresentation w));
      [rewrite Hrefresh |]; reflexivity.
  - unfold closeButtonPressed.
    destruct (FP.floatingDetailsUIFrame (floatingDetailsPresentation w)); reflexivity.
Qed.

(** X12. A pin is put on the map only in a turn that leaves the scene in
    the active display state: whatever the turn and whatever is assigned, if
    the scene had no pin before and is not active after the turn (in the
    editor, or the mobile kit scene object not enabled, or coordinates
    (0,0)), it has no pin after it. In the editor, therefore, a scene without
    a pin never gets one. *)
Theorem pin_is_placed_only_in_the_active_state :
  (forall (e : Event) (w : World),
     noPin w -> activeScene (sceneOf (step e w)) = false ->
     noPin (sceneOf (step e w))) /\
  (forall (events : list Event) (w : World),
     isEditor w = true -> noPin w -> noPin (run events w)).
Proof.
  split; [exact step_leaves_no_pin |].
  induction events as [| e events IH]; intros w Hed Hnone; [exact Hnone |].
  cbn [run].
  assert (Hed' : isEditor (sceneOf (step e w)) = true)
    by (rewrite step_isEditor; exact Hed).
  apply IH; [exact Hed' |].
  apply step_leaves_no_pin; [exact Hnone |].
  unfold activeScene, displayStateOf, displayState. rewrite Hed'.
  destruct (FD.mobileKitManagerSceneObject _); reflexivity.
Qed.

(** ** The panel that follows the hand *)

(** X13. A frame of the hand-locked panel with the back plate assigned
    never throws and leaves the plate visible exactly when the lens runs in
    the editor or the left hand is tracked and faces the camera, whatever
    the visibility was before; the console, the hand and the camera are as
    before. With the back plate not assigned, the test in [positionUI]
    prints its warning and the frame then ends by a [TypeError] in
    [checkForUIActivation], which has no such test. *)
Theorem hand_panel_frame_sets_visibility_from_the_hand :
  forall (vec3 quat : Type) (platform : UP.VectorPlatform vec3 quat) (p : UP.t vec3 quat),
    (UP.handLockedUIBackPlate p = None ->
     UP.onUpdate p
     = UP.Raised TypeError
         (UP.print "positionUI() - Warning: handLockedUIBackPlate is not assigned." p)) /\
    (forall plate : UP.SceneObject vec3 quat,
       UP.handLockedUIBackPlate p = Some plate ->
       exists (p' : UP.t vec3 quat) (plate' : UP.SceneObject vec3 quat),
         UP.onUpdate p = UP.Returned p' /\
         UP.handLockedUIBackPlate p' = Some plate' /\
         UP.enabled plate'
         = (UP.isEditor p
            || (UP.isTracked (UP.leftHand p) && UP.isFacingCamera (UP.leftHand p))) /\
         UP.worldPosition plate'
         = UP.worldPosition
             (match UP.handLockedUIBackPlate (UP.positionUI p) with
              | Some placed => placed
              | None => plate
              end) /\
         UP.console p' = UP.console p /\ UP.leftHand p' = UP.leftHand p /\
         UP.isEditor p' = UP.isEditor p).
Proof.
  intros vec3 quat platform p. split.
  - intros Hnone. unfold UP.onUpdate, UP.positionUI. rewrite Hnone.
    unfold UP.checkForUIActivation, UP.setBackPlateEnabled. simpl. rewrite Hnone.
    destruct (UP.isEditor p); [reflexivity |].
    destruct (UP.isTracked _ && UP.isFacingCamera _); reflexivity.
  - intros plate Hplate.
    unfold UP.onUpdate, UP.positionUI, UP.checkForUIActivation, UP.setBackPlateEnabled.
    rewrite Hplate. simpl.
    destruct (UP.isEditor p) eqn:Hed; simpl.
    + eexists. eexists. split; [reflexivity |]. simpl. rewrite Hed. repeat split.
    + destruct (UP.isTracked _ && UP.isFacingCamera _);
        (eexists; eexists; split; [reflexivity |]; simpl; rewrite Hed; repeat split).
Qed.

(** X14. What the delayed callback of [onAwake] sets is overwritten by the
    next frame: a frame after the callback ends as the frame alone would,
    with the same state. *)
Theorem delayed_visibility_is_overwritten_by_the_next_frame :
  forall (vec3 quat : Type) (platform : UP.VectorPlatform vec3 quat) (p : UP.t vec3 quat),
    UP.onUpdate (UP.stateOf (UP.delayedCallback p)) = UP.onUpdate p.
Proof.
  intros vec3 quat platform p.
  unfold UP.delayedCallback, UP.setBackPlateEnabled.
  destruct (UP.handLockedUIBackPlate p) as [plate |] eqn:Hplate.
  - unfold UP.onUpdate, UP.positionUI, UP.checkForUIActivation, UP.setBackPlateEnabled.
    rewrite Hplate.
    destruct (UP.isEditor p) eqn:Hed; simpl; rewrite Hed; simpl; [reflexivity |].
    destruct (UP.isTracked _ && UP.isFacingCamera _); reflexivity.
  - destruct (UP.isEditor p); reflexivity.
Qed.

(** ** The mobile kit session *)

Lemma session_settled (events : list MS.Event) (s : MS.t) :
  MS.awaitingConnection s = false ->
  MS.awaitingConnection (MS.run events s) = false /\
  MS.subscriptions (MS.run events s) = MS.subscriptions s /\
  MS.sessions (MS.run events s) = MS.sessions s /\
  MS.isEditor (MS.run events s) = MS.isEditor s.
Proof.
  revert s. induction events as [| e events IH]; intros s Hs; [auto |].
  unfold MS.run in *. cbn [fold_left].
  destruct (IH (MS.step e s)) as (H1 & H2 & H3 & H4).
  - destruct e; simpl; try exact Hs. rewrite Hs. exact Hs.
  - rewrite H1, H2, H3, H4. destruct e; simpl; try rewrite Hs; auto.
Qed.

Lemma session_awaiting (events : list MS.Event) (s : MS.t) :
  noConnection events = true ->
  MS.awaitingConnection (MS.run events s) = MS.awaitingConnection s /\
  MS.subscriptions (MS.run events s) = MS.subscriptions s /\
  MS.sessions (MS.run events s) = MS.sessions s.
Proof.
  revert s. induction events as [| e events IH]; intros s Hno; [auto |].
  unfold MS.run in *. cbn [fold_left]. simpl in Hno.
  destruct e as [r | | error]; [discriminate | |];
    match goal with
    | |- context [fold_left _ events ?x] => destruct (IH x Hno) as (H1 & H2 & H3)
    end;
    rewrite H1, H2, H3; auto.
Qed.

Lemma session_run_app (before after : list MS.Event) (s : MS.t) :
  MS.run (List.app before after) s = MS.run after (MS.run before s).
Proof. apply fold_left_app. Qed.

(** X15. The mobile kit session. In the editor [onStart] prints one line
    and creates no session, so no subscription is ever started. On the
    device one session is created, and the first [onConnected] callback
    settles what [startSession] awaits: the subscription to the location
    topic is started then and never again, so that there is at most one,
    however often the session disconnects and connects; if starting it
    throws at that first connection, the error is printed and no later
    connection starts one. *)
Theorem session_starts_at_most_one_subscription :
  forall (editor : bool) (events : list MS.Event),
    let s := MS.run events (MS.onStart (MS.atStart editor)) in
    MS.subscriptions s <= 1 /\
    (editor = true -> MS.sessions s = 0 /\ MS.subscriptions s = 0) /\
    (editor = false -> MS.sessions s = 1) /\
    (editor = false -> noConnection events = true -> MS.subscriptions s = 0) /\
    (forall (before after : list MS.Event) (startSubscription : Completion unit),
       editor = false -> noConnection before = true ->
       events = List.app before (MS.Connected startSubscription :: after) ->
       MS.subscriptions s = match startSubscription with
                            | Normal _ => 1
                            | Throw _ => 0
                            end).
Proof.
  intros editor events s.
  assert (Hfirst : forall before after startSubscription,
            editor = false -> noConnection before = true ->
            events = List.app before (MS.Connected startSubscription :: after) ->
            MS.subscriptions s = match startSubscription with
                                 | Normal _ => 1
                                 | Throw _ => 0
                                 end /\ MS.sessions s = 1).
  { intros before after r -> Hno ->. unfold s.
    rewrite session_run_app.
    destruct (session_awaiting before (MS.onStart (MS.atStart false)) Hno)
      as (Hw & Hsub & Hses).
    change (MS.run (MS.Connected r :: after) ?x)
      with (MS.run after (MS.step (MS.Connected r) x)).
    set (s1 := MS.run before _) in *.
    destruct (session_settled after (MS.step (MS.Connected r) s1)) as (_ & H2 & H3 & _).
    { simpl. rewrite Hw. simpl. destruct r; reflexivity. }
    rewrite H2, H3. simpl. rewrite Hw. simpl.
    destruct r; simpl; rewrite Hsub, Hses; split; reflexivity. }
  assert (Hnone : editor = false -> noConnection events = true ->
                  MS.subscriptions s = 0 /\ MS.sessions s = 1).
  { intros -> Hno. unfold s.
    destruct (session_awaiting events (MS.onStart (MS.atStart false)) Hno)
      as (_ & Hsub & Hses).
    rewrite Hsub, Hses. split; reflexivity. }
  assert (Heditor : editor = true -> MS.sessions s = 0 /\ MS.subscriptions s = 0).
  { intros ->. unfold s.
    destruct (session_settled events (MS.onStart (MS.atStart true)) eq_refl)
      as (_ & H2 & H3 & _).
    rewrite H2, H3. split; reflexivity. }
  assert (Hsplit : noConnection events = true \/
                   exists before after r,
                     noConnection before = true /\
                     events = List.app before (MS.Connected r :: after)).
  { clear. induction events as [| e events IH]; [left; reflexivity |].
    destruct e as [r | |].
    - right. exists [], events, r. split; reflexivity.
    - destruct IH as [Hno | (before & after & r & Hno & ->)]; [left; exact Hno |].
      right. exists (MS.Disconnected :: before), after, r. split; [exact Hno | reflexivity].
    - destruct IH as [Hno | (before & after & r & Hno & ->)]; [left; exact Hno |].
      right. exists (MS.SubscriptionError error :: before), after, r.
      split; [exact Hno | reflexivity]. }
  split; [| split; [exact Heditor | split; [| split]]].
  - destruct editor; [rewrite (proj2 (Heditor eq_refl)); auto |].
    destruct Hsplit as [Hno | (before & after & r & Hno & Heq)].
    + rewrite (proj1 (Hnone eq_refl Hno)). auto.
    + rewrite (proj1 (Hfirst before after r eq_refl Hno Heq)). destruct r; auto.
  - intros Hed. destruct Hsplit as [Hno | (before & after & r & Hno & Heq)].
    + apply (Hnone Hed Hno).
    + apply (Hfirst before after r Hed Hno Heq).
  - intros Hed Hno. apply (Hnone Hed Hno).
  - intros before after r Hed Hno Heq. apply (Hfirst before after r Hed Hno Heq).
Qed.

End Components.

(** ** The statements above at concrete scenes *)

(** C4: the claim as stated fails on the heading. After an orientation update
    to 45 degrees, a position heading 90 degrees is delivered: the stored
    heading is still 45, not the position's. *)
Lemma position_fetch_leaves_heading_counterexample :
  let w := sceneOf (processNorthAlignedOrientationUpdate sampleToFixed 45
                      (atStart (assignedScene false true))) in
  let w' := sceneOf (onGeoPosition sampleToFixed samplePosition w) in
  GeoPosition.heading samplePosition = 90%float /\
  LM.heading (locationManager w') = 45%float /\
  LM.heading (locationManager w') <> GeoPosition.heading samplePosition.
Proof.
  cbv zeta. split; [reflexivity | split; [reflexivity |]].
  intro H. apply (f_equal (fun x => PrimFloat.eqb x 45%float)) in H.
  vm_compute in H. discriminate.
Qed.

(** The position fetch on the assigned scene: the detailed panel shows the
    position's six values. *)
Lemma position_fetch_witness :
  let w := atStart (assignedScene false true) in
  FD.locationDataText (floatingDetails (sceneOf (onGeoPosition sampleToFixed samplePosition w)))
  = Some (locationText sampleToFixed (LM.withReading (locationManager w) samplePosition)).
Proof.
  cbv zeta.
  destruct (position_fetch_overwrites_six_fields_and_keeps_heading sampleToFixed
              samplePosition (atStart (assignedScene false true))) as (_ & _ & _ & H).
  apply H; [reflexivity | reflexivity | discriminate].
Defined.

(** C3: the claim as stated fails. From the start, the event fires and the
    first pull is made: the event is armed for the next pull although the
    request is pending (no callback has been delivered); it fires again and a
    second request is pending beside the first. *)
Lemma next_pull_overlaps_counterexample :
  let w1 := run sampleToFixed [Started; RepeatEventFired]
              (atStart (assignedScene false true)) in
  let w2 := run sampleToFixed [Started; RepeatEventFired; RepeatEventFired]
              (atStart (assignedScene false true)) in
  LM.pendingPositionRequests (locationManager w1) = 1 /\
  LM.repeatProcessGeoPositionEvent (locationManager w1) = Some 1%float /\
  LM.pendingPositionRequests (locationManager w2) = 2.
Proof. cbv zeta. repeat split; vm_compute; reflexivity. Qed.

(** C9: the claim as stated fails on the scene with no input assigned. The
    primary adapter's notification tests its content manager and skips, yet
    prints no warning; the secondary adapter's notification and the refresh
    of the secondary display do not test the elements they use, and reading
    the first of them throws. *)
Lemma unassigned_element_without_warning_counterexample :
  LM.floatingDetailsUIContentManager (locationManager unassignedScene) = false /\
  newLocationManagerDataAvailable sampleToFixed unassignedScene = Done unassignedScene /\
  console unassignedScene = [] /\
  MK.floatingDetailsUIContentManager (mobileKitManager unassignedScene) = false /\
  newMobileKitDataAvailable sampleToFixed unassignedScene
  = Threw TypeError unassignedScene /\
  FD.mobileKitManagerSceneObject (floatingDetails unassignedScene) = None /\
  updateMobileKitText sampleToFixed unassignedScene = Threw TypeError unassignedScene.
Proof. repeat split. Qed.

(** The guarded operations on the scene with no input assigned, the
    positioning of the hand-locked panel with no back plate assigned, and
    the status-icon update when the image for a satellite fix is not
    assigned. *)
Lemma guarded_operations_witness :
  newLocationManagerDataAvailable sampleToFixed unassignedScene = Done unassignedScene /\
  updateLocationText sampleToFixed unassignedScene = unassignedScene /\
  updateMobileKitPin unassignedScene = Done unassignedScene /\
  onUpdate sampleToFixed unassignedScene = unassignedScene /\
  closeButtonPressed unassignedScene
  = print "closeButtonPressed() - Warning: floatingDetailsUIFrame is not assigned."
      unassignedScene /\
  UP.console (UP.positionUI (platform := sampleVectors) unassignedPanel)
  = ["positionUI() - Warning: handLockedUIBackPlate is not assigned."] /\
  let w := sceneOf (onGeoPosition sampleToFixed samplePosition sceneWithoutBlueImage) in
  console (updateGPSStatusIndicator w)
  = ["updateGPSStatusIndicator() - Warning: No image found for GPS status: GNSS_RECEIVER"] /\
  enabledImages (handLocked (updateGPSStatusIndicator w)) = [].
Proof.
  destruct (guarded_operations_skip_an_unassigned_element sampleToFixed)
    as (H1 & H2 & H3 & H4 & H5 & _ & _ & _ & H7 & _ & H9).
  split; [apply H1; reflexivity |].
  split; [apply H2; left; reflexivity |].
  split; [apply H3; reflexivity |].
  split; [apply H4; reflexivity |].
  split; [apply H7; reflexivity |].
  split; [rewrite (H9 _ _ sampleVectors unassignedPanel eq_refl); reflexivity |].
  cbv zeta.
  destruct (H5 (sceneOf (onGeoPosition sampleToFixed samplePosition sceneWithoutBlueImage)))
    as (Hconsole & Hnone & _); [reflexivity | discriminate | reflexivity |].
  split; [exact Hconsole | exact Hnone].
Defined.

(** The secondary display on the device, every input assigned and the mobile
    kit enabled, after the first message of the scenario: the display state
    is the active one. *)
Lemma secondary_display_witness :
  let w := onGPSLocationResponse sampleToFixed "first" (Parsed firstMessage)
             (atStart (assignedScene false true)) in
  exists w', updateMobileKitText sampleToFixed w = Done w' /\
    shows w' (mobileKitTextOf sampleToFixed 52.2175 5.1696 9.08 0 0) false lightGrey.
Proof.
  cbv zeta.
  set (w := onGPSLocationResponse sampleToFixed "first" (Parsed firstMessage)
              (atStart (assignedScene false true))).
  assert (Ht : FD.mobileKitText (floatingDetails w) <> None) by (vm_compute; discriminate).
  assert (Hb : FD.startMobileKitButton (floatingDetails w) <> None)
    by (vm_compute; discriminate).
  assert (Hc : FD.startMobileKitButtonText (floatingDetails w) <> None)
    by (vm_compute; discriminate).
  assert (Hw : pinConsistent (floatingDetails w)) by (vm_compute; split; [reflexivity | lia]).
  exact (secondary_display_follows_the_four_way_branch sampleToFixed w true
           Ht Hb Hc eq_refl eq_refl Hw
           52.2175%float 5.1696%float 9.08%float 0%float 0%float
           eq_refl eq_refl eq_refl eq_refl eq_refl).
Defined.

(** The pin refresh on the same scene: the pin the message's refresh made is
    replaced by a new one. *)
Lemma map_pin_refresh_witness :
  let w := onGPSLocationResponse sampleToFixed "first" (Parsed firstMessage)
             (atStart (assignedScene false true)) in
  exists w', updateMobileKitPin w = Done w' /\
    length (pinsOnMap (floatingDetails w')) <= 1.
Proof.
  cbv zeta.
  set (w := onGPSLocationResponse sampleToFixed "first" (Parsed firstMessage)
              (atStart (assignedScene false true))).
  assert (Hw : pinConsistent (floatingDetails w)) by (vm_compute; split; [reflexivity | lia]).
  destruct (FD.mapComponent (floatingDetails w)) as [m |] eqn:Em; [| discriminate].
  destruct (map_pin_refresh_keeps_at_most_one_pin sampleToFixed w m true Hw Em
              eq_refl eq_refl) as [(w' & Hdone & Hone & _) _].
  exists w'. auto.
Defined.

(** The status-icon update on the assigned scene, once a satellite fix has
    been delivered: the source changed from the empty string. *)
Lemma one_icon_enabled_witness :
  let w := sceneOf (onGeoPosition sampleToFixed samplePosition
                      (atStart (assignedScene false true))) in
  enabledImages (handLocked (updateGPSStatusIndicator w)) = [Blue].
Proof.
  cbv zeta.
  destruct short_label_and_status_icon_are_total_and_one_icon_is_enabled
    as (_ & _ & _ & H).
  refine (proj1 (H (sceneOf (onGeoPosition sampleToFixed samplePosition
                               (atStart (assignedScene false true)))) eq_refl _ _)).
  - intro i. destruct i; discriminate.
  - discriminate.
Defined.

(** Two renders of the compact panel with an orientation update, a
    secondary message and a frame tick in between. *)
Lemma second_render_witness :
  let w := sceneOf (onGeoPosition sampleToFixed samplePosition
                      (atStart (assignedScene false true))) in
  let between := [OrientationUpdated 45; GPSLocationReceived "first" (Parsed firstMessage);
                  FrameUpdate] in
  let rendered := onUpdate sampleToFixed w in
  HL.visibilityWrites
    (handLocked (onUpdate sampleToFixed (run sampleToFixed between rendered)))
  = HL.visibilityWrites (handLocked rendered).
Proof.
  cbv zeta.
  refine (proj1 (proj2 (second_render_with_unchanged_source_writes_no_icon_visibility
                          sampleToFixed _ _ _))).
  repeat constructor.
Defined.

(** The first turns of a session in which the location service has no source
    to report yet. *)
Lemma source_still_empty_witness :
  let events := [Started; FrameUpdate; RepeatEventFired; OrientationUpdated 45; FrameUpdate;
                 PositionDelivered sourcelessPosition; FrameUpdate] in
  let w := run sampleToFixed events (atStart (assignedScene false true)) in
  HL.visibilityWrites (handLocked w) = [] /\
  HL.gpsStatusWhiteImage (handLocked w) = Some false.
Proof.
  cbv zeta.
  match goal with
  | |- HL.visibilityWrites (handLocked (run _ ?events (atStart ?scene))) = _ /\ _ =>
      assert (Hevents : Forall (keepsSource "") events) by (repeat constructor);
      destruct (no_status_icon_is_written_while_the_source_is_still_empty
                  sampleToFixed scene events Hevents) as (_ & _ & _ & _ & Hwrites & _ & Hwhite)
  end.
  split; [exact Hwrites | exact Hwhite].
Defined.

(** ** Further statements at concrete scenes *)

(** The message of the mobile application with its topic leaves the scene
    the message without it leaves, but for the echo. *)
Lemma topic_of_a_payload_is_ignored_witness :
  let w := atStart (assignedScene false true) in
  sameButResponse w "with topic" "without"
    (onGPSLocationResponse sampleToFixed "with topic" (Parsed (JObject topicMessage)) w)
    (onGPSLocationResponse sampleToFixed "without"
       (Parsed (JObject (tl topicMessage))) w).
Proof.
  cbv zeta.
  apply (proj1 (proj2 (only_the_five_keys_of_a_payload_matter sampleToFixed))).
  unfold locationKeys. simpl. intros [H | [H | [H | [H | [H | []]]]]]; discriminate.
Defined.

(** A message on the scene with no input assigned: the latitude is stored,
    the refresh throws, and the callback prints an error of parsing. *)
Lemma refresh_failure_witness :
  let w' := onGPSLocationResponse sampleToFixed "first" (Parsed (JObject topicMessage))
              unassignedScene in
  exists message : string,
    MK.latitude (mobileKitManager w') = JNumber 52.2175 /\
    console w'
    = ["startGPSLocationSubscription() - GPS Location subscription response: first";
       "startGPSLocationSubscription() - Error parsing GPS location data: TypeError"
       ++ message].
Proof.
  cbv zeta.
  pose proof (refresh_failure_in_the_callback_is_printed_as_parse_error sampleToFixed
                "first" topicMessage unassignedScene) as H.
  cbv zeta in H. destruct H as (_ & H & _).
  destruct (H eq_refl) as [message Heq]. exists message.
  rewrite Heq. split; reflexivity.
Defined.

(** After a message whose latitude is a string, on the assigned scene with
    the mobile kit enabled, the delivery of a position throws. *)
Lemma primary_callback_throws_witness :
  let w := onGPSLocationResponse sampleToFixed "first" (Parsed (JObject textualMessage))
             (atStart (assignedScene false true)) in
  exists w', onGeoPosition sampleToFixed samplePosition w = Threw TypeError w'.
Proof.
  cbv zeta. eexists.
  apply (proj1 (primary_callbacks_throw_on_a_non_numeric_secondary_value sampleToFixed
                  (onGPSLocationResponse sampleToFixed "first"
                     (Parsed (JObject textualMessage))
                     (atStart (assignedScene false true)))
                  eq_refl eq_refl eq_refl eq_refl eq_refl eq_refl)).
Defined.

(** A session on the assigned lens in which every callback runs. *)
Lemma no_turn_throws_witness :
  let hand := UP.leftHand (samplePanel true true) in
  let turns := [ComponentTurn Started; PanelFrame hand (0, 0, 0)%float;
                ComponentTurn FrameUpdate; PanelDelayedCallback;
                ComponentTurn StartMobileKitPressed; ComponentTurn RepeatEventFired;
                ComponentTurn (GPSLocationReceived "first" (Parsed firstMessage));
                ComponentTurn (PositionDelivered samplePosition);
                PanelFrame hand (0, 0, 0)%float;
                ComponentTurn (OrientationUpdated 45);
                ComponentTurn DetailsButtonPressed;
                ComponentTurn (GPSLocationReceived "second" (Parsed secondMessage));
                ComponentTurn CloseButtonPressed;
                ComponentTurn (PositionFailed "timeout")] in
  thrownIn sampleToFixed (platform := sampleVectors) turns sampleLens = [].
Proof.
  cbv zeta.
  match goal with
  | |- thrownIn _ ?turns ?l = [] =>
      refine (proj1 (no_turn_throws_on_an_assigned_lens_with_numeric_payloads
                       sampleToFixed sampleVec3 sampleQuat sampleVectors turns l _ eq_refl))
  end.
  split; [split; [reflexivity | split; reflexivity] | reflexivity].
Defined.

(** A frame after a satellite fix and an orientation update. *)
Lemma frame_shows_the_current_reading_witness :
  let w := run sampleToFixed [Started; RepeatEventFired; PositionDelivered samplePosition;
                              OrientationUpdated 45]
             (atStart (assignedScene false true)) in
  HL.sourceValueText (handLocked (onUpdate sampleToFixed w)) = Some "GNSS / GPS" /\
  HL.compassImage (handLocked (onUpdate sampleToFixed w)) = Some (45 * PI / 180)%float.
Proof.
  cbv zeta.
  pose proof (frame_shows_the_current_reading_on_the_compact_panel sampleToFixed
                (run sampleToFixed [Started; RepeatEventFired;
                                    PositionDelivered samplePosition;
                                    OrientationUpdated 45]
                   (atStart (assignedScene false true)))) as H.
  cbv zeta in H. destruct H as (H & _).
  destruct (H eq_refl) as (Hsource & _ & _ & Hcompass & _).
  rewrite Hsource, Hcompass. split; reflexivity.
Defined.

(** The start control on the device, before any message. *)
Lemma start_control_witness :
  let w := atStart (assignedScene false false) in
  exists w',
    startMobileKitButtonPressed sampleToFixed w = Done w' /\
    FD.mobileKitManagerSceneObject (floatingDetails w') = Some true /\
    FD.mobileKitText (floatingDetails w') = Some "No Mobile Kit data".
Proof.
  cbv zeta.
  destruct (proj2 (start_control_enables_the_mobile_kit_and_refreshes sampleToFixed
                     (atStart (assignedScene false false))))
    as (w' & Hdone & Henabled & _ & Hshows).
  - split; [reflexivity | split; reflexivity].
  - exists w'. split; [exact Hdone | split; [exact Henabled |]].
    exact (proj1 (proj1 Hshows)).
Defined.

(** The details control on the assigned scene. *)
Lemma details_control_witness :
  let w := atStart (assignedScene false true) in
  floatingDetailsUIFrameEnabled (sceneOf (detailsButtonPressed sampleToFixed w)) = true /\
  closeButtonPressed w = withFrameEnabled w false.
Proof.
  cbv zeta.
  destruct (details_and_close_controls_switch_the_details_frame sampleToFixed
              (atStart (assignedScene false true))) as (Hdetails & _ & Hclose & _).
  split; [exact (proj1 (Hdetails eq_refl)) | exact (proj1 (Hclose eq_refl))].
Defined.

(** A refresh on the device with the mobile kit enabled and a reading. *)
Lemma refresh_replaces_the_pin_twice_witness :
  let w := withMK (atStart (assignedScene false true))
             {| MK.floatingDetailsUIContentManager := true;
                MK.latitude := JNumber 52.2175; MK.longitude := JNumber 5.1696;
                MK.horizontalAccuracy := JNumber 9.08; MK.altitude := JNumber 0;
                MK.verticalAccuracy := JNumber 0 |} in
  exists w',
    updateContent sampleToFixed w = Done w' /\
    FD.mobileKitPin (floatingDetails w')
    = Some {| pinId := 1; pinLongitude := JNumber 5.1696; pinLatitude := JNumber 52.2175 |}.
Proof.
  cbv zeta.
  destruct (refresh_in_the_active_state_replaces_the_pin_twice sampleToFixed
              (withMK (atStart (assignedScene false true))
                 {| MK.floatingDetailsUIContentManager := true;
                    MK.latitude := JNumber 52.2175; MK.longitude := JNumber 5.1696;
                    MK.horizontalAccuracy := JNumber 9.08; MK.altitude := JNumber 0;
                    MK.verticalAccuracy := JNumber 0 |})
              {| pins := []; nextPinId := 0 |}
              eq_refl eq_refl eq_refl eq_refl eq_refl eq_refl eq_refl)
    as (w' & Hdone & Hpin & _).
  exists w'. split; [exact Hdone | exact Hpin].
Defined.

(** A session in the editor: messages arrive, the start control is pressed. *)
Lemma no_pin_in_the_editor_witness :
  let events := [Started; GPSLocationReceived "first" (Parsed firstMessage);
                 StartMobileKitPressed; DetailsButtonPressed] in
  noPin (run sampleToFixed events (atStart (assignedScene true true))).
Proof.
  cbv zeta.
  apply (proj2 (pin_is_placed_only_in_the_active_state sampleToFixed));
    [reflexivity | split; reflexivity].
Defined.

(** A frame of the hidden panel with the hand tracked and facing the
    camera. *)
Lemma hand_panel_frame_witness :
  exists p' plate',
    UP.onUpdate (platform := sampleVectors) (samplePanel true true) = UP.Returned p' /\
    UP.handLockedUIBackPlate p' = Some plate' /\
    UP.enabled plate' = true.
Proof.
  destruct (proj2 (hand_panel_frame_sets_visibility_from_the_hand
                     sampleVec3 sampleQuat sampleVectors (samplePanel true true))
              _ eq_refl)
    as (p' & plate' & Hdone & Hplate & Henabled & _).
  exists p', plate'. split; [exact Hdone | split; [exact Hplate | exact Henabled]].
Defined.

(** A session on the device that connects, is interrupted and connects
    again. *)
Lemma session_subscribes_once_witness :
  let events := [MS.Disconnected; MS.Connected (Normal tt); MS.Disconnected;
                 MS.Connected (Normal tt)] in
  MS.subscriptions (MS.run events (MS.onStart (MS.atStart false))) = 1.
Proof.
  cbv zeta.
  exact (proj2 (proj2 (proj2 (proj2
           (session_starts_at_most_one_subscription false
              [MS.Disconnected; MS.Connected (Normal tt); MS.Disconnected;
               MS.Connected (Normal tt)]))))
           [MS.Disconnected] [MS.Disconnected; MS.Connected (Normal tt)] (Normal tt)
           eq_refl eq_refl eq_refl).
Defined.
